(** * security-rule-converter: a shallow embedding of the file-to-rule pipeline

    The development follows the two variants of the repository:
    - [asr_challenge/] ([rule_generator.py], [file_processor.py], [main.py]);
    - [security-rule-converter/converter/main.py].

    Python [str] values are modelled by [string]; a character stands for a
    code point in the range 0..255.  Python [bytes] values are [list byte].
    Every such [str] can be encoded as UTF-8 ([model_names_encode]).  A
    file name whose bytes on disk are not UTF-8 reaches Python with lone
    surrogates in it and is not a [string] of this model
    ([escaped_name_has_no_encoding]): for such a name [filename.encode()]
    raises in [_generate_sigma_rule], from each branch of [generate_rules]
    and again from its fallback, so that no bundle is returned for the
    file.  What is stated below about the bundle of a file is stated for
    the names of the model. *)

From Stdlib Require Import String Ascii List ZArith Lia Bool Arith.
From Stdlib.Strings Require Import Byte.
From Stdlib Require Import DecimalString.
From Equations Require Import Equations.
Import ListNotations.

Local Open Scope list_scope.
Local Open Scope string_scope.

(* ===================================================================== *)
(** ** The Python built-ins the sources call *)
(* ===================================================================== *)

Module Py.

Definition chr (n : nat) : ascii := ascii_of_nat n.
Definition ord (c : ascii) : nat := nat_of_ascii c.

(** The characters that cannot be typed inside a literal. *)
Definition nl : string := String (chr 10) "".
Definition dq : string := String (chr 34) "".
Definition bslash : string := String (chr 92) "".

Definition in_range (lo hi : nat) (c : ascii) : bool :=
  (lo <=? ord c)%nat && (ord c <=? hi)%nat.

(** [c.isspace()] on the code points 0..255. *)
Definition isspace (c : ascii) : bool :=
  in_range 9 13 c || in_range 28 32 c
  || (ord c =? 133)%nat || (ord c =? 160)%nat.

(** The class [[A-Za-z0-9_]]. *)
Definition is_ascii_word (c : ascii) : bool :=
  in_range 48 57 c || in_range 65 90 c
  || (ord c =? 95)%nat || in_range 97 122 c.

(** [\w] of the [re] module on a [str] pattern: alphanumeric code points
    and the underscore; above 127 these are the letters and numerics of
    Latin-1. *)
Definition is_word (c : ascii) : bool :=
  is_ascii_word c
  || (ord c =? 170)%nat || (ord c =? 178)%nat || (ord c =? 179)%nat
  || (ord c =? 181)%nat || (ord c =? 185)%nat || (ord c =? 186)%nat
  || in_range 188 190 c || in_range 192 214 c
  || in_range 216 246 c || in_range 248 255 c.

(** [c.isprintable()] on the code points 0..255. *)
Definition isprintable (c : ascii) : bool :=
  in_range 32 126 c || in_range 161 172 c || in_range 174 255 c.

(** [c.lower()] on the code points 0..255. *)
Definition lower_char (c : ascii) : ascii :=
  if in_range 65 90 c || (in_range 192 222 c && negb (ord c =? 215)%nat)
  then chr (ord c + 32) else c.

Fixpoint lower (s : string) : string :=
  match s with
  | EmptyString => EmptyString
  | String c s' => String (lower_char c) (lower s')
  end.

(** [sub in s]. *)
Fixpoint contains (sub s : string) : bool :=
  String.prefix sub s
  || match s with
     | EmptyString => false
     | String _ s' => contains sub s'
     end.

(** [s.endswith(suffix)]. *)
Definition endswith (s suffix : string) : bool :=
  (String.length suffix <=? String.length s)%nat
  && String.eqb
       (String.substring (String.length s - String.length suffix)
                         (String.length suffix) s)
       suffix.

(** [s.replace(old, new)] for a one-character [old], which is the only
    way the sources call it. *)
Fixpoint replace (old : ascii) (new : string) (s : string) : string :=
  match s with
  | EmptyString => EmptyString
  | String c s' =>
      if Ascii.eqb c old then new ++ replace old new s'
      else String c (replace old new s')
  end.

(** [s.split(sep)] for a one-character separator: never an empty list. *)
Fixpoint split (sep : ascii) (s : string) : list string :=
  match s with
  | EmptyString => [EmptyString]
  | String c s' =>
      if Ascii.eqb c sep then EmptyString :: split sep s'
      else match split sep s' with
           | [] => [String c EmptyString]
           | w :: ws => String c w :: ws
           end
  end.

(** [l[-1]] on a list of strings that [split] returned. *)
Definition last_item (l : list string) : string := List.last l EmptyString.

Fixpoint lstrip (s : string) : string :=
  match s with
  | EmptyString => EmptyString
  | String c s' => if isspace c then lstrip s' else s
  end.

Fixpoint rstrip (s : string) : string :=
  match s with
  | EmptyString => EmptyString
  | String c s' =>
      match rstrip s' with
      | EmptyString => if isspace c then EmptyString else String c EmptyString
      | r => String c r
      end
  end.

(** [s.strip()]. *)
Definition strip (s : string) : string := rstrip (lstrip s).

(** [sep.join(l)]. *)
Definition join (sep : string) (l : list string) : string :=
  String.concat sep l.

(** [s[:n]]. *)
Definition take (n : nat) (s : string) : string := String.substring 0 n s.

(** [re.sub(r'\W+', '_', s)]: every maximal run of non-word characters
    becomes one underscore.  [in_run] tells that the previous character
    belonged to such a run. *)
Fixpoint sub_nonword_runs (in_run : bool) (s : string) : string :=
  match s with
  | EmptyString => EmptyString
  | String c s' =>
      if is_word c then String c (sub_nonword_runs false s')
      else if in_run then sub_nonword_runs true s'
           else String "_" (sub_nonword_runs true s')
  end.

Definition re_sub_W_plus (s : string) : string := sub_nonword_runs false s.

(** [str(n)] and the [{n}] of an f-string for an [int]. *)
Definition str_of_int (n : Z) : string :=
  NilZero.string_of_int (Z.to_int n).

(** [str(i)] for a natural number. *)
Definition str_of_nat (n : nat) : string := str_of_int (Z.of_nat n).

(** [all(p(c) for c in s)]. *)
Fixpoint all_chars (p : ascii -> bool) (s : string) : bool :=
  match s with
  | EmptyString => true
  | String c s' => p c && all_chars p s'
  end.

(** [s] occurs in [t], as a proposition. *)
Definition embeds (t s : string) : Prop :=
  exists pre post, t = pre ++ s ++ post.

End Py.

(* ===================================================================== *)
(** ** [hashlib.md5]: the MD5 message digest (RFC 1321) *)
(* ===================================================================== *)

Module MD5.

Local Open Scope Z_scope.

(** Words are 32-bit unsigned integers kept in [Z]. *)
Definition w32 (x : Z) : Z := Z.land x 0xffffffff.
Definition not32 (x : Z) : Z := Z.lxor x 0xffffffff.
Definition rotl (x c : Z) : Z :=
  w32 (Z.lor (Z.shiftl x c) (Z.shiftr x (32 - c))).

Definition shifts : list Z :=
  [ 7; 12; 17; 22; 7; 12; 17; 22; 7; 12; 17; 22; 7; 12; 17; 22;
    5; 9; 14; 20; 5; 9; 14; 20; 5; 9; 14; 20; 5; 9; 14; 20;
    4; 11; 16; 23; 4; 11; 16; 23; 4; 11; 16; 23; 4; 11; 16; 23;
    6; 10; 15; 21; 6; 10; 15; 21; 6; 10; 15; 21; 6; 10; 15; 21 ].

(** [floor(2^32 * abs(sin(i + 1)))] for i = 0..63. *)
Definition sines : list Z :=
  [ 0xd76aa478; 0xe8c7b756; 0x242070db; 0xc1bdceee;
    0xf57c0faf; 0x4787c62a; 0xa8304613; 0xfd469501;
    0x698098d8; 0x8b44f7af; 0xffff5bb1; 0x895cd7be;
    0x6b901122; 0xfd987193; 0xa679438e; 0x49b40821;
    0xf61e2562; 0xc040b340; 0x265e5a51; 0xe9b6c7aa;
    0xd62f105d; 0x02441453; 0xd8a1e681; 0xe7d3fbc8;
    0x21e1cde6; 0xc33707d6; 0xf4d50d87; 0x455a14ed;
    0xa9e3e905; 0xfcefa3f8; 0x676f02d9; 0x8d2a4c8a;
    0xfffa3942; 0x8771f681; 0x6d9d6122; 0xfde5380c;
    0xa4beea44; 0x4bdecfa9; 0xf6bb4b60; 0xbebfbc70;
    0x289b7ec6; 0xeaa127fa; 0xd4ef3085; 0x04881d05;
    0xd9d4d039; 0xe6db99e5; 0x1fa27cf8; 0xc4ac5665;
    0xf4292244; 0x432aff97; 0xab9423a7; 0xfc93a039;
    0x655b59c3; 0x8f0ccc92; 0xffeff47d; 0x85845dd1;
    0x6fa87e4f; 0xfe2ce6e0; 0xa3014314; 0x4e0811a1;
    0xf7537e82; 0xbd3af235; 0x2ad7d2bb; 0xeb86d391 ].

Record regs := { rA : Z; rB : Z; rC : Z; rD : Z }.

Definition init_regs : regs :=
  {| rA := 0x67452301; rB := 0xefcdab89; rC := 0x98badcfe; rD := 0x10325476 |}.

Definition byte_val (b : byte) : Z := Z.of_N (Byte.to_N b).

(** A little-endian word out of its bytes. *)
Definition word_le (bs : list byte) : Z :=
  fold_right (fun b acc => byte_val b + 256 * acc) 0 bs.

Fixpoint words (n : nat) (bs : list byte) : list Z :=
  match n with
  | O => []
  | S n' => word_le (firstn 4 bs) :: words n' (skipn 4 bs)
  end.

(** One of the 64 operations on a block whose 16 words are [M]. *)
Definition step (M : list Z) (r : regs) (i : nat) : regs :=
  let iz := Z.of_nat i in
  let b := rB r in
  let c := rC r in
  let d := rD r in
  let '(f, g) :=
    if (i <? 16)%nat then
      (Z.lor (Z.land b c) (Z.land (not32 b) d), iz)
    else if (i <? 32)%nat then
      (Z.lor (Z.land d b) (Z.land (not32 d) c), (5 * iz + 1) mod 16)
    else if (i <? 48)%nat then
      (Z.lxor (Z.lxor b c) d, (3 * iz + 5) mod 16)
    else
      (Z.lxor c (Z.lor b (not32 d)), (7 * iz) mod 16) in
  let f' := w32 (f + rA r + nth i sines 0 + nth (Z.to_nat g) M 0) in
  {| rA := d; rB := w32 (b + rotl f' (nth i shifts 0)); rC := b; rD := c |}.

(** The compression of one 64-byte block into the chaining value. *)
Definition compress (h : regs) (block : list byte) : regs :=
  let r := fold_left (step (words 16 block)) (seq 0 64) h in
  {| rA := w32 (rA h + rA r); rB := w32 (rB h + rB r);
     rC := w32 (rC h + rC r); rD := w32 (rD h + rD r) |}.

(** Compress [k] blocks off the front of [data]; the rest is returned. *)
Fixpoint absorb (k : nat) (h : regs) (data : list byte) : regs * list byte :=
  match k with
  | O => (h, data)
  | S k' => absorb k' (compress h (firstn 64 data)) (skipn 64 data)
  end.

Definition absorb_all (h : regs) (data : list byte) : regs * list byte :=
  absorb (List.length data / 64) h data.

(** A hash object: the chaining value, the bytes not yet compressed and
    the number of bytes fed so far. *)
Record state := { chain : regs; pending : list byte; fed : N }.

(** [hashlib.md5()]. *)
Definition new : state := {| chain := init_regs; pending := []; fed := 0%N |}.

(** [m.update(chunk)]. *)
Definition update (m : state) (chunk : list byte) : state :=
  let '(h, rest) := absorb_all (chain m) (pending m ++ chunk) in
  {| chain := h; pending := rest;
     fed := (fed m + N.of_nat (List.length chunk))%N |}.

Definition byte_of_Z (z : Z) : byte :=
  match Byte.of_N (Z.to_N (z mod 256)) with
  | Some b => b
  | None => x00
  end.

(** The [n] low bytes of [z], least significant first. *)
Fixpoint bytes_le (n : nat) (z : Z) : list byte :=
  match n with
  | O => []
  | S n' => byte_of_Z z :: bytes_le n' (z / 256)
  end.

(** The padding: a 1 bit, zeros up to 56 modulo 64, the bit length. *)
Definition padding (m : state) : list byte :=
  let used := Z.of_nat (List.length (pending m)) in
  let zeros := Z.to_nat ((55 - used) mod 64) in
  x80 :: repeat x00 zeros ++ bytes_le 8 ((8 * Z.of_N (fed m)) mod 2 ^ 64).

(** [m.digest()]. *)
Definition digest (m : state) : list byte :=
  let h := fst (absorb_all (chain m) (pending m ++ padding m)) in
  bytes_le 4 (rA h) ++ bytes_le 4 (rB h) ++ bytes_le 4 (rC h)
    ++ bytes_le 4 (rD h).

Definition hex_digit (n : N) : ascii :=
  nth (N.to_nat n)
      [ "0"; "1"; "2"; "3"; "4"; "5"; "6"; "7"; "8"; "9";
        "a"; "b"; "c"; "d"; "e"; "f" ]%char "0"%char.

Fixpoint hex (bs : list byte) : string :=
  match bs with
  | [] => EmptyString
  | b :: bs' =>
      let n := Byte.to_N b in
      String (hex_digit (n / 16)) (String (hex_digit (n mod 16)) (hex bs'))
  end.

(** [m.hexdigest()]. *)
Definition hexdigest (m : state) : string := hex (digest m).

(** [hashlib.md5(data).hexdigest()]. *)
Definition md5_hex (data : list byte) : string := hexdigest (update new data).

End MD5.

(** [s.encode()]: UTF-8, one byte below 128 and two bytes up to 255. *)
Definition encode_char (c : ascii) : list byte :=
  let n := N_of_ascii c in
  if (n <? 128)%N then [byte_of_ascii c]
  else [ MD5.byte_of_Z (192 + Z.of_N (n / 64));
         MD5.byte_of_Z (128 + Z.of_N (n mod 64)) ].

Fixpoint encode (s : string) : list byte :=
  match s with
  | EmptyString => []
  | String c s' => encode_char c ++ encode s'
  end.

(** [s.encode()] on any sequence of code points.  UTF-8 has no encoding
    for the surrogates U+D800..U+DFFF, which is how the bytes of a file
    name that are not UTF-8 reach Python: there [encode] raises
    [UnicodeEncodeError] ([None]). *)
Definition encode_code_point (n : N) : option (list byte) :=
  let b (k : N) := MD5.byte_of_Z (Z.of_N k) in
  if (n <? 128)%N then Some [b n]
  else if (n <? 2048)%N then Some [b (192 + n / 64); b (128 + n mod 64)]%N
  else if ((55296 <=? n) && (n <=? 57343))%N then None
  else if (n <? 65536)%N then
    Some [b (224 + n / 4096); b (128 + (n / 64) mod 64); b (128 + n mod 64)]%N
  else if (n <? 1114112)%N then
    Some [b (240 + n / 262144); b (128 + (n / 4096) mod 64);
          b (128 + (n / 64) mod 64); b (128 + n mod 64)]%N
  else None.

Fixpoint encode_code_points (l : list N) : option (list byte) :=
  match l with
  | [] => Some []
  | n :: l' =>
      match encode_code_point n, encode_code_points l' with
      | Some bs, Some bs' => Some (bs ++ bs')%list
      | _, _ => None
      end
  end.

(** The code points of a [str] of the model. *)
Fixpoint code_points (s : string) : list N :=
  match s with
  | EmptyString => []
  | String c s' => N_of_ascii c :: code_points s'
  end.

(* ===================================================================== *)
(** ** [asr_challenge/rule_generator.py]: the pure renderers *)
(* ===================================================================== *)

(** [self.metadata] of a [RuleGenerator]: the four keys [__init__] sets. *)
Record RuleGenerator := {
  author : string;
  created : string;
  version : string;
  description : string
}.

(** [RuleGenerator.__init__]; [now] is [datetime.now().isoformat()]. *)
Definition RuleGenerator_init (now : string) : RuleGenerator :=
  {| author := "Fariba Mohammaditabar";
     created := now;
     version := "1.0";
     description := "Automatically generated security rules" |}.

(** The [analysis] dictionary that [FileProcessor.analyze_file] returns:
    every key may be missing (the dictionary is empty after a failure). *)
Record analysis := {
  a_file_size : option Z;
  a_modified_time : option Z;
  a_file_name : option string;
  a_file_extension : option string;
  a_has_text_patterns : option bool;
  a_has_binary_patterns : option bool;
  a_potential_indicators : option (list string);
  a_file_type : option string
}.

Definition empty_analysis : analysis :=
  {| a_file_size := None; a_modified_time := None; a_file_name := None;
     a_file_extension := None; a_has_text_patterns := None;
     a_has_binary_patterns := None; a_potential_indicators := None;
     a_file_type := None |}.

(** [d.get(k, default)]. *)
Definition get {A} (o : option A) (default : A) : A :=
  match o with Some v => v | None => default end.

(** [f"{indicator_type}: {pattern}"]. *)
Definition format_indicator (p : string * string) : string :=
  snd p ++ ": " ++ fst p.

(** One turn of the loop [for pattern, indicator_type in patterns]. *)
Definition scan_step (text : string) (indicators : list string)
           (p : string * string) : list string :=
  if Py.contains (fst p) text
  then indicators ++ [format_indicator p]
  else indicators.

Definition rg_patterns : list (string * string) :=
  [ ("http://", "URL");
    ("https://", "URL");
    (".exe", "Executable");
    (".dll", "Library");
    ("malware", "Malware reference");
    ("virus", "Virus reference");
    ("trojan", "Trojan reference");
    ("backdoor", "Backdoor reference");
    ("adware", "Adware reference");
    ("spyware", "Spyware reference") ].

Definition _extract_indicators_from_content (content : string) : list string :=
  let indicators :=
    fold_left (scan_step (Py.lower content)) rg_patterns [] in
  firstn 5 indicators.

(** The entry the loop of [_create_strings_section] appends for the
    indicator at position [i] (counted from 0). *)
Definition indicator_entry (i : nat) (indicator : string) : string :=
  let indicator_text := Py.strip (Py.last_item (Py.split ":" indicator)) in
  "        $indicator_" ++ Py.str_of_nat (i + 1) ++ " = " ++ Py.dq
    ++ indicator_text ++ Py.dq ++ " nocase".

(** [for i, indicator in enumerate(l)], starting the count at [i]. *)
Fixpoint indicator_entries (i : nat) (l : list string) : list string :=
  match l with
  | [] => []
  | indicator :: l' => indicator_entry i indicator :: indicator_entries (S i) l'
  end.

(** The local list [strings] of [_create_strings_section]. *)
Definition strings_entries (filename file_hash : string)
           (indicators : list string) : list string :=
  [ "        $file_name = " ++ Py.dq ++ filename ++ Py.dq ++ " wide ascii";
    "        $hash = " ++ Py.dq ++ file_hash ++ Py.dq ]
  ++ indicator_entries 0 (firstn 3 indicators).

Definition _create_strings_section (filename file_hash : string)
           (indicators : list string) : string :=
  Py.join Py.nl (strings_entries filename file_hash indicators).

(** [filename.replace('.', '_').replace(' ', '_')]. *)
Definition dots_and_spaces (filename : string) : string :=
  Py.replace " " "_" (Py.replace "." "_" filename).

(** The local [rule_name] of [_generate_yara_rule]. *)
Definition yara_rule_name (filename : string) : string :=
  "Rule_" ++ dots_and_spaces filename.

Definition _generate_yara_rule (self : RuleGenerator) (filename : string)
           (a : analysis) (file_hash : string) (indicators : list string)
  : string :=
  let rule_name := yara_rule_name filename in
  let strings_section := _create_strings_section filename file_hash indicators in
  "rule " ++ rule_name ++ Py.nl
  ++ "{" ++ Py.nl
  ++ "    meta:" ++ Py.nl
  ++ "        author = " ++ Py.dq ++ author self ++ Py.dq ++ Py.nl
  ++ "        date = " ++ Py.dq ++ created self ++ Py.dq ++ Py.nl
  ++ "        description = " ++ Py.dq ++ "Generated from " ++ filename
       ++ Py.dq ++ Py.nl
  ++ "        file_type = " ++ Py.dq ++ get (a_file_type a) "unknown"
       ++ Py.dq ++ Py.nl
  ++ "        file_size = " ++ Py.str_of_int (get (a_file_size a) 0%Z) ++ Py.nl
  ++ "        md5 = " ++ Py.dq ++ file_hash ++ Py.dq ++ Py.nl
  ++ Py.nl
  ++ "    strings:" ++ Py.nl
  ++ strings_section ++ Py.nl
  ++ "        " ++ Py.nl
  ++ "    condition:" ++ Py.nl
  ++ "        any of them" ++ Py.nl
  ++ "}" ++ Py.nl.

Definition csv_rule_name (filename : string) : string :=
  "CSV_Rule_" ++ dots_and_spaces filename.

Definition _generate_csv_yara_rule (self : RuleGenerator)
           (filename file_hash : string) : string :=
  let rule_name := csv_rule_name filename in
  "rule " ++ rule_name ++ Py.nl
  ++ "{" ++ Py.nl
  ++ "    meta:" ++ Py.nl
  ++ "        author = " ++ Py.dq ++ author self ++ Py.dq ++ Py.nl
  ++ "        date = " ++ Py.dq ++ created self ++ Py.dq ++ Py.nl
  ++ "        description = " ++ Py.dq ++ "Basic rule for CSV file: "
       ++ filename ++ Py.dq ++ Py.nl
  ++ "        file_type = " ++ Py.dq ++ "text/csv" ++ Py.dq ++ Py.nl
  ++ Py.nl
  ++ "    strings:" ++ Py.nl
  ++ "        $file_name = " ++ Py.dq ++ filename ++ Py.dq ++ " wide ascii"
       ++ Py.nl
  ++ "        $hash = " ++ Py.dq ++ file_hash ++ Py.dq ++ Py.nl
  ++ "        " ++ Py.nl
  ++ "    condition:" ++ Py.nl
  ++ "        any of them" ++ Py.nl
  ++ "}" ++ Py.nl.

Definition basic_rule_name (filename : string) : string :=
  "Basic_Rule_" ++ dots_and_spaces filename.

Definition _generate_basic_yara_rule (self : RuleGenerator)
           (filename file_hash : string) : string :=
  let rule_name := basic_rule_name filename in
  "rule " ++ rule_name ++ Py.nl
  ++ "{" ++ Py.nl
  ++ "    meta:" ++ Py.nl
  ++ "        author = " ++ Py.dq ++ author self ++ Py.dq ++ Py.nl
  ++ "        date = " ++ Py.dq ++ created self ++ Py.dq ++ Py.nl
  ++ "        description = " ++ Py.dq ++ "Basic rule for " ++ filename
       ++ Py.dq ++ Py.nl
  ++ Py.nl
  ++ "    strings:" ++ Py.nl
  ++ "        $file_name = " ++ Py.dq ++ filename ++ Py.dq ++ " wide ascii"
       ++ Py.nl
  ++ "        $hash = " ++ Py.dq ++ file_hash ++ Py.dq ++ Py.nl
  ++ "        " ++ Py.nl
  ++ "    condition:" ++ Py.nl
  ++ "        any of them" ++ Py.nl
  ++ "}" ++ Py.nl.


Definition _generate_sigma_rule (self : RuleGenerator) (filename : string)
           (a : analysis) (file_hash : string) : string :=
  "title: Suspicious File - " ++ filename ++ Py.nl
  ++ "id: " ++ MD5.md5_hex (encode filename) ++ Py.nl
  ++ "status: experimental" ++ Py.nl
  ++ "description: Detects presence of " ++ filename ++ Py.nl
  ++ "author: " ++ author self ++ Py.nl
  ++ "date: " ++ created self ++ Py.nl
  ++ "logsource:" ++ Py.nl
  ++ "    category: file_event" ++ Py.nl
  ++ "detection:" ++ Py.nl
  ++ "    selection:" ++ Py.nl
  ++ "        FileName|endswith: '" ++ filename ++ "'" ++ Py.nl
  ++ "    condition: selection" ++ Py.nl
  ++ "falsepositives:" ++ Py.nl
  ++ "    - Unknown" ++ Py.nl
  ++ "level: medium" ++ Py.nl.

(** The dictionary [_generate_metadata] returns; its key set is fixed. *)
Record metadata := {
  m_author : string;
  m_created : string;
  m_version : string;
  m_description : string;
  source_file : string;
  file_size : Z;
  file_type : string;
  analysis_date : string;
  file_hash : string;
  indicators_found : list string;
  status : string
}.

(** [now] is the [datetime.now().isoformat()] read inside the call. *)
Definition _generate_metadata (self : RuleGenerator) (filename : string)
           (a : analysis) (hash : string) (indicators : list string)
           (now : string) : metadata :=
  {| m_author := author self;
     m_created := created self;
     m_version := version self;
     m_description := description self;
     source_file := filename;
     file_size := get (a_file_size a) 0%Z;
     file_type := get (a_file_type a) "unknown";
     analysis_date := now;
     file_hash := hash;
     indicators_found := indicators;
     status := "generated" |}.

(** The dictionary of three artifacts that [generate_rules] returns and
    [_save_rules] reads with [rules.get]. *)
Record rules := {
  yara : option string;
  sigma : option string;
  meta : option metadata
}.

(* ===================================================================== *)
(** ** [json.dump(obj, f, indent=2)] on a metadata dictionary *)
(* ===================================================================== *)

Module Json.

Inductive value :=
| JStr (s : string)
| JInt (n : Z)
| JArr (l : list string).

Definition hex4 (n : nat) : string :=
  "00" ++ String (MD5.hex_digit (N.of_nat n / 16))
            (String (MD5.hex_digit (N.of_nat n mod 16)) "").

(** The escapes of [ensure_ascii=True]. *)
Definition escape_char (c : ascii) : string :=
  let n := Py.ord c in
  if (n =? 34)%nat then Py.bslash ++ Py.dq
  else if (n =? 92)%nat then Py.bslash ++ Py.bslash
  else if (n =? 10)%nat then Py.bslash ++ "n"
  else if (n =? 13)%nat then Py.bslash ++ "r"
  else if (n =? 9)%nat then Py.bslash ++ "t"
  else if (n =? 8)%nat then Py.bslash ++ "b"
  else if (n =? 12)%nat then Py.bslash ++ "f"
  else if Py.in_range 32 126 c then String c ""
  else Py.bslash ++ "u" ++ hex4 n.

Fixpoint escape (s : string) : string :=
  match s with
  | EmptyString => EmptyString
  | String c s' => escape_char c ++ escape s'
  end.

Definition quote (s : string) : string := Py.dq ++ escape s ++ Py.dq.

Definition dump_value (v : value) : string :=
  match v with
  | JStr s => quote s
  | JInt n => Py.str_of_int n
  | JArr [] => "[]"
  | JArr l =>
      "[" ++ Py.nl
      ++ Py.join ("," ++ Py.nl) (map (fun s => "    " ++ quote s) l)
      ++ Py.nl ++ "  ]"
  end.

Definition dumps (obj : list (string * value)) : string :=
  match obj with
  | [] => "{}"
  | _ =>
      "{" ++ Py.nl
      ++ Py.join ("," ++ Py.nl)
           (map (fun kv => "  " ++ quote (fst kv) ++ ": " ++ dump_value (snd kv))
                obj)
      ++ Py.nl ++ "}"
  end.

(** The items of the dictionary, in insertion order. *)
Definition of_metadata (m : metadata) : list (string * value) :=
  [ ("author", JStr (m_author m));
    ("created", JStr (m_created m));
    ("version", JStr (m_version m));
    ("description", JStr (m_description m));
    ("source_file", JStr (source_file m));
    ("file_size", JInt (file_size m));
    ("file_type", JStr (file_type m));
    ("analysis_date", JStr (analysis_date m));
    ("file_hash", JStr (file_hash m));
    ("indicators_found", JArr (indicators_found m));
    ("status", JStr (status m)) ].

(** [rules.get('metadata', {})] as [json.dump] sees it. *)
Definition of_meta (o : option metadata) : list (string * value) :=
  match o with
  | Some m => of_metadata m
  | None => []
  end.

End Json.

(* ===================================================================== *)
(** ** [security-rule-converter/converter/main.py] *)
(* ===================================================================== *)

Module Converter.

Definition convert_to_yara (filename content : string) : string :=
  let rule_name := Py.re_sub_W_plus filename in
  let snippet := Py.replace (Py.chr 34) (Py.bslash ++ Py.dq) (Py.take 20 content) in
  let yara_rule :=
    Py.nl
    ++ "rule " ++ rule_name ++ Py.nl
    ++ "{" ++ Py.nl
    ++ "    strings:" ++ Py.nl
    ++ "        $a = " ++ Py.dq ++ snippet ++ Py.dq ++ Py.nl
    ++ "    condition:" ++ Py.nl
    ++ "        $a" ++ Py.nl
    ++ "}" ++ Py.nl in
  Py.strip yara_rule.

End Converter.

(* ===================================================================== *)
(** ** The world: files, clock, output directory, log *)
(* ===================================================================== *)

Inductive exn :=
| FileNotFoundError (msg : string)
| PermissionError (msg : string)
| IsADirectoryError (msg : string)
| OSError (msg : string).

(** [str(e)]. *)
Definition exn_str (e : exn) : string :=
  match e with
  | FileNotFoundError m | PermissionError m | IsADirectoryError m | OSError m => m
  end.

Inductive res (A : Type) :=
| Ok (a : A)
| Raise (e : exn).
Arguments Ok {A} a.
Arguments Raise {A} e.

(** A regular file: its bytes, its modification time, whether [open]
    succeeds, and the [read] call of a handle (counted from 0) that fails
    with an I/O error, if any. *)
Record file := {
  f_data : list byte;
  f_mtime : Z;
  f_openable : bool;
  f_fault : option nat
}.

(** What a path names: nothing, a directory with its size, modification
    time and the names of its children in listing order, or a regular
    file.  [Inaccessible] is a path the process may not look at: it lies in
    a directory without search permission, so that [stat], [open], [mkdir]
    and the listing of it all fail with [EACCES], whatever is there. *)
Inductive node :=
| Missing
| Directory (size mtime : Z) (names : list string)
| Regular (f : file)
| Inaccessible.

(** The [PermissionError] of a refused system call on a path. *)
Definition permission_denied (path : string) : exn :=
  PermissionError ("[Errno 13] Permission denied: '" ++ path ++ "'").

Inductive level := INFO | WARNING | ERROR.

(** The input files ([w_node]) are never changed by a run; what a run
    writes is appended to [w_written], what it logs to [w_log], what it
    prints to [w_stdout].  [w_magic] is the answer of libmagic for a path
    ([None] when it raises), [w_write_denied] tells the paths that cannot be
    opened for writing, [w_now] is the reading of the clock. *)
Record world := {
  w_node : string -> node;
  w_magic : string -> option string;
  w_write_denied : string -> bool;
  w_now : string;
  w_written : list (string * string);
  w_log : list (level * string);
  w_stdout : list string
}.

(** Computations that read and change the world and may raise. *)
Definition M (A : Type) : Type := world -> res A * world.

Definition ret {A} (a : A) : M A := fun w => (Ok a, w).

Definition bind {A B} (c : M A) (k : A -> M B) : M B :=
  fun w =>
    match c w with
    | (Ok a, w') => k a w'
    | (Raise e, w') => (Raise e, w')
    end.

Definition raise {A} (e : exn) : M A := fun w => (Raise e, w).

(** [try: body  except Exception as e: handler(e)]. *)
Definition try_except {A} (body : M A) (handler : exn -> M A) : M A :=
  fun w =>
    match body w with
    | (Ok a, w') => (Ok a, w')
    | (Raise e, w') => handler e w'
    end.

Definition lift {A} (r : res A) : M A := fun w => (r, w).

Notation "x <- c1 ;; c2" := (bind c1 (fun x => c2))
  (at level 61, c1 at next level, right associativity).
Notation "c1 ;; c2" := (bind c1 (fun _ => c2))
  (at level 61, right associativity).

Definition log (l : level) (msg : string) : M unit :=
  fun w =>
    (Ok tt,
     {| w_node := w_node w; w_magic := w_magic w;
        w_write_denied := w_write_denied w; w_now := w_now w;
        w_written := w_written w;
        w_log := w_log w ++ [(l, msg)];
        w_stdout := w_stdout w |}).

Definition print (msg : string) : M unit :=
  fun w =>
    (Ok tt,
     {| w_node := w_node w; w_magic := w_magic w;
        w_write_denied := w_write_denied w; w_now := w_now w;
        w_written := w_written w;
        w_log := w_log w;
        w_stdout := w_stdout w ++ [msg] |}).

(** [datetime.now().isoformat()]. *)
Definition now : M string := fun w => (Ok (w_now w), w).

(** [with open(path, 'w', encoding='utf-8') as f: f.write(text)]. *)
Definition write_file (path text : string) : M unit :=
  fun w =>
    if w_write_denied w path
    then (Raise (PermissionError ("[Errno 13] Permission denied: '" ++ path ++ "'")), w)
    else
      (Ok tt,
       {| w_node := w_node w; w_magic := w_magic w;
          w_write_denied := w_write_denied w; w_now := w_now w;
          w_written := w_written w ++ [(path, text)];
          w_log := w_log w;
          w_stdout := w_stdout w |}).

(** An open file: the bytes still to read and the number of [read] calls
    made so far. *)
Record handle := {
  h_rest : list byte;
  h_calls : nat;
  h_fault : option nat
}.

(** [open(path, 'rb')] and [open(path, 'r', ...)]. *)
Definition open (path : string) : M handle :=
  fun w =>
    match w_node w path with
    | Missing =>
        (Raise (FileNotFoundError
                  ("[Errno 2] No such file or directory: '" ++ path ++ "'")), w)
    | Directory _ _ _ =>
        (Raise (IsADirectoryError
                  ("[Errno 21] Is a directory: '" ++ path ++ "'")), w)
    | Regular f =>
        if f_openable f
        then (Ok {| h_rest := f_data f; h_calls := 0; h_fault := f_fault f |}, w)
        else (Raise (PermissionError
                       ("[Errno 13] Permission denied: '" ++ path ++ "'")), w)
    | Inaccessible => (Raise (permission_denied path), w)
    end.

Definition faulty (h : handle) : bool :=
  match h_fault h with
  | Some k => (k =? h_calls h)%nat
  | None => false
  end.

(** [f.read(n)] on a binary handle. *)
Definition f_read (n : nat) (h : handle) : res (list byte) * handle :=
  if faulty h
  then (Raise (OSError "[Errno 5] Input/output error"),
        {| h_rest := h_rest h; h_calls := S (h_calls h); h_fault := h_fault h |})
  else (Ok (firstn n (h_rest h)),
        {| h_rest := skipn n (h_rest h); h_calls := S (h_calls h);
           h_fault := h_fault h |}).

(** [f.read()]: everything that is left. *)
Definition f_read_all (h : handle) : res (list byte) * handle :=
  f_read (List.length (h_rest h)) h.

(** The size of the chunks [_calculate_file_hash] reads. *)
Definition chunk_size : nat := 4096.

(** [for chunk in iter(lambda: f.read(4096), b""): hash_md5.update(chunk)]. *)
Equations? hash_loop (h : handle) (m : MD5.state) : res MD5.state
  by wf (List.length (h_rest h)) lt :=
  hash_loop h m with Equations.Prop.Logic.inspect (f_read chunk_size h) := {
    | exist _ (Raise e, _) _ := Raise e;
    | exist _ (Ok [], _) _ := Ok m;
    | exist _ (Ok (b :: chunk), h') Heq :=
        hash_loop h' (MD5.update m (b :: chunk)) }.
Proof.
  revert Heq. generalize chunk_size as n. intros n Heq.
  unfold f_read in Heq. destruct (faulty h); [discriminate|].
  injection Heq as Hchunk Hh'. subst h'. cbn [h_rest].
  rewrite length_skipn.
  destruct n as [|n]; [discriminate|].
  destruct (h_rest h) as [|x rest]; [discriminate|].
  cbn [List.length]. lia.
Qed.

Definition _calculate_file_hash (file_path : string) : M string :=
  try_except
    (let hash_md5 := MD5.new in
     f <- open file_path ;;
     hash_md5 <- lift (hash_loop f hash_md5) ;;
     ret (MD5.hexdigest hash_md5))
    (fun _ => ret "hash_calculation_failed").

(* ===================================================================== *)
(** ** Paths ([pathlib.Path]) *)
(* ===================================================================== *)

(** [dir / name]. *)
Definition path_join (dir name : string) : string := dir ++ "/" ++ name.

(** [path.name]. *)
Definition path_name (path : string) : string :=
  Py.last_item (Py.split "/" path).

(** The position test of [suffix] and [stem]: the last dot of the name is
    neither its first nor its last character. *)
Definition splits_at_dot (name : string) : bool :=
  let parts := Py.split "." name in
  negb (String.eqb (Py.join "." (removelast parts)) "")
  && negb (String.eqb (Py.last_item parts) "")
  && (2 <=? List.length parts)%nat.

(** [path.stem]. *)
Definition path_stem (path : string) : string :=
  let name := path_name path in
  if splits_at_dot name then Py.join "." (removelast (Py.split "." name))
  else name.

(** [path.suffix]. *)
Definition path_suffix (path : string) : string :=
  let name := path_name path in
  if splits_at_dot name then "." ++ Py.last_item (Py.split "." name)
  else "".

(** [path.exists()], [path.is_file()] and the [is_dir()] test of [glob]
    call [stat] and answer [False] when the path does not exist; a refused
    [stat] is not among the errors they ignore, so its [PermissionError]
    reaches the caller. *)

(** [path.exists()]. *)
Definition path_exists (path : string) : M bool :=
  fun w =>
    match w_node w path with
    | Missing => (Ok false, w)
    | Directory _ _ _ | Regular _ => (Ok true, w)
    | Inaccessible => (Raise (permission_denied path), w)
    end.

(** [path.is_file()]. *)
Definition is_file (path : string) : M bool :=
  fun w =>
    match w_node w path with
    | Regular _ => (Ok true, w)
    | Missing | Directory _ _ _ => (Ok false, w)
    | Inaccessible => (Raise (permission_denied path), w)
    end.

(** [path.glob('*')]: the children, in listing order; nothing for a path
    that is not a directory. *)
Definition glob_all (path : string) : M (list string) :=
  fun w =>
    match w_node w path with
    | Directory _ _ names => (Ok (map (path_join path) names), w)
    | Missing | Regular _ => (Ok [], w)
    | Inaccessible => (Raise (permission_denied path), w)
    end.

(** [path.stat()]: [st_size] and [st_mtime]. *)
Definition stat (path : string) : M (Z * Z) :=
  fun w =>
    match w_node w path with
    | Missing =>
        (Raise (FileNotFoundError
                  ("[Errno 2] No such file or directory: '" ++ path ++ "'")), w)
    | Directory size mtime _ => (Ok (size, mtime), w)
    | Regular f => (Ok (Z.of_nat (List.length (f_data f)), f_mtime f), w)
    | Inaccessible => (Raise (permission_denied path), w)
    end.

(** The newline translation of a file opened in text mode. *)
Fixpoint universal_newlines (s : string) : string :=
  match s with
  | EmptyString => EmptyString
  | String c s' =>
      if (Py.ord c =? 13)%nat then
        match s' with
        | String c2 s'' =>
            if (Py.ord c2 =? 10)%nat
            then Py.nl ++ universal_newlines s''
            else Py.nl ++ universal_newlines s'
        | EmptyString => Py.nl
        end
      else String c (universal_newlines s')
  end.

(** [any(b > 127 for b in content[:100])]. *)
Definition _has_binary_patterns (content : list byte) : bool :=
  existsb (fun b => (127 <? Byte.to_N b)%N) (firstn 100 content).

Fixpoint any_char (p : ascii -> bool) (s : string) : bool :=
  match s with
  | EmptyString => false
  | String c s' => p c || any_char p s'
  end.

Definition fp_patterns : list (string * string) :=
  [ ("http://", "URL");
    ("https://", "URL");
    (".exe", "Executable");
    (".dll", "Library");
    ("malware", "Malware reference");
    ("virus", "Virus reference") ].

Section Pipeline.

(** [bytes.decode('utf-8', errors='ignore')], the decoder of the Python
    runtime. *)
Variable utf8_ignore : list byte -> string.

(* ------------------------------------------------------------------- *)
(** *** [asr_challenge/file_processor.py] *)

Definition _has_text_patterns (content : list byte) : bool :=
  let text_content := utf8_ignore content in
  any_char Py.isprintable (Py.take 100 text_content).

Definition _find_potential_indicators (content : list byte) : list string :=
  let text_content := utf8_ignore content in
  fold_left (scan_step (Py.lower text_content)) fp_patterns [].

(** The four keys of [_get_file_info]. *)
Definition _get_file_info (file_path : string)
  : M (Z * Z * string * string) :=
  st <- stat file_path ;;
  ret (fst st, snd st, path_name file_path, Py.lower (path_suffix file_path)).

Definition _detect_file_type (file_path : string) : M string :=
  fun w =>
    match w_magic w file_path with
    | Some t => (Ok t, w)
    | None => (Ok "unknown", w)
    end.

(** The three keys of [_analyze_content], or [None] for the empty
    dictionary of the failure path. *)
Definition _analyze_content (file_path : string)
  : M (option (bool * bool * list string)) :=
  try_except
    (f <- open file_path ;;
     content <- lift (fst (f_read 4096 f)) ;;
     ret (Some (_has_text_patterns content,
                _has_binary_patterns content,
                _find_potential_indicators content)))
    (fun e =>
       log WARNING ("Could not analyze content of " ++ file_path ++ ": "
                    ++ exn_str e) ;;
       ret None).

Definition analyze_file (file_path : string) : M analysis :=
  try_except
    (file_stats <- _get_file_info file_path ;;
     content_analysis <- _analyze_content file_path ;;
     ft <- _detect_file_type file_path ;;
     let '(size, mtime, name, ext) := file_stats in
     ret {| a_file_size := Some size;
            a_modified_time := Some mtime;
            a_file_name := Some name;
            a_file_extension := Some ext;
            a_has_text_patterns :=
              option_map (fun c => fst (fst c)) content_analysis;
            a_has_binary_patterns :=
              option_map (fun c => snd (fst c)) content_analysis;
            a_potential_indicators :=
              option_map (fun c => snd c) content_analysis;
            a_file_type := Some ft |})
    (fun e =>
       log ERROR ("Error analyzing file " ++ file_path ++ ": " ++ exn_str e) ;;
       ret empty_analysis).

(* ------------------------------------------------------------------- *)
(** *** [asr_challenge/rule_generator.py]: the branches *)

(** [with open(file_path, 'r', encoding='utf-8', errors='ignore') as f:
    content = f.read()]. *)
Definition read_text (file_path : string) : M string :=
  f <- open file_path ;;
  data <- lift (fst (f_read_all f)) ;;
  ret (universal_newlines (utf8_ignore data)).

Definition _generate_basic_rules (self : RuleGenerator) (filename : string)
           (a : analysis) (hash : string) : M rules :=
  t <- now ;;
  ret {| yara := Some (_generate_basic_yara_rule self filename hash);
         sigma := Some (_generate_sigma_rule self filename a hash);
         meta := Some (_generate_metadata self filename a hash [] t) |}.

Definition _generate_rules_from_text (self : RuleGenerator)
           (filename : string) (a : analysis) (file_path hash : string)
  : M rules :=
  try_except
    (content <- read_text file_path ;;
     let indicators := _extract_indicators_from_content content in
     t <- now ;;
     ret {| yara := Some (_generate_yara_rule self filename a hash indicators);
            sigma := Some (_generate_sigma_rule self filename a hash);
            meta := Some (_generate_metadata self filename a hash indicators t) |})
    (fun e =>
       print ("Error processing text file " ++ filename ++ ": " ++ exn_str e) ;;
       _generate_basic_rules self filename a hash).

Definition _generate_rules_from_csv (self : RuleGenerator)
           (filename : string) (a : analysis) (file_path hash : string)
  : M rules :=
  try_except
    (t <- now ;;
     ret {| yara := Some (_generate_csv_yara_rule self filename hash);
            sigma := Some (_generate_sigma_rule self filename a hash);
            meta := Some (_generate_metadata self filename a hash [] t) |})
    (fun e =>
       print ("Error processing CSV file " ++ filename ++ ": " ++ exn_str e) ;;
       _generate_basic_rules self filename a hash).

Definition generate_rules (self : RuleGenerator) (filename : string)
           (a : analysis) (file_path : string) : M rules :=
  hash <- _calculate_file_hash file_path ;;
  if Py.endswith filename ".csv"
  then _generate_rules_from_csv self filename a file_path hash
  else _generate_rules_from_text self filename a file_path hash.

(* ------------------------------------------------------------------- *)
(** *** [asr_challenge/main.py] *)

Record ASRGenerator := {
  input_dir : string;
  output_dir : string;
  rule_generator : RuleGenerator
}.

(** [bool(rules.get(key))] for a text artifact. *)
Definition truthy (o : option string) : bool :=
  match o with
  | Some s => negb (String.eqb s "")
  | None => false
  end.

Definition yara_path (self : ASRGenerator) (base_name : string) : string :=
  path_join (output_dir self) (base_name ++ "_rules.yar").
Definition sigma_path (self : ASRGenerator) (base_name : string) : string :=
  path_join (output_dir self) (base_name ++ "_sigma.yml").
Definition meta_path (self : ASRGenerator) (base_name : string) : string :=
  path_join (output_dir self) (base_name ++ "_metadata.json").

Definition _save_rules (self : ASRGenerator) (r : rules)
           (base_name : string) : M unit :=
  (if truthy (yara r) then
     write_file (yara_path self base_name) (get (yara r) "") ;;
     log INFO ("YARA rules saved: " ++ yara_path self base_name)
   else ret tt) ;;
  (if truthy (sigma r) then
     write_file (sigma_path self base_name) (get (sigma r) "") ;;
     log INFO ("Sigma rules saved: " ++ sigma_path self base_name)
   else ret tt) ;;
  write_file (meta_path self base_name) (Json.dumps (Json.of_meta (meta r))) ;;
  log INFO ("Metadata saved: " ++ meta_path self base_name).

Definition _process_single_file (self : ASRGenerator) (file_path : string)
  : M unit :=
  log INFO ("Processing file: " ++ path_name file_path) ;;
  analysis_result <- analyze_file file_path ;;
  r <- generate_rules (rule_generator self) (path_name file_path)
                      analysis_result file_path ;;
  _save_rules self r (path_stem file_path).

(** The body of [for file_path in self.input_dir.glob('*')]. *)
Definition process_entry (self : ASRGenerator) (file_path : string) : M unit :=
  isf <- is_file file_path ;;
  if (isf : bool) then
    try_except
      (_process_single_file self file_path)
      (fun e =>
         log ERROR ("Error processing " ++ file_path ++ ": " ++ exn_str e))
  else ret tt.

Fixpoint process_loop (self : ASRGenerator) (paths : list string) : M unit :=
  match paths with
  | [] => ret tt
  | file_path :: rest =>
      process_entry self file_path ;;
      process_loop self rest
  end.

Definition process_files (self : ASRGenerator) : M unit :=
  ex <- path_exists (input_dir self) ;;
  if negb ex then
    raise (FileNotFoundError
             ("Input directory not found: " ++ input_dir self))
  else
    log INFO ("Processing files from: " ++ input_dir self) ;;
    paths <- glob_all (input_dir self) ;;
    process_loop self paths.

End Pipeline.

(* ===================================================================== *)
(** ** [asr_challenge/main.py] and [run.py]: the entry points *)
(* ===================================================================== *)

(** [path.mkdir(exist_ok=True)] for a path whose parent exists: nothing to
    do for a directory, [FileExistsError] (an [OSError]) for a regular
    file, a [PermissionError] for a path that may not be looked at, and
    otherwise the directory is created unless the path is write-denied. *)
Definition mkdir_exist_ok (path : string) : M unit :=
  fun w =>
    match w_node w path with
    | Directory _ _ _ => (Ok tt, w)
    | Regular _ =>
        (Raise (OSError ("[Errno 17] File exists: '" ++ path ++ "'")), w)
    | Missing =>
        if w_write_denied w path
        then (Raise (PermissionError
                       ("[Errno 13] Permission denied: '" ++ path ++ "'")), w)
        else (Ok tt, w)
    | Inaccessible => (Raise (permission_denied path), w)
    end.

(** [ASRGenerator.__init__]; libmagic is taken to be installed, so that
    [FileProcessor()] returns. *)
Definition ASRGenerator_init (input_dir output_dir : string) : M ASRGenerator :=
  mkdir_exist_ok output_dir ;;
  t <- now ;;
  ret {| input_dir := input_dir; output_dir := output_dir;
         rule_generator := RuleGenerator_init t |}.

Section EntryPoint.

Variable utf8_ignore : list byte -> string.

(** [main()] of [asr_challenge/main.py]. *)
Definition main : M unit :=
  try_except
    (let input_dir := "new_input_files" in
     let output_dir := "output_rules" in
     generator <- ASRGenerator_init input_dir output_dir ;;
     process_files utf8_ignore generator ;;
     log INFO "Rule generation completed successfully!")
    (fun e =>
       log ERROR ("Error in main execution: " ++ exn_str e) ;;
       raise e).


End EntryPoint.

(* ===================================================================== *)
(** ** [security-rule-converter/converter/main.py]: the script *)
(* ===================================================================== *)

Module ConverterScript.

Definition INPUT_DIR : string := "new_input_files".
Definition OUTPUT_DIR : string := "converted_rules".

Definition convert_to_sigma (filename content : string) : string :=
  let rule_name := Py.re_sub_W_plus filename in
  let sigma_rule :=
    Py.nl
    ++ "title: Detect " ++ rule_name ++ Py.nl
    ++ "id: " ++ rule_name ++ "-rule" ++ Py.nl
    ++ "status: experimental" ++ Py.nl
    ++ "description: Auto-generated Sigma rule" ++ Py.nl
    ++ "logsource:" ++ Py.nl
    ++ "  category: file_event" ++ Py.nl
    ++ "detection:" ++ Py.nl
    ++ "  keywords:" ++ Py.nl
    ++ "    - " ++ Py.dq ++ Py.take 20 content ++ Py.dq ++ Py.nl
    ++ "  condition: keywords" ++ Py.nl
    ++ "level: medium" ++ Py.nl in
  Py.strip sigma_rule.

(** [save_rule]; the path it returns is not used by [main]. *)
Definition save_rule (rule_text filename extension : string) : M string :=
  let out_file := path_join OUTPUT_DIR (filename ++ "." ++ extension) in
  write_file out_file rule_text ;;
  ret out_file.

Section Script.

(** [open(file, "r", encoding="utf-8").read()] on the bytes of a file: the
    decoded text, or the exception of a strict decoder (a
    [UnicodeDecodeError], which the model files under [OSError]). *)
Variable utf8_strict : list byte -> res string.

Definition read_text_strict (file : string) : M string :=
  f <- open file ;;
  data <- lift (fst (f_read_all f)) ;;
  text <- lift (utf8_strict data) ;;
  ret (universal_newlines text).

(** The loop of [load_input_files] over the listing, [files] being the
    list built so far. *)
Fixpoint load_loop (paths : list string) (files : list (string * string))
  : M (list (string * string)) :=
  match paths with
  | [] => ret files
  | file :: rest =>
      isf <- is_file file ;;
      if (isf : bool) then
        text <- read_text_strict file ;;
        load_loop rest (files ++ [(path_stem file, text)])
      else load_loop rest files
  end.

Definition load_input_files : M (list (string * string)) :=
  paths <- glob_all INPUT_DIR ;;
  load_loop paths [].

(** The loop of [main] over the loaded files. *)
Fixpoint convert_loop (files : list (string * string)) : M unit :=
  match files with
  | [] => ret tt
  | (fname, content) :: rest =>
      let yara_rule := Converter.convert_to_yara fname content in
      let sigma_rule := convert_to_sigma fname content in
      save_rule yara_rule fname "yara" ;;
      save_rule sigma_rule fname "yaml" ;;
      convert_loop rest
  end.

Definition main : M unit :=
  files <- load_input_files ;;
  convert_loop files ;;
  print ("Converted " ++ Py.str_of_nat (List.length files)
         ++ " files into security rules.").

End Script.

End ConverterScript.

(* ===================================================================== *)
(** ** Vocabulary of the statements *)
(* ===================================================================== *)

(** [in_order l1 l2]: [l1] is obtained from [l2] by dropping elements, the
    remaining ones keeping their relative order. *)
Inductive in_order {A : Type} : list A -> list A -> Prop :=
| in_order_nil : in_order [] []
| in_order_drop (x : A) (l1 l2 : list A) :
    in_order l1 l2 -> in_order l1 (x :: l2)
| in_order_keep (x : A) (l1 l2 : list A) :
    in_order l1 l2 -> in_order (x :: l1) (x :: l2).

(** The indicators of the patterns of [pats] that occur in [text], in the
    order of [pats]. *)
Definition hits (text : string) (pats : list (string * string)) : list string :=
  map format_indicator (filter (fun p => Py.contains (fst p) text) pats).

(** The digits of a lowercase hexadecimal numeral. *)
Definition is_lower_hex (c : ascii) : bool :=
  Py.in_range 48 57 c || Py.in_range 97 102 c.

(** The number of [read] calls that return bytes while a file of [len]
    bytes is hashed: one per started chunk. *)
Definition full_reads (len : nat) : nat := (len + (chunk_size - 1)) / chunk_size.

(** The [read] call with index [k] happens while a file of [len] bytes is
    hashed: after the calls that return bytes comes a last one that returns
    nothing. *)
Definition read_happens (len k : nat) : bool := (k <=? full_reads len)%nat.

(** Hashing the file meets its faulty [read] call. *)
Definition fault_hits (f : file) : bool :=
  match f_fault f with
  | Some k => read_happens (List.length (f_data f)) k
  | None => false
  end.

(** The [sigma] artifact a computation returns, if it returns. *)
Definition sigma_of (x : res rules * world) : option string :=
  match fst x with
  | Ok r => sigma r
  | Raise _ => None
  end.

(** The faulty [read] call of a handle is still to come while the rest of
    the file is hashed. *)
Definition fault_ahead (h : handle) : bool :=
  match h_fault h with
  | Some k =>
      (h_calls h <=? k)%nat
      && (k <=? h_calls h + full_reads (List.length (h_rest h)))%nat
  | None => false
  end.

(** [chunks_of n data cs]: [cs] are the successive reads of [n] bytes that
    exhaust [data]. *)
Inductive chunks_of (n : nat) : list byte -> list (list byte) -> Prop :=
| chunks_done : chunks_of n [] []
| chunks_read (data : list byte) (cs : list (list byte)) :
    data <> [] ->
    chunks_of n (skipn n data) cs ->
    chunks_of n data (firstn n data :: cs).

(** The string [_calculate_file_hash] returns for a path. *)
Definition hash_value (w : world) (file_path : string) : string :=
  match fst (_calculate_file_hash file_path w) with
  | Ok h => h
  | Raise _ => EmptyString
  end.

(** What [replace('.', '_').replace(' ', '_')] does to one character. *)
Definition dot_or_space_to_underscore (c : ascii) : ascii :=
  if Ascii.eqb c "." then "_"%char
  else if Ascii.eqb c " " then "_"%char else c.

(** The bundle of the generic branch, of the CSV branch and of the
    fallback. *)
(** The bundle of the generic branch, of the CSV branch and of the
    fallback. *)
Definition text_bundle (self : RuleGenerator) (filename : string)
           (a : analysis) (h content t : string) : rules :=
  let indicators := _extract_indicators_from_content content in
  {| yara := Some (_generate_yara_rule self filename a h indicators);
     sigma := Some (_generate_sigma_rule self filename a h);
     meta := Some (_generate_metadata self filename a h indicators t) |}.

Definition csv_bundle (self : RuleGenerator) (filename : string)
           (a : analysis) (h t : string) : rules :=
  {| yara := Some (_generate_csv_yara_rule self filename h);
     sigma := Some (_generate_sigma_rule self filename a h);
     meta := Some (_generate_metadata self filename a h [] t) |}.

Definition basic_bundle (self : RuleGenerator) (filename : string)
           (a : analysis) (h t : string) : rules :=
  {| yara := Some (_generate_basic_yara_rule self filename h);
     sigma := Some (_generate_sigma_rule self filename a h);
     meta := Some (_generate_metadata self filename a h [] t) |}.

(** [extends w w']: the input files, libmagic, the write permissions and the
    clock are those of [w]; the written files, the log and the standard
    output of [w] are prefixes of those of [w']. *)
Record extends (w w' : world) : Prop := {
  ext_node : w_node w' = w_node w;
  ext_magic : w_magic w' = w_magic w;
  ext_denied : w_write_denied w' = w_write_denied w;
  ext_now : w_now w' = w_now w;
  ext_written : exists l, w_written w' = (w_written w ++ l)%list;
  ext_log : exists l, w_log w' = (w_log w ++ l)%list;
  ext_stdout : exists l, w_stdout w' = (w_stdout w ++ l)%list
}.

(** A computation that only extends the world, however it ends. *)
Definition grows {A : Type} (c : M A) : Prop :=
  forall w, extends w (snd (c w)).

(** What the run keeps of one regular file [p] of the listing: it was
    processed in some world [w0] reached from the initial one, the start of
    its processing is in the final log, and so is its error if processing
    raised. *)
Definition attempted (utf8_ignore : list byte -> string) (self : ASRGenerator)
           (w w' : world) (p : string) : Prop :=
  exists w0 w1 outcome,
    extends w w0
    /\ _process_single_file utf8_ignore self p w0 = (outcome, w1)
    /\ extends w1 w'
    /\ In (INFO, "Processing file: " ++ path_name p) (w_log w')
    /\ forall e, outcome = Raise e ->
         In (ERROR, "Error processing " ++ p ++ ": " ++ exn_str e) (w_log w').

(** The first entry of a listing that may not be looked at, if any: the
    loop of [process_files] stops there, since [is_file] is called outside
    the [try] of the loop body. *)
Fixpoint first_inaccessible (w : world) (paths : list string) : option string :=
  match paths with
  | [] => None
  | p :: rest =>
      match w_node w p with
      | Inaccessible => Some p
      | _ => first_inaccessible w rest
      end
  end.

(** The entries of a listing that come before that one: all of them when
    every entry can be looked at. *)
Fixpoint before_inaccessible (w : world) (paths : list string) : list string :=
  match paths with
  | [] => []
  | p :: rest =>
      match w_node w p with
      | Inaccessible => []
      | _ => p :: before_inaccessible w rest
      end
  end.

(** How the loop over a listing ends. *)
Definition loop_result (w : world) (paths : list string) : res unit :=
  match first_inaccessible w paths with
  | None => Ok tt
  | Some p => Raise (permission_denied p)
  end.

(* ===================================================================== *)
(** ** A concrete run *)
(* ===================================================================== *)

(** A decoder for the concrete runs: it agrees with UTF-8 on ASCII data and
    drops every byte above 127. *)
Definition decode_ascii (bs : list byte) : string :=
  string_of_list_byte (filter (fun b => (Byte.to_N b <? 128)%N) bs).

Definition plain_file (text : string) : node :=
  Regular {| f_data := encode text; f_mtime := 1700000000;
             f_openable := true; f_fault := None |}.

(** An input directory with two files, a subdirectory and a file that
    cannot be opened; the log-detection rule of [data.csv] cannot be
    written. *)
Definition demo_world : world :=
  {| w_node := fun p =>
       if String.eqb p "in"
       then Directory 4096 1700000000 ["data.csv"; "sub"; "sample.txt"; "locked"]
       else if String.eqb p "in/sample.txt"
       then plain_file "visit http://bad.com/x.exe now"
       else if String.eqb p "in/data.csv" then plain_file "a,b"
       else if String.eqb p "in/sub" then Directory 4096 1700000000 []
       else if String.eqb p "in/locked"
       then Regular {| f_data := encode "secret"; f_mtime := 1700000000;
                       f_openable := false; f_fault := None |}
       else Missing;
     w_magic := fun _ => Some "text/plain";
     w_write_denied := fun p => String.eqb p "out/data_sigma.yml";
     w_now := "2024-01-01T00:00:01";
     w_written := [];
     w_log := [];
     w_stdout := [] |}.

(** The world in which [path] may not be looked at. *)
Definition seal (path : string) (w : world) : world :=
  {| w_node := fun p =>
       if String.eqb p path then Inaccessible else w_node w p;
     w_magic := w_magic w;
     w_write_denied := w_write_denied w;
     w_now := w_now w;
     w_written := w_written w;
     w_log := w_log w;
     w_stdout := w_stdout w |}.

(** The same directory when [sub] may not be looked at. *)
Definition sealed_world : world := seal "in/sub" demo_world.

Definition demo_generator : ASRGenerator :=
  {| input_dir := "in"; output_dir := "out";
     rule_generator := RuleGenerator_init "2024-01-01T00:00:00" |}.

(* ===================================================================== *)
(** ** Vocabulary of the further statements *)
(* ===================================================================== *)

(** The first [read] call on the file fails. *)
Definition first_read_fails (f : file) : bool :=
  match f_fault f with
  | Some O => true
  | _ => false
  end.

(** [open] then one [read] succeed on the file. *)
Definition readable (f : file) : bool :=
  f_openable f && negb (first_read_fails f).

(** The writes [_save_rules] attempts for a bundle, in order. *)
Definition planned_writes (self : ASRGenerator) (r : rules)
           (base_name : string) : list (string * string) :=
  (if truthy (yara r)
   then [(yara_path self base_name, get (yara r) "")] else [])
  ++ (if truthy (sigma r)
      then [(sigma_path self base_name, get (sigma r) "")] else [])
  ++ [(meta_path self base_name, Json.dumps (Json.of_meta (meta r)))].

(** The writes of a list that come before the first refused path. *)
Fixpoint allowed_prefix (denied : string -> bool)
         (l : list (string * string)) : list (string * string) :=
  match l with
  | [] => []
  | pc :: l' => if denied (fst pc) then [] else pc :: allowed_prefix denied l'
  end.

(** The path lies in the output directory of the generator. *)
Definition in_output_dir (self : ASRGenerator) (pc : string * string) : Prop :=
  String.prefix (output_dir self ++ "/") (fst pc) = true.

(** The regular files among the children [names] of [dir]. *)
Definition regular_children (w : world) (dir : string)
           (names : list string) : list string :=
  filter (fun name =>
            match w_node w (path_join dir name) with
            | Regular _ => true
            | _ => false
            end) names.

(** The listing of a directory, empty for anything else. *)
Definition listing (w : world) (dir : string) : list string :=
  match w_node w dir with
  | Directory _ _ names => names
  | _ => []
  end.

(** Every double quote of the string comes right after a backslash;
    [after_bslash] tells that the previous character was one. *)
Fixpoint quotes_escaped (after_bslash : bool) (s : string) : bool :=
  match s with
  | EmptyString => true
  | String c s' =>
      (negb (Ascii.eqb c (Py.chr 34)) || after_bslash)
      && quotes_escaped (Ascii.eqb c (Py.chr 92)) s'
  end.

(** The two rule files the converter script writes for a loaded file. *)
Definition converted_pair (file : string * string) : list (string * string) :=
  [ (path_join ConverterScript.OUTPUT_DIR (fst file ++ ".yara"),
     Converter.convert_to_yara (fst file) (snd file));
    (path_join ConverterScript.OUTPUT_DIR (fst file ++ ".yaml"),
     ConverterScript.convert_to_sigma (fst file) (snd file)) ].

(** A strict decoder for the concrete runs: it agrees with UTF-8 on ASCII
    data and refuses every byte above 127. *)
Definition strict_ascii (bs : list byte) : res string :=
  if forallb (fun b => (Byte.to_N b <? 128)%N) bs
  then Ok (string_of_list_byte bs)
  else Raise (OSError "'utf-8' codec can't decode bytes: invalid start byte").

(** An input directory for the converter script: two files and a
    subdirectory; [tail] is appended to the bytes of the second file. *)
Definition converter_world (tail : list byte) : world :=
  {| w_node := fun p =>
       if String.eqb p "new_input_files"
       then Directory 4096 1700000000 ["a.txt"; "sub"; "b.c.txt"]
       else if String.eqb p "new_input_files/a.txt"
       then plain_file "malicious_example_content_here"
       else if String.eqb p "new_input_files/b.c.txt"
       then Regular {| f_data := encode "x" ++ tail; f_mtime := 1700000000;
                       f_openable := true; f_fault := None |}
       else if String.eqb p "new_input_files/sub"
       then Directory 4096 1700000000 []
       else Missing;
     w_magic := fun _ => Some "text/plain";
     w_write_denied := fun _ => false;
     w_now := "2024-01-01T00:00:01";
     w_written := [];
     w_log := [];
     w_stdout := [] |}.

(* ===================================================================== *)
(** ** Lists in order *)
(* ===================================================================== *)

Section InOrder.

Context {A : Type}.

Lemma in_order_In (l1 l2 : list A) (x : A) :
  in_order l1 l2 -> In x l1 -> In x l2.
Proof.
  induction 1 as [|y l1 l2 _ IH|y l1 l2 _ IH]; cbn; intros Hin.
  - assumption.
  - right. apply IH. assumption.
  - destruct Hin as [->|Hin]; [left; reflexivity|right; apply IH; assumption].
Qed.

Lemma in_order_NoDup (l1 l2 : list A) :
  in_order l1 l2 -> NoDup l2 -> NoDup l1.
Proof.
  induction 1 as [|y l1 l2 _ IH|y l1 l2 Hord IH]; intros Hnd.
  - constructor.
  - apply IH. inversion Hnd; assumption.
  - inversion Hnd as [|? ? Hnotin Hnd']; subst. constructor.
    + intros Hin. apply Hnotin. eapply in_order_In; eassumption.
    + apply IH. assumption.
Qed.

Lemma in_order_trans (l1 l2 l3 : list A) :
  in_order l1 l2 -> in_order l2 l3 -> in_order l1 l3.
Proof.
  intros H12 H23. revert l1 H12.
  induction H23 as [|y l2 l3 _ IH|y l2 l3 _ IH]; intros l1 H12.
  - assumption.
  - constructor. apply IH. assumption.
  - inversion H12; subst.
    + constructor. apply IH. assumption.
    + apply in_order_keep. apply IH. assumption.
Qed.

Lemma in_order_filter (p : A -> bool) (l : list A) : in_order (filter p l) l.
Proof.
  induction l as [|x l IH]; cbn.
  - constructor.
  - destruct (p x); constructor; assumption.
Qed.

Lemma in_order_nil_l (l : list A) : in_order [] l.
Proof. induction l; constructor; assumption. Qed.

Lemma in_order_firstn (n : nat) (l : list A) : in_order (firstn n l) l.
Proof.
  revert n. induction l as [|x l IH]; intros [|n]; cbn.
  - constructor.
  - constructor.
  - apply in_order_nil_l.
  - apply in_order_keep, IH.
Qed.

End InOrder.

Lemma in_order_map {A B : Type} (f : A -> B) (l1 l2 : list A) :
  in_order l1 l2 -> in_order (map f l1) (map f l2).
Proof. induction 1; cbn; constructor; assumption. Qed.

(* ===================================================================== *)
(** ** The indicator scans *)
(* ===================================================================== *)

(** The loop appends, pattern after pattern, the indicators of [hits]. *)
Lemma scan_loop_hits (text : string) (pats : list (string * string))
      (acc : list string) :
  fold_left (scan_step text) pats acc = (acc ++ hits text pats)%list.
Proof.
  revert acc. induction pats as [|p pats IH]; intros acc; cbn.
  - symmetry. apply app_nil_r.
  - rewrite IH. unfold scan_step, hits. cbn.
    destruct (Py.contains (fst p) text); cbn.
    + rewrite <- app_assoc. reflexivity.
    + reflexivity.
Qed.

Lemma extract_indicators_hits (content : string) :
  _extract_indicators_from_content content
  = firstn 5 (hits (Py.lower content) rg_patterns).
Proof.
  unfold _extract_indicators_from_content. rewrite scan_loop_hits. reflexivity.
Qed.

Lemma hits_in_order (text : string) (pats : list (string * string)) :
  in_order (hits text pats) (map format_indicator pats).
Proof. apply in_order_map, in_order_filter. Qed.

Lemma rg_indicators_NoDup : NoDup (map format_indicator rg_patterns).
Proof.
  cbv [map rg_patterns format_indicator fst snd].
  repeat (constructor; [cbn; intuition discriminate|]). constructor.
Qed.

Lemma fp_indicators_NoDup : NoDup (map format_indicator fp_patterns).
Proof.
  cbv [map fp_patterns format_indicator fst snd].
  repeat (constructor; [cbn; intuition discriminate|]). constructor.
Qed.

Lemma in_formatted (pats : list (string * string)) (x : string) :
  In x (map format_indicator pats) ->
  exists pattern category,
    In (pattern, category) pats /\ x = category ++ ": " ++ pattern.
Proof.
  intros Hin. apply in_map_iff in Hin. destruct Hin as [[pattern category] [<- Hin]].
  exists pattern, category. split; [assumption|reflexivity].
Qed.

Lemma NoDup_count_le_1 (l : list string) (x : string) :
  NoDup l -> (count_occ string_dec l x <= 1)%nat.
Proof.
  intros Hnd. apply (proj1 (NoDup_count_occ string_dec l)). assumption.
Qed.

(** What both scans share: no repetition, pattern-list order, one entry per
    pattern at most, every entry formatted from a pattern of the list. *)
Lemma scan_shape (l : list string) (pats : list (string * string)) :
  in_order l (map format_indicator pats) ->
  NoDup (map format_indicator pats) ->
  NoDup l
  /\ (forall p, In p pats ->
        (count_occ string_dec l (format_indicator p) <= 1)%nat)
  /\ (forall x, In x l ->
        exists pattern category,
          In (pattern, category) pats /\ x = category ++ ": " ++ pattern).
Proof.
  intros Hord Hnd.
  assert (Hl : NoDup l) by (eapply in_order_NoDup; eassumption).
  split; [assumption|]. split.
  - intros p _. apply NoDup_count_le_1. assumption.
  - intros x Hin. apply in_formatted. eapply in_order_In; eassumption.
Qed.

(** C10. For every content, the indicator list of
    [_extract_indicators_from_content], and for every byte prefix the one of
    [_find_potential_indicators], holds at most one entry per pattern of the
    fixed pattern list however often the pattern occurs: the entries are
    pairwise distinct, each one is ["<Category>: <pattern>"] for a pattern of
    the list, and they come in the order of the pattern list. *)
Theorem C10_one_entry_per_pattern
        (utf8_ignore : list byte -> string) (content : string)
        (prefix : list byte) :
  let l := _extract_indicators_from_content content in
  let l' := _find_potential_indicators utf8_ignore prefix in
  (NoDup l
   /\ in_order l (map format_indicator rg_patterns)
   /\ (forall p, In p rg_patterns ->
         (count_occ string_dec l (format_indicator p) <= 1)%nat)
   /\ (forall x, In x l ->
         exists pattern category,
           In (pattern, category) rg_patterns
           /\ x = category ++ ": " ++ pattern))
  /\
  (NoDup l'
   /\ in_order l' (map format_indicator fp_patterns)
   /\ (forall p, In p fp_patterns ->
         (count_occ string_dec l' (format_indicator p) <= 1)%nat)
   /\ (forall x, In x l' ->
         exists pattern category,
           In (pattern, category) fp_patterns
           /\ x = category ++ ": " ++ pattern)).
Proof.
  intros l l'.
  assert (Hl : in_order l (map format_indicator rg_patterns)).
  { unfold l. rewrite extract_indicators_hits.
    eapply in_order_trans; [apply in_order_firstn|apply hits_in_order]. }
  assert (Hl' : in_order l' (map format_indicator fp_patterns)).
  { unfold l', _find_potential_indicators. rewrite scan_loop_hits. cbn [app].
    apply hits_in_order. }
  split.
  - destruct (scan_shape l rg_patterns Hl rg_indicators_NoDup) as (H1 & H2 & H3).
    repeat split; assumption.
  - destruct (scan_shape l' fp_patterns Hl' fp_indicators_NoDup) as (H1 & H2 & H3).
    repeat split; assumption.
Qed.

(* ===================================================================== *)
(** ** Strings *)
(* ===================================================================== *)

Lemma append_assoc (a b c : string) : (a ++ b) ++ c = a ++ b ++ c.
Proof. induction a as [|x a IH]; cbn; [reflexivity|]. rewrite IH. reflexivity. Qed.

Lemma append_nil_r (a : string) : a ++ "" = a.
Proof. induction a as [|x a IH]; cbn; [reflexivity|]. rewrite IH. reflexivity. Qed.

(** Both sides are concatenations of the same pieces. *)
Ltac same_pieces := repeat rewrite append_assoc; reflexivity.

(* ===================================================================== *)
(** ** The strings section and the two caps *)
(* ===================================================================== *)

Lemma indicator_entries_length (i : nat) (l : list string) :
  List.length (indicator_entries i l) = List.length l.
Proof.
  revert i. induction l as [|x l IH]; intros i; cbn; [reflexivity|].
  rewrite IH. reflexivity.
Qed.

Lemma indicator_entries_nth (i k : nat) (l : list string) :
  (k < List.length l)%nat ->
  nth k (indicator_entries i l) "" = indicator_entry (i + k) (nth k l "").
Proof.
  revert i k. induction l as [|x l IH]; intros i k Hk; cbn in Hk; [lia|].
  destruct k as [|k]; cbn [indicator_entries nth].
  - rewrite Nat.add_0_r. reflexivity.
  - rewrite IH by lia. f_equal. lia.
Qed.

Lemma nth_firstn_below {A : Type} (n k : nat) (l : list A) (d : A) :
  (k < n)%nat -> nth k (firstn n l) d = nth k l d.
Proof.
  revert k l. induction n as [|n IH]; intros k l Hk; [lia|].
  destruct l as [|x l]; [destruct k; reflexivity|].
  destruct k as [|k]; cbn; [reflexivity|]. apply IH. lia.
Qed.

(** C5. For every content the extracted indicator list has at most 5
    entries: it is the first 5 of the indicators of the patterns that occur
    (lowercased content), taken in pattern-list order and not in the order
    of their positions in the text.  Of any indicator list, the strings
    section embeds entries for the first 3 only, after the file-name entry
    and the hash entry. *)
Theorem C5_indicator_caps (content filename hash : string)
        (indicators : list string) :
  (List.length (_extract_indicators_from_content content) <= 5)%nat
  /\ _extract_indicators_from_content content
     = firstn 5 (hits (Py.lower content) rg_patterns)
  /\ _extract_indicators_from_content "run x.exe from http://host"
     = ["URL: http://"; "Executable: .exe"]
  /\ exists embedded,
       _create_strings_section filename hash indicators
       = Py.join Py.nl
           ([ "        $file_name = " ++ Py.dq ++ filename ++ Py.dq ++ " wide ascii";
              "        $hash = " ++ Py.dq ++ hash ++ Py.dq ] ++ embedded)
       /\ List.length embedded = Nat.min 3 (List.length indicators)
       /\ (List.length embedded <= 3)%nat
       /\ forall k, (k < List.length embedded)%nat ->
            nth k embedded "" = indicator_entry k (nth k indicators "").
Proof.
  split; [|split; [|split]].
  - rewrite extract_indicators_hits. rewrite length_firstn. lia.
  - apply extract_indicators_hits.
  - vm_compute. reflexivity.
  - exists (indicator_entries 0 (firstn 3 indicators)).
    assert (Hlen : List.length (indicator_entries 0 (firstn 3 indicators))
                   = Nat.min 3 (List.length indicators)).
    { rewrite indicator_entries_length, length_firstn. reflexivity. }
    split; [reflexivity|]. split; [assumption|]. split; [lia|].
    intros k Hk. rewrite Hlen in Hk.
    rewrite indicator_entries_nth by (rewrite length_firstn; lia).
    rewrite nth_firstn_below by lia. reflexivity.
Qed.

Lemma contains_colon_cons (c : ascii) (s : string) :
  Py.contains ":" (String c s) = Ascii.eqb c ":" || Py.contains ":" s.
Proof.
  cbn [Py.contains String.prefix].
  destruct (ascii_dec ":" c) as [<-|Hne].
  - destruct s; reflexivity.
  - destruct (Ascii.eqb c ":") eqn:Hc; [|reflexivity].
    apply Ascii.eqb_eq in Hc. congruence.
Qed.

Lemma split_no_colon (b : string) :
  Py.contains ":" b = false -> Py.split ":" b = [b].
Proof.
  induction b as [|c b IH]; [reflexivity|].
  rewrite contains_colon_cons. intros Hb.
  apply orb_false_iff in Hb. destruct Hb as [Hc Hb].
  cbn [Py.split]. rewrite Hc, (IH Hb). reflexivity.
Qed.

Lemma split_not_nil (s : string) : Py.split ":" s <> [].
Proof.
  destruct s as [|c s]; cbn [Py.split]; [discriminate|].
  destruct (Ascii.eqb c ":"); [discriminate|].
  destruct (Py.split ":" s); discriminate.
Qed.

Lemma last_cons_not_nil (x : string) (l : list string) :
  l <> [] -> Py.last_item (x :: l) = Py.last_item l.
Proof. destruct l; [congruence|reflexivity]. Qed.

(** The text that [split(':')[-1]] keeps starts after the LAST colon. *)
Lemma split_last_after_last_colon (a b : string) :
  Py.contains ":" b = false ->
  Py.last_item (Py.split ":" (a ++ ":" ++ b)) = b.
Proof.
  intros Hb. induction a as [|c a IH].
  - change ("" ++ ":" ++ b) with (String ":" b). cbn [Py.split].
    change (Ascii.eqb ":" ":") with true. cbn iota.
    rewrite last_cons_not_nil by apply split_not_nil.
    rewrite split_no_colon by assumption. reflexivity.
  - change (String c a ++ ":" ++ b) with (String c (a ++ ":" ++ b)).
    cbn [Py.split]. destruct (Ascii.eqb c ":").
    + rewrite last_cons_not_nil by apply split_not_nil. exact IH.
    + destruct (Py.split ":" (a ++ ":" ++ b)) as [|w ws] eqn:Hs.
      * exfalso. exact (split_not_nil _ Hs).
      * destruct ws as [|w' ws]; [|exact IH].
        exfalso. clear IH.
        assert (Hlen : forall s,
                   (1 < List.length (Py.split ":" (s ++ ":" ++ b)))%nat).
        { clear. induction s as [|d s IHs].
          - change ("" ++ ":" ++ b) with (String ":" b). cbn [Py.split].
            change (Ascii.eqb ":" ":") with true. cbn iota.
            pose proof (split_not_nil b).
            destruct (Py.split ":" b); [congruence|cbn; lia].
          - change (String d s ++ ":" ++ b) with (String d (s ++ ":" ++ b)).
            cbn [Py.split]. destruct (Ascii.eqb d ":"); [cbn [List.length]; lia|].
            destruct (Py.split ":" (s ++ ":" ++ b)) as [|? [|? ?]];
              cbn [List.length] in *; lia. }
        specialize (Hlen a). rewrite Hs in Hlen. cbn in Hlen. lia.
Qed.

(** The literal embedded for each pattern of the fixed list: the pattern
    itself, except for the two URL patterns, whose own colon cuts them. *)
Lemma embedded_literals_of_patterns :
  map (fun p => Py.strip (Py.last_item (Py.split ":" (format_indicator p))))
      rg_patterns
  = [ "//"; "//"; ".exe"; ".dll"; "malware"; "virus"; "trojan"; "backdoor";
      "adware"; "spyware" ].
Proof. vm_compute. reflexivity. Qed.

(** C1 (as the code behaves).  For the content
    ["visit http://bad.com/x.exe now"] the first extracted indicator is
    ["URL: http://"], and the entry [$indicator_1] of the strings section
    carries the literal ["//"], the text after the last colon of the
    indicator, not ["http://"], the text after its first colon. *)
Theorem C1_url_literal_is_cut (filename hash : string) :
  let indicators :=
    _extract_indicators_from_content "visit http://bad.com/x.exe now" in
  indicators = ["URL: http://"; "Executable: .exe"]
  /\ Py.strip (Py.last_item (Py.split ":" "URL: http://")) = "//"
  /\ nth 2 (strings_entries filename hash indicators) ""
     = "        $indicator_1 = " ++ Py.dq ++ "//" ++ Py.dq ++ " nocase"
  /\ Py.embeds (_create_strings_section filename hash indicators)
       ("$indicator_1 = " ++ Py.dq ++ "//" ++ Py.dq ++ " nocase").
Proof.
  cbv zeta. split; [vm_compute; reflexivity|].
  split; [vm_compute; reflexivity|].
  split; [vm_compute; reflexivity|].
  change (_extract_indicators_from_content "visit http://bad.com/x.exe now")
    with ["URL: http://"; "Executable: .exe"].
  exists ("        $file_name = " ++ Py.dq ++ filename ++ Py.dq ++ " wide ascii"
          ++ Py.nl ++ "        $hash = " ++ Py.dq ++ hash ++ Py.dq ++ Py.nl
          ++ "        "),
         (Py.nl ++ "        $indicator_2 = " ++ Py.dq ++ ".exe" ++ Py.dq ++ " nocase").
  unfold _create_strings_section, strings_entries, Py.join.
  cbn [firstn indicator_entries app String.concat].
  same_pieces.
Qed.

(* ===================================================================== *)
(** ** Rule identifiers *)
(* ===================================================================== *)

(** Case analysis over the 256 characters. *)
Ltac each_char c :=
  destruct c as [[] [] [] [] [] [] [] []]; vm_compute; try reflexivity;
  try discriminate; try tauto.

Lemma dots_and_spaces_cons (c : ascii) (s : string) :
  dots_and_spaces (String c s)
  = String (dot_or_space_to_underscore c) (dots_and_spaces s).
Proof.
  unfold dots_and_spaces, dot_or_space_to_underscore. cbn [Py.replace].
  destruct (Ascii.eqb c ".") eqn:Hdot; cbn [append Py.replace].
  - reflexivity.
  - destruct (Ascii.eqb c " "); reflexivity.
Qed.

Lemma dot_or_space_to_underscore_twice (c : ascii) :
  dot_or_space_to_underscore (dot_or_space_to_underscore c)
  = dot_or_space_to_underscore c.
Proof. each_char c. Qed.

(** The sanitizer of [rule_generator.py] is idempotent. *)
Lemma dots_and_spaces_idempotent (s : string) :
  dots_and_spaces (dots_and_spaces s) = dots_and_spaces s.
Proof.
  induction s as [|c s IH]; [reflexivity|].
  rewrite !dots_and_spaces_cons, dot_or_space_to_underscore_twice, IH.
  reflexivity.
Qed.

(** It leaves every character other than the dot and the space alone. *)
Lemma dots_and_spaces_keeps (c : ascii) (s : string) :
  Ascii.eqb c "." = false -> Ascii.eqb c " " = false ->
  Py.contains (String c "") s = true ->
  Py.contains (String c "") (dots_and_spaces s) = true.
Proof.
  intros Hdot Hsp. induction s as [|d s IH]; [intros H; exact H|].
  rewrite dots_and_spaces_cons. cbn [Py.contains String.prefix].
  intros H. apply orb_true_iff in H. apply orb_true_iff.
  destruct (ascii_dec c d) as [<-|Hne].
  - left. unfold dot_or_space_to_underscore. rewrite Hdot, Hsp.
    destruct (ascii_dec c c); [|congruence].
    destruct (dots_and_spaces s); reflexivity.
  - right. destruct H as [H|H]; [discriminate|]. apply IH. assumption.
Qed.

Lemma sub_nonword_runs_words (b : bool) (s : string) :
  Py.all_chars Py.is_word (Py.sub_nonword_runs b s) = true.
Proof.
  revert b. induction s as [|c s IH]; intros b; [reflexivity|].
  cbn [Py.sub_nonword_runs]. destruct (Py.is_word c) eqn:Hc.
  - cbn [Py.all_chars]. rewrite Hc, IH. reflexivity.
  - destruct b; [apply IH|]. cbn [Py.all_chars]. rewrite IH. reflexivity.
Qed.

Lemma sub_nonword_runs_fixes_words (b : bool) (s : string) :
  Py.all_chars Py.is_word s = true -> Py.sub_nonword_runs b s = s.
Proof.
  revert b. induction s as [|c s IH]; intros b; [reflexivity|].
  cbn [Py.all_chars Py.sub_nonword_runs]. intros H.
  apply andb_true_iff in H. destruct H as [Hc Hs].
  rewrite Hc, (IH false Hs). reflexivity.
Qed.

(** The sanitizer of [converter/main.py] is idempotent. *)
Lemma re_sub_W_plus_idempotent (s : string) :
  Py.re_sub_W_plus (Py.re_sub_W_plus s) = Py.re_sub_W_plus s.
Proof.
  unfold Py.re_sub_W_plus. apply sub_nonword_runs_fixes_words.
  apply sub_nonword_runs_words.
Qed.

Lemma ascii_word_char (c : ascii) :
  (Py.ord c <? 128)%nat = true -> Py.is_word c = true ->
  Py.is_ascii_word c = true.
Proof. each_char c. Qed.

Lemma sub_nonword_runs_ascii (b : bool) (s : string) :
  Py.all_chars (fun c => (Py.ord c <? 128)%nat) s = true ->
  Py.all_chars Py.is_ascii_word (Py.sub_nonword_runs b s) = true.
Proof.
  revert b. induction s as [|c s IH]; intros b; [reflexivity|].
  cbn [Py.all_chars Py.sub_nonword_runs]. intros H.
  apply andb_true_iff in H. destruct H as [Hc Hs].
  destruct (Py.is_word c) eqn:Hw.
  - cbn [Py.all_chars]. rewrite (ascii_word_char c Hc Hw), (IH false Hs).
    reflexivity.
  - destruct b; [apply IH; assumption|].
    cbn [Py.all_chars]. rewrite (IH true Hs). reflexivity.
Qed.

(** The identifier [convert_to_yara] renders for an ASCII file name stays
    within [[A-Za-z0-9_]]. *)
Lemma converter_rule_name_ascii_word (filename : string) :
  Py.all_chars (fun c => (Py.ord c <? 128)%nat) filename = true ->
  Py.all_chars Py.is_ascii_word (Py.re_sub_W_plus filename) = true.
Proof. apply sub_nonword_runs_ascii. Qed.

(** Outside ASCII, [\w] keeps the letters: the identifier rendered for the
    one-letter name U+00E9 is that letter. *)
Lemma converter_rule_name_keeps_latin1_letter :
  Py.re_sub_W_plus (String (Py.chr 233) "") = String (Py.chr 233) ""
  /\ Py.is_ascii_word (Py.chr 233) = false.
Proof. split; reflexivity. Qed.

(** C2 (as the code behaves).  [_generate_yara_rule] replaces the dots and
    the spaces of the file name only: for the file name ["a-b.txt"] the
    rendered rule starts with [rule Rule_a-b_txt], an identifier with a
    character outside [[A-Za-z0-9_]], whereas [convert_to_yara] renders
    [a_b_txt] for the same name. *)
Theorem C2_rule_name_keeps_hyphen (self : RuleGenerator) (a : analysis)
        (hash : string) (indicators : list string) :
  yara_rule_name "a-b.txt" = "Rule_a-b_txt"
  /\ Py.all_chars Py.is_ascii_word (yara_rule_name "a-b.txt") = false
  /\ (exists rest,
        _generate_yara_rule self "a-b.txt" a hash indicators
        = "rule Rule_a-b_txt" ++ Py.nl ++ rest)
  /\ (exists rest,
        Converter.convert_to_yara "a-b.txt" "" = "rule a_b_txt" ++ Py.nl ++ rest).
Proof.
  split; [vm_compute; reflexivity|]. split; [vm_compute; reflexivity|]. split.
  - eexists. unfold _generate_yara_rule.
    change (yara_rule_name "a-b.txt") with "Rule_a-b_txt".
    cbn [append]. reflexivity.
  - eexists. vm_compute. reflexivity.
Qed.

(* ===================================================================== *)
(** ** The running digest *)
(* ===================================================================== *)

(** The test suite of RFC 1321, first three entries, and a message longer
    than one block. *)
Example md5_test_vectors :
  MD5.md5_hex (encode "") = "d41d8cd98f00b204e9800998ecf8427e"
  /\ MD5.md5_hex (encode "a") = "0cc175b9c0f1b6a831c399e269772661"
  /\ MD5.md5_hex (encode "abc") = "900150983cd24fb0d6963f7d28e17f72"
  /\ MD5.md5_hex
       (encode ("1234567890123456789012345678901234567890"
                ++ "1234567890123456789012345678901234567890"))
     = "57edf4a22be3c955ac49da2e2107b67a".
Proof. vm_compute. repeat split. Qed.

Lemma absorb_app (k : nat) (h : MD5.regs) (d1 d2 : list byte) :
  (List.length d1 / 64 = k)%nat ->
  MD5.absorb_all (fst (MD5.absorb k h d1)) (snd (MD5.absorb k h d1) ++ d2)
  = MD5.absorb_all h (d1 ++ d2).
Proof.
  revert h d1. induction k as [|k IH]; intros h d1 Hk; [reflexivity|].
  cbn [MD5.absorb].
  assert (Hlen : (64 <= List.length d1)%nat).
  { destruct (Nat.lt_ge_cases (List.length d1) 64) as [Hlt|Hge]; [|assumption].
    rewrite (Nat.div_small _ _ Hlt) in Hk. discriminate. }
  assert (Hskip : (List.length (skipn 64 d1) / 64 = k)%nat).
  { rewrite length_skipn.
    replace (List.length d1) with (List.length d1 - 64 + 1 * 64)%nat in Hk by lia.
    rewrite Nat.div_add in Hk by discriminate. lia. }
  rewrite (IH _ _ Hskip). unfold MD5.absorb_all.
  replace (List.length (d1 ++ d2) / 64)%nat
    with (S (List.length (skipn 64 d1 ++ d2) / 64)).
  - cbn [MD5.absorb]. rewrite firstn_app, skipn_app.
    replace (64 - List.length d1)%nat with 0%nat by lia.
    rewrite firstn_O, skipn_O, app_nil_r. reflexivity.
  - rewrite !length_app, length_skipn.
    replace (List.length d1 + List.length d2)%nat
      with (List.length d1 - 64 + List.length d2 + 1 * 64)%nat by lia.
    rewrite Nat.div_add by discriminate. lia.
Qed.

(** [m.update(a); m.update(b)] is [m.update(a + b)]. *)
Lemma update_app (m : MD5.state) (a b : list byte) :
  MD5.update (MD5.update m a) b = MD5.update m (a ++ b).
Proof.
  unfold MD5.update at 2.
  pose proof (absorb_app (List.length (MD5.pending m ++ a) / 64) (MD5.chain m)
                         (MD5.pending m ++ a) b eq_refl) as H.
  fold (MD5.absorb_all (MD5.chain m) (MD5.pending m ++ a)) in H.
  destruct (MD5.absorb_all (MD5.chain m) (MD5.pending m ++ a)) as [h1 r1].
  cbn [fst snd] in H. unfold MD5.update. cbn [MD5.chain MD5.pending MD5.fed].
  rewrite H, <- app_assoc.
  destruct (MD5.absorb_all (MD5.chain m) (MD5.pending m ++ a ++ b)) as [h2 r2].
  f_equal. rewrite length_app. lia.
Qed.

(** Feeding the chunks one by one is feeding their concatenation. *)
Lemma update_chunks (cs : list (list byte)) (m : MD5.state) :
  cs <> [] -> fold_left MD5.update cs m = MD5.update m (concat cs).
Proof.
  revert m. induction cs as [|c cs IH]; intros m Hne; [congruence|].
  cbn [fold_left concat]. destruct cs as [|c' cs].
  - cbn. rewrite app_nil_r. reflexivity.
  - rewrite IH by discriminate. apply update_app.
Qed.

Lemma hex_digit_lower (n : N) : is_lower_hex (MD5.hex_digit n) = true.
Proof.
  unfold MD5.hex_digit. generalize (N.to_nat n) as k. intros k.
  do 16 (destruct k as [|k]; [reflexivity|]).
  destruct k; reflexivity.
Qed.

Lemma hex_lower (bs : list byte) :
  Py.all_chars is_lower_hex (MD5.hex bs) = true.
Proof.
  induction bs as [|b bs IH]; [reflexivity|].
  cbn [MD5.hex Py.all_chars]. rewrite !hex_digit_lower, IH. reflexivity.
Qed.

Lemma hex_length (bs : list byte) :
  String.length (MD5.hex bs) = (2 * List.length bs)%nat.
Proof.
  induction bs as [|b bs IH]; [reflexivity|].
  cbn [MD5.hex String.length List.length]. rewrite IH. lia.
Qed.

Lemma bytes_le_length (n : nat) (z : Z) : List.length (MD5.bytes_le n z) = n.
Proof.
  revert z. induction n as [|n IH]; intros z; [reflexivity|].
  cbn [MD5.bytes_le List.length]. rewrite IH. reflexivity.
Qed.

(** A hex digest is 32 lowercase hexadecimal digits. *)
Lemma hexdigest_shape (m : MD5.state) :
  String.length (MD5.hexdigest m) = 32%nat
  /\ Py.all_chars is_lower_hex (MD5.hexdigest m) = true.
Proof.
  unfold MD5.hexdigest. split; [|apply hex_lower].
  rewrite hex_length. unfold MD5.digest.
  rewrite !length_app, !bytes_le_length. reflexivity.
Qed.

(* ===================================================================== *)
(** ** The hash computer *)
(* ===================================================================== *)

Lemma chunks_of_concat (n : nat) (data : list byte) (cs : list (list byte)) :
  chunks_of n data cs -> concat cs = data.
Proof.
  induction 1 as [|data cs _ _ IH]; [reflexivity|].
  cbn [concat]. rewrite IH. apply firstn_skipn.
Qed.

Lemma chunks_of_sizes (n : nat) (data : list byte) (cs : list (list byte)) :
  chunks_of n data cs -> Forall (fun c => (List.length c <= n)%nat) cs.
Proof.
  induction 1 as [|data cs _ _ IH]; constructor; [|assumption].
  rewrite length_firstn. lia.
Qed.

Lemma chunk_size_pos : (0 < chunk_size)%nat.
Proof. unfold chunk_size. apply Nat.lt_0_succ. Qed.

Lemma full_reads_0 : full_reads 0 = 0%nat.
Proof.
  unfold full_reads. apply Nat.div_small. pose proof chunk_size_pos. lia.
Qed.

Lemma full_reads_step (len : nat) :
  (0 < len)%nat -> full_reads len = S (full_reads (len - chunk_size)).
Proof.
  intros Hlen. unfold full_reads. pose proof chunk_size_pos as Hc.
  generalize dependent chunk_size. intros c Hc.
  destruct (Nat.le_gt_cases c len) as [Hge|Hlt].
  - replace (len + (c - 1))%nat with (len - c + (c - 1) + 1 * c)%nat by lia.
    rewrite Nat.div_add by lia. lia.
  - replace (len - c)%nat with 0%nat by lia.
    replace (len + (c - 1))%nat with (len - 1 + 1 * c)%nat by lia.
    rewrite Nat.div_add by lia.
    rewrite (Nat.div_small (len - 1) c) by lia.
    rewrite (Nat.div_small (0 + (c - 1)) c) by lia. reflexivity.
Qed.

Lemma hash_loop_step (h : handle) (m : MD5.state) :
  hash_loop h m
  = match f_read chunk_size h with
    | (Raise e, _) => Raise e
    | (Ok [], _) => Ok m
    | (Ok (b :: chunk), h') => hash_loop h' (MD5.update m (b :: chunk))
    end.
Proof.
  funelim (hash_loop h m);
    match goal with E : f_read _ _ = _ |- _ => rewrite E end; reflexivity.
Qed.

Lemma hash_loop_outcome (n : nat) :
  forall (h : handle) (m : MD5.state),
    List.length (h_rest h) = n ->
    if fault_ahead h
    then hash_loop h m = Raise (OSError "[Errno 5] Input/output error")
    else exists cs,
        chunks_of chunk_size (h_rest h) cs
        /\ hash_loop h m = Ok (fold_left MD5.update cs m).
Proof.
  induction n as [n IH] using lt_wf_ind. intros h m Hn.
  rewrite hash_loop_step. unfold f_read, fault_ahead, faulty.
  destruct h as [rest calls fault]. cbn [h_rest h_calls h_fault] in *.
  assert (Hstep : forall k,
             (k =? calls)%nat = false ->
             rest <> [] ->
             ((calls <=? k)%nat
              && (k <=? calls + full_reads (List.length rest))%nat)
             = ((S calls <=? k)%nat
                && (k <=? S calls
                          + full_reads (List.length (skipn chunk_size rest)))%nat)).
  { intros k Hk Hrest. rewrite length_skipn.
    rewrite (full_reads_step (List.length rest))
      by (destruct rest; [congruence|cbn; lia]).
    apply Nat.eqb_neq in Hk. apply Bool.eq_iff_eq_true.
    rewrite !andb_true_iff, !Nat.leb_le. lia. }
  assert (Hshort : rest <> [] ->
                   (List.length (skipn chunk_size rest) < n)%nat).
  { intros Hrest. rewrite length_skipn. pose proof chunk_size_pos.
    destruct rest; [congruence|cbn in Hn |- *; lia]. }
  assert (Hfirst : rest <> [] -> firstn chunk_size rest <> []).
  { intros Hrest. pose proof chunk_size_pos as Hc.
    destruct chunk_size; [lia|]. destruct rest; [congruence|discriminate]. }
  destruct rest as [|x rest'] eqn:Hrest_eq.
  - (* the file is exhausted *)
    rewrite firstn_nil. cbn [List.length]. rewrite full_reads_0, Nat.add_0_r.
    destruct fault as [k|].
    + destruct (k =? calls)%nat eqn:Hk.
      * apply Nat.eqb_eq in Hk. subst k. rewrite Nat.leb_refl. reflexivity.
      * apply Nat.eqb_neq in Hk.
        replace ((calls <=? k)%nat && (k <=? calls)%nat) with false.
        -- exists []. split; [constructor|reflexivity].
        -- symmetry. apply andb_false_iff.
           destruct (Nat.lt_ge_cases k calls) as [Hlt|Hge].
           ++ left. apply Nat.leb_gt. assumption.
           ++ right. apply Nat.leb_gt. lia.
    + exists []. split; [constructor|reflexivity].
  - rewrite <- Hrest_eq in *.
    assert (Hne : rest <> []) by (rewrite Hrest_eq; discriminate).
    clear Hrest_eq x rest'.
    specialize (Hshort Hne). specialize (Hfirst Hne).
    destruct fault as [k|].
    + destruct (k =? calls)%nat eqn:Hk.
      * apply Nat.eqb_eq in Hk. subst k. rewrite Nat.leb_refl. cbn [andb].
        replace (calls <=? calls + full_reads (List.length rest))%nat with true
          by (symmetry; apply Nat.leb_le; lia).
        reflexivity.
      * rewrite (Hstep k Hk Hne).
        destruct (firstn chunk_size rest) as [|b chunk] eqn:Hchunk;
          [congruence|].
        specialize (IH _ Hshort
                       {| h_rest := skipn chunk_size rest; h_calls := S calls;
                          h_fault := Some k |}
                       (MD5.update m (b :: chunk)) eq_refl).
        unfold fault_ahead in IH. cbn [h_rest h_calls h_fault] in IH.
        destruct ((S calls <=? k)%nat && _); [exact IH|].
        destruct IH as (cs & Hcs & Hloop).
        exists ((b :: chunk) :: cs). split.
        -- rewrite <- Hchunk. constructor; assumption.
        -- exact Hloop.
    + destruct (firstn chunk_size rest) as [|b chunk] eqn:Hchunk; [congruence|].
      specialize (IH _ Hshort
                     {| h_rest := skipn chunk_size rest; h_calls := S calls;
                        h_fault := None |}
                     (MD5.update m (b :: chunk)) eq_refl).
      unfold fault_ahead in IH. cbn [h_rest h_calls h_fault] in IH.
      destruct IH as (cs & Hcs & Hloop).
      exists ((b :: chunk) :: cs). split.
      * rewrite <- Hchunk. constructor; assumption.
      * exact Hloop.
Qed.

Lemma fault_ahead_fresh (f : file) :
  fault_ahead {| h_rest := f_data f; h_calls := 0; h_fault := f_fault f |}
  = fault_hits f.
Proof.
  unfold fault_ahead, fault_hits, read_happens. cbn [h_rest h_calls h_fault].
  destruct (f_fault f); reflexivity.
Qed.

(** What [_calculate_file_hash] returns, case by case; the world is left
    as it was. *)
Lemma calculate_file_hash_cases (file_path : string) (w : world) :
  _calculate_file_hash file_path w
  = (Ok match w_node w file_path with
        | Regular f =>
            if f_openable f && negb (fault_hits f)
            then MD5.md5_hex (f_data f)
            else "hash_calculation_failed"
        | _ => "hash_calculation_failed"
        end, w).
Proof.
  unfold _calculate_file_hash, try_except, bind, open, lift, ret.
  destruct (w_node w file_path) as [| |f|]; try reflexivity.
  destruct (f_openable f); [|reflexivity]. cbn [andb].
  pose proof (hash_loop_outcome _ {| h_rest := f_data f; h_calls := 0;
                                     h_fault := f_fault f |} MD5.new eq_refl)
    as Hloop.
  rewrite fault_ahead_fresh in Hloop. cbn [h_rest] in Hloop.
  destruct (fault_hits f); cbn [negb].
  - rewrite Hloop. reflexivity.
  - destruct Hloop as (cs & Hcs & ->). do 2 f_equal.
    unfold MD5.md5_hex. f_equal.
    destruct cs as [|c cs].
    + inversion Hcs. reflexivity.
    + rewrite update_chunks by discriminate.
      rewrite (chunks_of_concat _ _ _ Hcs). reflexivity.
Qed.

(** C4. For every path, [_calculate_file_hash] returns and never raises.
    When the file opens and no [read] fails, the result is the hex digest of
    the running MD5 object fed with the successive 4096-byte reads of the
    file, which is the MD5 hex digest of the whole content: 32 lowercase
    hexadecimal digits.  When the path cannot be opened or a [read] fails,
    the result is exactly ["hash_calculation_failed"]. *)
Theorem C4_hash_computer (file_path : string) (w : world) :
  exists h,
    _calculate_file_hash file_path w = (Ok h, w)
    /\ match w_node w file_path with
       | Regular f =>
           if f_openable f && negb (fault_hits f)
           then (exists cs,
                    chunks_of chunk_size (f_data f) cs
                    /\ Forall (fun c => (List.length c <= 4096)%nat) cs
                    /\ h = MD5.hexdigest (fold_left MD5.update cs MD5.new))
                /\ h = MD5.md5_hex (f_data f)
                /\ String.length h = 32%nat
                /\ Py.all_chars is_lower_hex h = true
           else h = "hash_calculation_failed"
       | _ => h = "hash_calculation_failed"
       end.
Proof.
  eexists. split; [apply calculate_file_hash_cases|].
  destruct (w_node w file_path) as [| |f|]; try reflexivity.
  destruct (f_openable f) eqn:Hopen; [|reflexivity]. cbn [andb].
  destruct (fault_hits f) eqn:Hfault; [reflexivity|]. cbn [negb].
  split; [|split; [reflexivity|apply hexdigest_shape]].
  pose proof (hash_loop_outcome _ {| h_rest := f_data f; h_calls := 0;
                                     h_fault := f_fault f |} MD5.new eq_refl)
    as Hloop.
  rewrite fault_ahead_fresh, Hfault in Hloop. cbn [h_rest] in Hloop.
  destruct Hloop as (cs & Hcs & _). exists cs.
  split; [assumption|]. split; [exact (chunks_of_sizes _ _ _ Hcs)|].
  unfold MD5.md5_hex. f_equal.
  destruct cs as [|c cs].
  - inversion Hcs. reflexivity.
  - rewrite update_chunks by discriminate.
    rewrite (chunks_of_concat _ _ _ Hcs). reflexivity.
Qed.

(* ===================================================================== *)
(** ** The rule bundle *)
(* ===================================================================== *)

Lemma calculate_file_hash_value (file_path : string) (w : world) :
  _calculate_file_hash file_path w = (Ok (hash_value w file_path), w).
Proof.
  unfold hash_value. rewrite calculate_file_hash_cases. reflexivity.
Qed.

Lemma embeds_skip (a t s : string) : Py.embeds t s -> Py.embeds (a ++ t) s.
Proof.
  intros (pre & post & ->). exists (a ++ pre), post. same_pieces.
Qed.

Lemma embeds_front (s post : string) : Py.embeds (s ++ post) s.
Proof. exists "", post. reflexivity. Qed.

Lemma embeds_front4 (a b c d post : string) :
  Py.embeds (a ++ b ++ c ++ d ++ post) (a ++ b ++ c ++ d).
Proof. exists "", post. same_pieces. Qed.

Lemma join_cons (sep x y : string) (l : list string) :
  Py.join sep (x :: y :: l) = x ++ sep ++ Py.join sep (y :: l).
Proof. reflexivity. Qed.

Lemma embeds_join_head (sep x : string) (l : list string) :
  Py.embeds (Py.join sep (x :: l)) x.
Proof.
  destruct l as [|y l].
  - exists "", "". cbn. rewrite append_nil_r. reflexivity.
  - rewrite join_cons. apply embeds_front.
Qed.

Lemma embeds_join_front (sep x post : string) (l : list string) :
  Py.embeds (Py.join sep (x :: l) ++ post) x.
Proof.
  destruct (embeds_join_head sep x l) as (pre & post' & ->).
  exists pre, (post' ++ post). same_pieces.
Qed.

(** Walk down a concatenation to the entry looked for. *)
Ltac find_entry :=
  repeat rewrite append_assoc;
  repeat first [ apply embeds_front4 | apply embeds_join_front
               | apply embeds_skip ].

Section BundleFacts.

Variable utf8_ignore : list byte -> string.

Lemma read_text_world (file_path : string) (w : world) :
  snd (read_text utf8_ignore file_path w) = w.
Proof.
  unfold read_text, bind, open, lift, ret.
  destruct (w_node w file_path) as [| |f|]; try reflexivity.
  destruct (f_openable f); [|reflexivity].
  destruct (fst (f_read_all _)); reflexivity.
Qed.

Lemma generate_rules_from_text_cases (self : RuleGenerator)
      (filename : string) (a : analysis) (file_path h : string) (w : world) :
  (exists content,
      read_text utf8_ignore file_path w = (Ok content, w)
      /\ _generate_rules_from_text utf8_ignore self filename a file_path h w
         = (Ok (text_bundle self filename a h content (w_now w)), w))
  \/
  (exists e w',
      read_text utf8_ignore file_path w = (Raise e, w)
      /\ _generate_rules_from_text utf8_ignore self filename a file_path h w
         = (Ok (basic_bundle self filename a h (w_now w)), w')).
Proof.
  unfold _generate_rules_from_text, try_except, bind.
  pose proof (read_text_world file_path w) as Hw.
  destruct (read_text utf8_ignore file_path w) as [[content|e] w1];
    cbn [snd] in Hw; subst w1.
  - left. exists content. split; reflexivity.
  - right. exists e. eexists. split; reflexivity.
Qed.

Lemma generate_rules_from_csv_value (self : RuleGenerator)
      (filename : string) (a : analysis) (file_path h : string) (w : world) :
  _generate_rules_from_csv self filename a file_path h w
  = (Ok (csv_bundle self filename a h (w_now w)), w).
Proof. reflexivity. Qed.

(** Every branch returns a bundle of one of the three shapes, built on the
    hash that [_calculate_file_hash] returned. *)
Lemma generate_rules_cases (self : RuleGenerator) (filename : string)
      (a : analysis) (file_path : string) (w : world) :
  let h := hash_value w file_path in
  exists r w',
    generate_rules utf8_ignore self filename a file_path w = (Ok r, w')
    /\ ((Py.endswith filename ".csv" = true
         /\ r = csv_bundle self filename a h (w_now w) /\ w' = w)
        \/ (Py.endswith filename ".csv" = false
            /\ exists content,
                read_text utf8_ignore file_path w = (Ok content, w)
                /\ r = text_bundle self filename a h content (w_now w)
                /\ w' = w)
        \/ (Py.endswith filename ".csv" = false
            /\ r = basic_bundle self filename a h (w_now w))).
Proof.
  intros h. unfold generate_rules, bind.
  rewrite calculate_file_hash_value. fold h.
  destruct (Py.endswith filename ".csv") eqn:Hcsv.
  - rewrite generate_rules_from_csv_value.
    eexists. eexists. split; [reflexivity|]. left. repeat split.
  - destruct (generate_rules_from_text_cases self filename a file_path h w)
      as [(content & Hread & ->)|(e & w' & Hread & ->)].
    + eexists. eexists. split; [reflexivity|]. right. left.
      split; [reflexivity|]. exists content. repeat split. assumption.
    + eexists. eexists. split; [reflexivity|]. right. right.
      split; reflexivity.
Qed.

Lemma yara_embeds_hash (self : RuleGenerator) (filename : string)
      (a : analysis) (h : string) (indicators : list string) :
  Py.embeds (_generate_yara_rule self filename a h indicators)
    ("        $hash = " ++ Py.dq ++ h ++ Py.dq)
  /\ Py.embeds (_generate_yara_rule self filename a h indicators)
       ("        md5 = " ++ Py.dq ++ h ++ Py.dq).
Proof.
  split.
  - unfold _generate_yara_rule, _create_strings_section, strings_entries.
    cbn [app]. rewrite join_cons. cbv zeta. find_entry.
  - unfold _generate_yara_rule. cbv zeta. find_entry.
Qed.

Lemma csv_yara_embeds_hash (self : RuleGenerator) (filename h : string) :
  Py.embeds (_generate_csv_yara_rule self filename h)
    ("        $hash = " ++ Py.dq ++ h ++ Py.dq).
Proof. unfold _generate_csv_yara_rule. cbv zeta. find_entry. Qed.

Lemma basic_yara_embeds_hash (self : RuleGenerator) (filename h : string) :
  Py.embeds (_generate_basic_yara_rule self filename h)
    ("        $hash = " ++ Py.dq ++ h ++ Py.dq).
Proof. unfold _generate_basic_yara_rule. cbv zeta. find_entry. Qed.

End BundleFacts.

(** Every [str] of the model can be encoded, to the bytes of [encode]. *)
Lemma encode_char_code_point (c : ascii) :
  encode_code_point (N_of_ascii c) = Some (encode_char c).
Proof.
  destruct c as [[] [] [] [] [] [] [] []]; vm_compute; reflexivity.
Qed.

Lemma model_names_encode (s : string) :
  encode_code_points (code_points s) = Some (encode s).
Proof.
  induction s as [|c s IH]; [reflexivity|].
  cbn [code_points encode_code_points encode].
  rewrite encode_char_code_point, IH. reflexivity.
Qed.

(** A file whose name on disk is the bytes [caf\xe9.txt], which are not
    UTF-8, is listed under the name [caf\udce9.txt]: that name cannot be
    encoded, and neither can any name that holds the code point U+DCE9. *)
Example escaped_name_has_no_encoding :
  encode_code_points [99; 97; 102; 56553; 46; 116; 120; 116]%N = None
  /\ forall before after,
       encode_code_points (before ++ 56553%N :: after)%list = None.
Proof.
  split; [reflexivity|].
  induction before as [|n before IH]; intros after.
  - cbn [app encode_code_points]. reflexivity.
  - cbn [app encode_code_points]. rewrite IH.
    destruct (encode_code_point n); reflexivity.
Qed.

(** Name the three artifacts of a bundle and show the hash they carry. *)
Ltac exists_bundle_fields w' Hgen :=
  eexists; exists w'; eexists; eexists; eexists;
  split; [exact Hgen|];
  split; [reflexivity|]; split; [reflexivity|]; split; [reflexivity|];
  split; [first [ apply yara_embeds_hash | apply csv_yara_embeds_hash
                | apply basic_yara_embeds_hash ]|reflexivity].

(** X18. For every file name that can be encoded as UTF-8 (every name of
    the model), and every analysis, path and world, [generate_rules] returns
    a bundle with its three artifacts, whether hashing succeeded or not; the
    [$hash] entry of the rendered pattern-rule text and the [file_hash]
    field of the metadata record carry the string that
    [_calculate_file_hash] returned for the path, which is the MD5 hex
    digest of the file content or else the failure string.  Hashing is not
    what can keep a bundle from being returned: the rendering of the
    log-detection rule is, for a name that cannot be encoded. *)
Theorem hash_consistency_of_bundle (utf8_ignore : list byte -> string)
        (self : RuleGenerator) (filename : string) (a : analysis)
        (file_path : string) (w : world) :
  exists h,
    _calculate_file_hash file_path w = (Ok h, w)
    /\ (h = "hash_calculation_failed"
        \/ exists f, w_node w file_path = Regular f
                     /\ h = MD5.md5_hex (f_data f))
    /\ exists r w' y s m,
        generate_rules utf8_ignore self filename a file_path w = (Ok r, w')
        /\ yara r = Some y /\ sigma r = Some s /\ meta r = Some m
        /\ Py.embeds y ("        $hash = " ++ Py.dq ++ h ++ Py.dq)
        /\ file_hash m = h.
Proof.
  exists (hash_value w file_path).
  split; [apply calculate_file_hash_value|]. split.
  - unfold hash_value. rewrite calculate_file_hash_cases. cbn [fst].
    destruct (w_node w file_path) as [| |f|]; try (left; reflexivity).
    destruct (f_openable f && negb (fault_hits f));
      [right; exists f; split; reflexivity|left; reflexivity].
  - destruct (generate_rules_cases utf8_ignore self filename a file_path w)
      as (r & w' & Hgen & Hshape).
    cbv zeta in Hshape.
    destruct Hshape as [(_ & -> & _)|[(_ & content & _ & -> & _)|(_ & ->)]];
      exists_bundle_fields w' Hgen.
Qed.

(* ===================================================================== *)
(** ** The branches of [generate_rules] *)
(* ===================================================================== *)

(** C6. For every file name that ends in [.csv], [generate_rules] takes the
    CSV branch: the file content is not read for indicators (the bundle is
    determined by the file name, the analysis, the hash and the clock, and
    the world is unchanged), the strings block of the pattern rule is the
    strings section without indicators, that is the file-name entry and the
    hash entry only, the declared file type is the literal [text/csv], and
    the indicator list of the metadata is empty. *)
Theorem C6_csv_branch (utf8_ignore : list byte -> string)
        (self : RuleGenerator) (filename : string) (a : analysis)
        (file_path : string) (w : world) :
  Py.endswith filename ".csv" = true ->
  exists h y m,
    _calculate_file_hash file_path w = (Ok h, w)
    /\ generate_rules utf8_ignore self filename a file_path w
       = (Ok {| yara := Some y;
                sigma := Some (_generate_sigma_rule self filename a h);
                meta := Some m |}, w)
    /\ y = _generate_csv_yara_rule self filename h
    /\ (exists header,
          y = header
              ++ "    strings:" ++ Py.nl
              ++ _create_strings_section filename h [] ++ Py.nl
              ++ "        " ++ Py.nl
              ++ "    condition:" ++ Py.nl
              ++ "        any of them" ++ Py.nl
              ++ "}" ++ Py.nl
          /\ Py.embeds header
               ("        file_type = " ++ Py.dq ++ "text/csv" ++ Py.dq))
    /\ strings_entries filename h []
       = [ "        $file_name = " ++ Py.dq ++ filename ++ Py.dq ++ " wide ascii";
           "        $hash = " ++ Py.dq ++ h ++ Py.dq ]
    /\ m = _generate_metadata self filename a h [] (w_now w)
    /\ indicators_found m = [].
Proof.
  intros Hcsv. exists (hash_value w file_path). eexists. eexists.
  split; [apply calculate_file_hash_value|]. split.
  - unfold generate_rules, bind. rewrite calculate_file_hash_value, Hcsv.
    apply generate_rules_from_csv_value.
  - split; [reflexivity|]. split; [|repeat split].
    exists ("rule " ++ csv_rule_name filename ++ Py.nl
            ++ "{" ++ Py.nl
            ++ "    meta:" ++ Py.nl
            ++ "        author = " ++ Py.dq ++ author self ++ Py.dq ++ Py.nl
            ++ "        date = " ++ Py.dq ++ created self ++ Py.dq ++ Py.nl
            ++ "        description = " ++ Py.dq ++ "Basic rule for CSV file: "
            ++ filename ++ Py.dq ++ Py.nl
            ++ "        file_type = " ++ Py.dq ++ "text/csv" ++ Py.dq ++ Py.nl
            ++ Py.nl).
    split.
    + unfold _generate_csv_yara_rule, _create_strings_section, strings_entries.
      cbn [firstn indicator_entries app]. rewrite join_cons.
      unfold Py.join at 1. cbn [String.concat]. cbv zeta. same_pieces.
    + find_entry.
Qed.

Lemma C6_csv_branch_witness :
  Py.endswith "data.csv" ".csv" = true
  /\ exists h y m,
      _calculate_file_hash "in/data.csv" demo_world = (Ok h, demo_world)
      /\ generate_rules decode_ascii (rule_generator demo_generator)
           "data.csv" empty_analysis "in/data.csv" demo_world
         = (Ok {| yara := Some y;
                  sigma := Some (_generate_sigma_rule
                                   (rule_generator demo_generator)
                                   "data.csv" empty_analysis h);
                  meta := Some m |}, demo_world)
      /\ y = _generate_csv_yara_rule (rule_generator demo_generator) "data.csv" h
      /\ indicators_found m = [].
Proof.
  split; [reflexivity|].
  destruct (C6_csv_branch decode_ascii (rule_generator demo_generator)
              "data.csv" empty_analysis "in/data.csv" demo_world eq_refl)
    as (h & y & m & H1 & H2 & H3 & _ & _ & _ & H7).
  exists h, y, m. repeat split; assumption.
Defined.

(** C9. For a fixed generator, the log-detection rule that [generate_rules]
    returns is determined by the file name: two calls with the same file
    name and different analyses, paths (hence contents and hashes) and
    worlds return the same text, and the generic branch, the CSV branch and
    the fallback all return that text. *)
Theorem C9_sigma_depends_on_filename_only
        (utf8_ignore : list byte -> string) (self : RuleGenerator)
        (filename : string) (a1 a2 : analysis) (path1 path2 h1 h2 : string)
        (w1 w2 : world) :
  sigma_of (generate_rules utf8_ignore self filename a1 path1 w1)
  = sigma_of (generate_rules utf8_ignore self filename a2 path2 w2)
  /\ sigma_of (generate_rules utf8_ignore self filename a1 path1 w1)
     = Some (_generate_sigma_rule self filename empty_analysis "")
  /\ sigma_of (_generate_rules_from_text utf8_ignore self filename a1 path1 h1 w1)
     = Some (_generate_sigma_rule self filename empty_analysis "")
  /\ sigma_of (_generate_rules_from_csv self filename a1 path1 h1 w1)
     = Some (_generate_sigma_rule self filename empty_analysis "")
  /\ sigma_of (_generate_basic_rules self filename a1 h1 w1)
     = Some (_generate_sigma_rule self filename empty_analysis "")
  /\ _generate_sigma_rule self filename a1 h1
     = _generate_sigma_rule self filename a2 h2.
Proof.
  assert (Hgen : forall a p w,
             sigma_of (generate_rules utf8_ignore self filename a p w)
             = Some (_generate_sigma_rule self filename empty_analysis "")).
  { intros a p w.
    destruct (generate_rules_cases utf8_ignore self filename a p w)
      as (r & w' & -> & Hshape). cbv zeta in Hshape.
    destruct Hshape as [(_ & -> & _)|[(_ & content & _ & -> & _)|(_ & ->)]];
      reflexivity. }
  split; [rewrite !Hgen; reflexivity|]. split; [apply Hgen|]. split.
  - destruct (generate_rules_from_text_cases utf8_ignore self filename a1
                path1 h1 w1) as [(content & _ & ->)|(e & w' & _ & ->)];
      reflexivity.
  - repeat split.
Qed.

(* ===================================================================== *)
(** ** Saving a bundle *)
(* ===================================================================== *)

Lemma write_file_allowed (path text : string) (w : world) :
  w_write_denied w path = false ->
  write_file path text w
  = (Ok tt,
     {| w_node := w_node w; w_magic := w_magic w;
        w_write_denied := w_write_denied w; w_now := w_now w;
        w_written := w_written w ++ [(path, text)];
        w_log := w_log w; w_stdout := w_stdout w |}).
Proof. intros H. unfold write_file. rewrite H. reflexivity. Qed.

(** The metadata write of [_save_rules] has no guard: handed a bundle
    without any artifact, which [generate_rules] never returns, it writes an
    empty JSON object. *)
Example save_rules_without_artifacts :
  let r := {| yara := None; sigma := None; meta := None |} in
  fst (_save_rules demo_generator r "x" demo_world) = Ok tt
  /\ w_written (snd (_save_rules demo_generator r "x" demo_world))
     = [("out/x_metadata.json", "{}")].
Proof. repeat split. Qed.

(* ===================================================================== *)
(** ** What a run may change *)
(* ===================================================================== *)

Lemma extends_refl (w : world) : extends w w.
Proof.
  split; try reflexivity; exists []; symmetry; apply app_nil_r.
Qed.

Lemma extends_trans (w1 w2 w3 : world) :
  extends w1 w2 -> extends w2 w3 -> extends w1 w3.
Proof.
  intros [n1 m1 d1 t1 [a1 Ha1] [b1 Hb1] [c1 Hc1]]
         [n2 m2 d2 t2 [a2 Ha2] [b2 Hb2] [c2 Hc2]].
  split; try congruence.
  - exists (a1 ++ a2)%list. rewrite Ha2, Ha1, app_assoc. reflexivity.
  - exists (b1 ++ b2)%list. rewrite Hb2, Hb1, app_assoc. reflexivity.
  - exists (c1 ++ c2)%list. rewrite Hc2, Hc1, app_assoc. reflexivity.
Qed.

Lemma extends_log (w w' : world) (entry : level * string) :
  extends w w' -> In entry (w_log w) -> In entry (w_log w').
Proof.
  intros [_ _ _ _ _ [l ->] _] Hin. apply in_or_app. left. assumption.
Qed.

Section Grows.

Context {A B : Type}.

Lemma grows_ret (a : A) : grows (ret a).
Proof. intros w. apply extends_refl. Qed.

Lemma grows_raise (e : exn) : grows (@raise A e).
Proof. intros w. apply extends_refl. Qed.

Lemma grows_lift (r : res A) : grows (lift r).
Proof. intros w. apply extends_refl. Qed.

Lemma grows_bind (c : M A) (k : A -> M B) :
  grows c -> (forall a, grows (k a)) -> grows (bind c k).
Proof.
  intros Hc Hk w. unfold bind. specialize (Hc w).
  destruct (c w) as [[a|e] w1]; cbn [snd] in *; [|assumption].
  eapply extends_trans; [eassumption|apply Hk].
Qed.

Lemma grows_try (body : M A) (handler : exn -> M A) :
  grows body -> (forall e, grows (handler e)) -> grows (try_except body handler).
Proof.
  intros Hb Hh w. unfold try_except. specialize (Hb w).
  destruct (body w) as [[a|e] w1]; cbn [snd] in *; [assumption|].
  eapply extends_trans; [eassumption|apply Hh].
Qed.

Lemma grows_if (b : bool) (c1 c2 : M A) :
  grows c1 -> grows c2 -> grows (if b then c1 else c2).
Proof. destruct b; intros; assumption. Qed.

End Grows.

Lemma grows_log (l : level) (msg : string) : grows (log l msg).
Proof.
  intros w. split; try reflexivity; cbn;
    first [ exists []; symmetry; apply app_nil_r | eexists; reflexivity ].
Qed.

Lemma grows_print (msg : string) : grows (print msg).
Proof.
  intros w. split; try reflexivity; cbn;
    first [ exists []; symmetry; apply app_nil_r | eexists; reflexivity ].
Qed.

Lemma grows_write_file (path text : string) : grows (write_file path text).
Proof.
  intros w. unfold write_file.
  destruct (w_write_denied w path); [apply extends_refl|].
  split; try reflexivity; cbn;
    first [ exists []; symmetry; apply app_nil_r | eexists; reflexivity ].
Qed.

Lemma grows_now : grows now.
Proof. intros w. apply extends_refl. Qed.

Lemma grows_open (path : string) : grows (open path).
Proof.
  intros w. unfold open.
  destruct (w_node w path) as [| |f|]; try apply extends_refl.
  destruct (f_openable f); apply extends_refl.
Qed.

Lemma grows_stat (path : string) : grows (stat path).
Proof.
  intros w. unfold stat. destruct (w_node w path); apply extends_refl.
Qed.

Lemma grows_is_file (path : string) : grows (is_file path).
Proof.
  intros w. unfold is_file. destruct (w_node w path); apply extends_refl.
Qed.

Lemma grows_path_exists (path : string) : grows (path_exists path).
Proof.
  intros w. unfold path_exists. destruct (w_node w path); apply extends_refl.
Qed.

Lemma grows_glob_all (path : string) : grows (glob_all path).
Proof.
  intros w. unfold glob_all. destruct (w_node w path); apply extends_refl.
Qed.

Lemma grows_calculate_file_hash (path : string) :
  grows (_calculate_file_hash path).
Proof.
  intros w. rewrite calculate_file_hash_cases. apply extends_refl.
Qed.

Lemma grows_detect_file_type (path : string) : grows (_detect_file_type path).
Proof.
  intros w. unfold _detect_file_type.
  destruct (w_magic w path); apply extends_refl.
Qed.

Create HintDb grows.
#[local] Hint Resolve grows_ret grows_raise grows_lift grows_log grows_print
  grows_write_file grows_now grows_open grows_stat grows_is_file
  grows_path_exists grows_glob_all
  grows_calculate_file_hash grows_detect_file_type : grows.

(** Decompose a computation along its binds, handlers and tests. *)
Ltac grow :=
  repeat first
    [ apply grows_bind; [|intros ?]
    | apply grows_try; [|intros ?]
    | apply grows_if
    | match goal with
      | |- grows (let '(_, _) := ?x in _) => destruct x
      | |- grows (match ?x with Some _ => _ | None => _ end) => destruct x
      end
    | solve [auto with grows] ].

Section Orchestrator.

Variable utf8_ignore : list byte -> string.

Lemma grows_analyze_file (path : string) :
  grows (analyze_file utf8_ignore path).
Proof.
  unfold analyze_file, _get_file_info, _analyze_content. grow.
Qed.

Lemma grows_generate_rules (self : RuleGenerator) (filename : string)
      (a : analysis) (path : string) :
  grows (generate_rules utf8_ignore self filename a path).
Proof.
  unfold generate_rules, _generate_rules_from_csv, _generate_rules_from_text,
    _generate_basic_rules, read_text.
  grow.
Qed.

Lemma grows_save_rules (self : ASRGenerator) (r : rules) (base : string) :
  grows (_save_rules self r base).
Proof. unfold _save_rules. grow. Qed.

Lemma grows_process_single_file (self : ASRGenerator) (path : string) :
  grows (_process_single_file utf8_ignore self path).
Proof.
  unfold _process_single_file. grow.
Qed.

Lemma grows_process_entry (self : ASRGenerator) (path : string) :
  grows (process_entry utf8_ignore self path).
Proof.
  unfold process_entry. apply grows_bind; [apply grows_is_file|].
  intros [|]; [|apply grows_ret].
  apply grows_try; [apply grows_process_single_file|].
  intros e. apply grows_log.
Qed.

End Orchestrator.

(* ===================================================================== *)
(** ** The orchestrator *)
(* ===================================================================== *)

Section Isolation.

Variable utf8_ignore : list byte -> string.
Variable self : ASRGenerator.

Lemma single_file_logs_start (p : string) (w : world) :
  In (INFO, "Processing file: " ++ path_name p)
     (w_log (snd (_process_single_file utf8_ignore self p w))).
Proof.
  unfold _process_single_file. unfold bind at 1. cbn [log].
  match goal with
  | |- In ?entry (w_log (snd (?k ?w1))) =>
      apply (extends_log w1 _ entry);
        [|cbn [w_log]; apply in_or_app; right; left; reflexivity]
  end.
  assert (Hk : forall u : unit,
             grows (analysis_result <- analyze_file utf8_ignore p ;;
                    r <- generate_rules utf8_ignore (rule_generator self)
                           (path_name p) analysis_result p ;;
                    _save_rules self r (path_stem p))).
  { intros _. grow. }
  apply (Hk tt).
Qed.

(** One turn of the loop raises only when the entry may not be looked at;
    whatever processing does, the turn returns normally. *)
Lemma process_entry_outcome (p : string) (w : world) :
  match w_node w p with
  | Inaccessible =>
      process_entry utf8_ignore self p w = (Raise (permission_denied p), w)
  | _ =>
      exists w',
        process_entry utf8_ignore self p w = (Ok tt, w')
        /\ extends w w'
        /\ ((exists f, w_node w p = Regular f) ->
            attempted utf8_ignore self w w' p)
  end.
Proof.
  unfold process_entry, bind, is_file.
  destruct (w_node w p) as [| |f|] eqn:Hnode.
  - exists w. split; [reflexivity|]. split; [apply extends_refl|].
    intros [f Hf]. discriminate.
  - exists w. split; [reflexivity|]. split; [apply extends_refl|].
    intros [f Hf]. discriminate.
  - unfold try_except.
    pose proof (grows_process_single_file utf8_ignore self p w) as Hgrow.
    pose proof (single_file_logs_start p w) as Hstart.
    destruct (_process_single_file utf8_ignore self p w) as [[[]|e] w1] eqn:Hrun;
      cbn [snd] in Hgrow, Hstart.
    + exists w1. split; [reflexivity|]. split; [assumption|].
      intros _. exists w, w1, (Ok tt).
      split; [apply extends_refl|]. split; [assumption|].
      split; [apply extends_refl|]. split; [assumption|]. discriminate.
    + pose proof (grows_log ERROR
                    ("Error processing " ++ p ++ ": " ++ exn_str e) w1) as Hlog.
      eexists. split; [reflexivity|].
      split; [eapply extends_trans; eassumption|].
      intros _. exists w, w1, (Raise e).
      split; [apply extends_refl|]. split; [assumption|].
      split; [assumption|]. split.
      * eapply extends_log; eassumption.
      * intros e' He'. injection He' as <-. cbn [log snd w_log].
        apply in_or_app. right. left. reflexivity.
  - reflexivity.
Qed.

Lemma attempted_later (w w0 w1 w' : world) (p : string) :
  extends w w0 -> extends w1 w' -> attempted utf8_ignore self w0 w1 p ->
  attempted utf8_ignore self w w' p.
Proof.
  intros H0 H1 (wa & wb & outcome & Ha & Hrun & Hb & Hinfo & Herr).
  exists wa, wb, outcome.
  split; [eapply extends_trans; eassumption|]. split; [assumption|].
  split; [eapply extends_trans; eassumption|]. split.
  - eapply extends_log; eassumption.
  - intros e He. eapply extends_log; [eassumption|]. apply Herr. assumption.
Qed.

Lemma first_inaccessible_same (w w' : world) (paths : list string) :
  w_node w' = w_node w ->
  first_inaccessible w' paths = first_inaccessible w paths.
Proof.
  intros Hnode. induction paths as [|p rest IH]; [reflexivity|].
  cbn [first_inaccessible]. rewrite Hnode, IH. reflexivity.
Qed.

Lemma before_inaccessible_same (w w' : world) (paths : list string) :
  w_node w' = w_node w ->
  before_inaccessible w' paths = before_inaccessible w paths.
Proof.
  intros Hnode. induction paths as [|p rest IH]; [reflexivity|].
  cbn [before_inaccessible]. rewrite Hnode, IH. reflexivity.
Qed.

Lemma loop_result_same (w w' : world) (paths : list string) :
  w_node w' = w_node w -> loop_result w' paths = loop_result w paths.
Proof.
  intros Hnode. unfold loop_result.
  rewrite (first_inaccessible_same w w' paths Hnode). reflexivity.
Qed.

(** The loop stops at the first entry that may not be looked at, with its
    [PermissionError], and returns normally when there is none; every
    regular file before that entry is attempted. *)
Lemma process_loop_outcome (paths : list string) :
  forall w,
  exists w',
    process_loop utf8_ignore self paths w = (loop_result w paths, w')
    /\ extends w w'
    /\ forall p, In p (before_inaccessible w paths) ->
                 (exists f, w_node w p = Regular f) ->
                 attempted utf8_ignore self w w' p.
Proof.
  induction paths as [|p0 rest IH]; intros w.
  - exists w. split; [reflexivity|]. split; [apply extends_refl|].
    intros p [].
  - pose proof (process_entry_outcome p0 w) as Hentry.
    cbn [process_loop]. unfold loop_result, bind.
    cbn [first_inaccessible before_inaccessible].
    destruct (w_node w p0) as [|size mtime names|f|] eqn:Hnode;
      [| | |exists w; rewrite Hentry; split; [reflexivity|];
            split; [apply extends_refl|]; intros p []];
      destruct Hentry as (w1 & Hentry & Hext1 & Hatt1);
      destruct (IH w1) as (w' & Hloop & Hext' & Hatt');
      rewrite Hentry, Hloop;
      rewrite (loop_result_same w w1 rest (ext_node _ _ Hext1)) in *;
      rewrite (before_inaccessible_same w w1 rest (ext_node _ _ Hext1)) in Hatt';
      (exists w'; split; [reflexivity|];
       split; [eapply extends_trans; eassumption|];
       intros p [<-|Hin] Hreg;
       [ apply (attempted_later w w w1 w');
           [apply extends_refl|assumption|];
         rewrite Hnode in Hreg; apply Hatt1; exact Hreg
       | apply (attempted_later w w1 w' w');
           [assumption|apply extends_refl|];
         apply Hatt'; [assumption|];
         rewrite (ext_node _ _ Hext1); assumption ]).
Qed.


(** C8. An exception raised while one file is processed is logged, and the
    loop goes on with the entries that are left.  When the input directory
    is missing, [process_files] raises [FileNotFoundError] and leaves the
    world as it was: nothing is processed, written or logged.  For a
    directory the run ends normally unless the listing has an entry that may
    not be looked at, where [is_file], called outside the [try], raises; in
    both cases every regular file listed before such an entry is processed
    whatever happened to the files before it: the start of its processing
    is logged, and when its processing raises, the error is logged. *)
Theorem C8_failure_isolation (w : world) :
  (forall (p : string) (rest : list string) (w1 w2 : world) (f : file) (e : exn),
      w_node w1 p = Regular f ->
      _process_single_file utf8_ignore self p w1 = (Raise e, w2) ->
      process_loop utf8_ignore self (p :: rest) w1
      = process_loop utf8_ignore self rest
          (snd (log ERROR ("Error processing " ++ p ++ ": " ++ exn_str e) w2)))
  /\ match w_node w (input_dir self) with
     | Missing =>
         process_files utf8_ignore self w
         = (Raise (FileNotFoundError
                     ("Input directory not found: " ++ input_dir self)), w)
     | Inaccessible =>
         process_files utf8_ignore self w
         = (Raise (permission_denied (input_dir self)), w)
     | Regular _ =>
         exists w', process_files utf8_ignore self w = (Ok tt, w')
     | Directory _ _ names =>
         let paths := map (path_join (input_dir self)) names in
         exists w',
           process_files utf8_ignore self w = (loop_result w paths, w')
           /\ extends w w'
           /\ forall p,
                In p (before_inaccessible w paths) ->
                (exists f, w_node w p = Regular f) ->
                attempted utf8_ignore self w w' p
     end.
Proof.
  split.
  - intros p rest w1 w2 f e Hnode Hrun. cbn [process_loop].
    unfold bind at 1. unfold process_entry, bind, is_file, try_except.
    rewrite Hnode, Hrun. reflexivity.
  - unfold process_files, bind, path_exists, glob_all.
    destruct (w_node w (input_dir self)) as [|size mtime names|f|] eqn:Hdir;
      cbn [negb]; try reflexivity;
      unfold log at 1; cbv beta iota; cbn [w_node]; rewrite Hdir;
      [|eexists; reflexivity].
    match goal with
    | |- context [process_loop _ _ ?ps ?w1] =>
        destruct (process_loop_outcome ps w1) as (w' & Hloop & Hext & Hatt);
          assert (Hlog : extends w w1)
            by exact (grows_log INFO
                        ("Processing files from: " ++ input_dir self) w)
    end.
    rewrite (loop_result_same w _ _ (ext_node _ _ Hlog)) in Hloop.
    rewrite (before_inaccessible_same w _ _ (ext_node _ _ Hlog)) in Hatt.
    exists w'.
    split; [exact Hloop|]. split; [eapply extends_trans; eassumption|].
    intros p Hin Hreg.
    eapply attempted_later; [exact Hlog|apply extends_refl|].
    apply Hatt; [assumption|exact Hreg].
Qed.

End Isolation.

(** In the concrete run, the log-detection rule of [data.csv] cannot be
    written: the error is logged and [sample.txt], listed after it, is
    processed all the same. *)
Lemma C8_failure_isolation_witness :
  process_loop decode_ascii demo_generator ["in/data.csv"; "in/sample.txt"]
    demo_world
  = process_loop decode_ascii demo_generator ["in/sample.txt"]
      (snd (log ERROR "Error processing in/data.csv: [Errno 13] Permission denied: 'out/data_sigma.yml'"
              (snd (_process_single_file decode_ascii demo_generator
                      "in/data.csv" demo_world))))
  /\ exists w',
       process_files decode_ascii demo_generator demo_world = (Ok tt, w')
       /\ In (ERROR, "Error processing in/data.csv: [Errno 13] Permission denied: 'out/data_sigma.yml'")
             (w_log w')
       /\ attempted decode_ascii demo_generator demo_world w' "in/sample.txt".
Proof.
  pose proof (C8_failure_isolation decode_ascii demo_generator demo_world)
    as [Hstep H].
  split.
  - apply (Hstep "in/data.csv" ["in/sample.txt"] demo_world _
             {| f_data := encode "a,b"; f_mtime := 1700000000;
                f_openable := true; f_fault := None |}
             (PermissionError "[Errno 13] Permission denied: 'out/data_sigma.yml'")).
    + reflexivity.
    + vm_compute. reflexivity.
  - change (w_node demo_world (input_dir demo_generator))
      with (Directory 4096 1700000000 ["data.csv"; "sub"; "sample.txt"; "locked"])
      in H.
    destruct H as (w' & Hrun & _ & Hatt).
    exists w'. split; [exact Hrun|]. split.
    + assert (Hw : w' = snd (process_files decode_ascii demo_generator demo_world))
        by (rewrite Hrun; reflexivity).
      rewrite Hw. vm_compute. tauto.
    + apply (Hatt "in/sample.txt").
      * cbn. tauto.
      * eexists. reflexivity.
Defined.

(** When [sub] may not be looked at, the run stops there: [data.csv],
    listed before it, was processed, and [sample.txt], listed after it, is
    never reached. *)
Example sealed_run_stops :
  fst (process_files decode_ascii demo_generator sealed_world)
  = Raise (PermissionError "[Errno 13] Permission denied: 'in/sub'")
  /\ map fst (w_written (snd (process_files decode_ascii demo_generator
                                 sealed_world)))
     = ["out/data_rules.yar"]
  /\ before_inaccessible sealed_world
       (map (path_join "in") (listing sealed_world "in"))
     = ["in/data.csv"].
Proof. vm_compute. repeat split. Qed.

(** The files the concrete run writes, in order: a full triple for
    [sample.txt] and for the file that cannot be opened, the pattern rule
    alone for [data.csv]. *)
Example demo_run_written :
  map fst (w_written (snd (process_files decode_ascii demo_generator demo_world)))
  = [ "out/data_rules.yar";
      "out/sample_rules.yar"; "out/sample_sigma.yml"; "out/sample_metadata.json";
      "out/locked_rules.yar"; "out/locked_sigma.yml"; "out/locked_metadata.json" ].
Proof. vm_compute. reflexivity. Qed.

(* ===================================================================== *)
(** ** More on the indicator scans *)
(* ===================================================================== *)

Lemma lower_char_twice (c : ascii) :
  Py.lower_char (Py.lower_char c) = Py.lower_char c.
Proof. each_char c. Qed.

Lemma lower_twice (s : string) : Py.lower (Py.lower s) = Py.lower s.
Proof.
  induction s as [|c s IH]; [reflexivity|].
  cbn [Py.lower]. rewrite lower_char_twice, IH. reflexivity.
Qed.

Lemma in_hits (text : string) (pats : list (string * string)) (x : string) :
  In x (hits text pats)
  <-> exists pattern category,
      In (pattern, category) pats
      /\ x = category ++ ": " ++ pattern
      /\ Py.contains pattern text = true.
Proof.
  unfold hits. rewrite in_map_iff. split.
  - intros [[pattern category] [<- Hin]]. apply filter_In in Hin.
    destruct Hin as [Hin Hocc]. exists pattern, category.
    repeat split; assumption.
  - intros (pattern & category & Hin & -> & Hocc).
    exists (pattern, category). split; [reflexivity|].
    apply filter_In. split; assumption.
Qed.

(** X1. [_extract_indicators_from_content] reports only patterns that occur
    in the lowercased content; when at most 5 patterns occur it reports all
    of them; it returns the empty list exactly when no pattern occurs; and
    lowercasing the content beforehand changes nothing. *)
Theorem extraction_sound_and_complete (content : string) :
  (forall x, In x (_extract_indicators_from_content content) ->
     exists pattern category,
       In (pattern, category) rg_patterns
       /\ x = category ++ ": " ++ pattern
       /\ Py.contains pattern (Py.lower content) = true)
  /\ ((List.length
         (filter (fun p => Py.contains (fst p) (Py.lower content)) rg_patterns)
       <= 5)%nat ->
      forall pattern category,
        In (pattern, category) rg_patterns ->
        Py.contains pattern (Py.lower content) = true ->
        In (category ++ ": " ++ pattern)
           (_extract_indicators_from_content content))
  /\ (_extract_indicators_from_content content = []
      <-> forall pattern category,
          In (pattern, category) rg_patterns ->
          Py.contains pattern (Py.lower content) = false)
  /\ _extract_indicators_from_content (Py.lower content)
     = _extract_indicators_from_content content.
Proof.
  rewrite !extract_indicators_hits, lower_twice.
  split; [|split; [|split; [|reflexivity]]].
  - intros x Hin. apply in_hits.
    eapply in_order_In; [apply in_order_firstn|exact Hin].
  - intros Hfew pattern category Hin Hocc.
    rewrite firstn_all2 by (unfold hits; rewrite length_map; exact Hfew).
    apply in_hits. exists pattern, category. repeat split; assumption.
  - split.
    + intros Hnil pattern category Hin.
      destruct (Py.contains pattern (Py.lower content)) eqn:Hocc; [|reflexivity].
      assert (Hhit : In (category ++ ": " ++ pattern)
                        (hits (Py.lower content) rg_patterns)).
      { apply in_hits. exists pattern, category. repeat split; assumption. }
      destruct (hits (Py.lower content) rg_patterns) as [|y l]; [contradiction|].
      discriminate Hnil.
    + intros Hnone.
      destruct (hits (Py.lower content) rg_patterns) as [|y l] eqn:Hh;
        [reflexivity|].
      assert (Hy : In y (hits (Py.lower content) rg_patterns))
        by (rewrite Hh; left; reflexivity).
      apply in_hits in Hy. destruct Hy as (pattern & category & Hin & _ & Hocc).
      rewrite (Hnone pattern category Hin) in Hocc. discriminate.
Qed.

(** X2. [_find_potential_indicators] reports exactly the patterns of its
    six-entry list that occur in the lowercased decoded bytes, without any
    cap: its result agrees with the scan of [_extract_indicators_from_content]
    on the same text up to the first five entries, which form a prefix of
    what the latter returns. *)
Theorem inspector_scan_exact (utf8_ignore : list byte -> string)
        (content : list byte) :
  (forall x,
      In x (_find_potential_indicators utf8_ignore content)
      <-> exists pattern category,
          In (pattern, category) fp_patterns
          /\ x = category ++ ": " ++ pattern
          /\ Py.contains pattern (Py.lower (utf8_ignore content)) = true)
  /\ (List.length (_find_potential_indicators utf8_ignore content) <= 6)%nat
  /\ exists rest,
      _extract_indicators_from_content (utf8_ignore content)
      = (firstn 5 (_find_potential_indicators utf8_ignore content) ++ rest)%list
      /\ ((5 <= List.length (_find_potential_indicators utf8_ignore content))%nat
          -> rest = []).
Proof.
  unfold _find_potential_indicators. rewrite scan_loop_hits. cbn [app].
  split; [|split].
  - intros x. apply in_hits.
  - unfold hits. rewrite length_map.
    etransitivity; [apply filter_length_le|]. cbn. lia.
  - rewrite extract_indicators_hits.
    set (t := Py.lower (utf8_ignore content)).
    change rg_patterns with (fp_patterns ++ skipn 6 rg_patterns)%list.
    unfold hits at 1. rewrite filter_app, map_app. fold (hits t fp_patterns).
    rewrite firstn_app.
    eexists. split; [reflexivity|].
    intros Hlen. replace (5 - List.length (hits t fp_patterns))%nat with 0%nat by lia.
    reflexivity.
Qed.

(* ===================================================================== *)
(** ** The file inspector *)
(* ===================================================================== *)

Lemma first_read (n : nat) (f : file) :
  fst (f_read n {| h_rest := f_data f; h_calls := 0; h_fault := f_fault f |})
  = if first_read_fails f
    then Raise (OSError "[Errno 5] Input/output error")
    else Ok (firstn n (f_data f)).
Proof.
  unfold f_read, faulty, first_read_fails. cbn [h_fault h_calls h_rest].
  destruct (f_fault f) as [[|k]|]; reflexivity.
Qed.

Section Inspector.

Variable utf8_ignore : list byte -> string.

(** X3. [analyze_file] never raises.  For a path that names nothing, or
    that may not be looked at, it returns the empty dictionary and logs one
    error; for a regular file the
    dictionary always holds the byte size, the modification time, the name
    and the file type (libmagic's answer, or ["unknown"] when it raises),
    and it holds the three content keys, computed on the first 4096 bytes,
    exactly when the file can be opened and read: otherwise they are
    missing and one warning is logged.  Nothing is written. *)
Theorem analyze_file_outcome (file_path : string) (w : world) :
  exists a w',
    analyze_file utf8_ignore file_path w = (Ok a, w')
    /\ w_written w' = w_written w
    /\ match w_node w file_path with
       | Missing =>
           a = empty_analysis
           /\ w_log w'
              = (w_log w
                 ++ [(ERROR, ("Error analyzing file " ++ file_path
                              ++ ": [Errno 2] No such file or directory: '"
                              ++ file_path ++ "'")%string)])%list
       | Directory size mtime _ =>
           a_file_size a = Some size
           /\ a_potential_indicators a = None
           /\ a_file_type a = Some (get (w_magic w file_path) "unknown")
       | Regular f =>
           a_file_size a = Some (Z.of_nat (List.length (f_data f)))
           /\ a_modified_time a = Some (f_mtime f)
           /\ a_file_name a = Some (path_name file_path)
           /\ a_file_extension a = Some (Py.lower (path_suffix file_path))
           /\ a_file_type a = Some (get (w_magic w file_path) "unknown")
           /\ if readable f
              then a_has_text_patterns a
                   = Some (_has_text_patterns utf8_ignore (firstn 4096 (f_data f)))
                   /\ a_has_binary_patterns a
                      = Some (_has_binary_patterns (firstn 4096 (f_data f)))
                   /\ a_potential_indicators a
                      = Some (_find_potential_indicators utf8_ignore
                                (firstn 4096 (f_data f)))
                   /\ w_log w' = w_log w
              else a_has_text_patterns a = None
                   /\ a_has_binary_patterns a = None
                   /\ a_potential_indicators a = None
                   /\ exists msg, w_log w' = (w_log w ++ [(WARNING, msg)])%list
       | Inaccessible =>
           a = empty_analysis
           /\ w_log w'
              = (w_log w
                 ++ [(ERROR, ("Error analyzing file " ++ file_path
                              ++ ": [Errno 13] Permission denied: '"
                              ++ file_path ++ "'")%string)])%list
       end.
Proof.
  unfold analyze_file, _get_file_info, _analyze_content, _detect_file_type,
    try_except, bind, stat, open, lift, ret, log, readable, permission_denied.
  destruct (w_node w file_path) as [|size mtime names|f|] eqn:Hnode;
    cbv beta iota; rewrite ?Hnode; cbv beta iota;
    [| | |eexists; eexists; split; [reflexivity|]; repeat split].
  - eexists. eexists. split; [reflexivity|]. repeat split.
  - cbn [w_magic]. destruct (w_magic w file_path);
      (eexists; eexists; split; [reflexivity|]; repeat split).
  - destruct (f_openable f); cbn [andb].
    + rewrite first_read.
      destruct (first_read_fails f); cbn [negb w_magic];
        destruct (w_magic w file_path);
        (eexists; eexists; split; [reflexivity|]; repeat split);
        eexists; reflexivity.
    + cbn [w_magic]. destruct (w_magic w file_path);
        (eexists; eexists; split; [reflexivity|]; repeat split);
        eexists; reflexivity.
Qed.

End Inspector.

(* ===================================================================== *)
(** ** The generic branch and its fallback *)
(* ===================================================================== *)

Section GenericBranch.

Variable utf8_ignore : list byte -> string.

Lemma read_text_cases (file_path : string) (w : world) :
  read_text utf8_ignore file_path w
  = (match w_node w file_path with
     | Missing =>
         Raise (FileNotFoundError
                  ("[Errno 2] No such file or directory: '" ++ file_path ++ "'"))
     | Directory _ _ _ =>
         Raise (IsADirectoryError
                  ("[Errno 21] Is a directory: '" ++ file_path ++ "'"))
     | Regular f =>
         if f_openable f
         then if first_read_fails f
              then Raise (OSError "[Errno 5] Input/output error")
              else Ok (universal_newlines (utf8_ignore (f_data f)))
         else Raise (PermissionError
                       ("[Errno 13] Permission denied: '" ++ file_path ++ "'"))
     | Inaccessible => Raise (permission_denied file_path)
     end, w).
Proof.
  unfold read_text, bind, open, lift, ret, f_read_all.
  destruct (w_node w file_path) as [| |f|]; try reflexivity.
  destruct (f_openable f); [|reflexivity].
  rewrite first_read. cbn [h_rest].
  destruct (first_read_fails f); [reflexivity|].
  rewrite firstn_all. reflexivity.
Qed.

(** X4. For a file name that can be encoded as UTF-8 (every name of the
    model) and does not end in [.csv], [generate_rules] returns a bundle
    and neither writes nor logs.  When the path names a
    regular file that opens and reads, the pattern rule and the metadata
    carry the indicators extracted from the whole decoded content, and
    nothing is printed.  In every other case (no such file, a directory, a
    path that may not be looked at, a refused open, a failed read) the
    bundle is the fallback one: the basic
    pattern rule, an empty indicator list, and one line printed on the
    standard output. *)
Theorem generic_branch_outcome (self : RuleGenerator) (filename : string)
        (a : analysis) (file_path : string) (w : world) :
  Py.endswith filename ".csv" = false ->
  exists h r m w',
    _calculate_file_hash file_path w = (Ok h, w)
    /\ generate_rules utf8_ignore self filename a file_path w = (Ok r, w')
    /\ meta r = Some m
    /\ sigma r = Some (_generate_sigma_rule self filename a h)
    /\ w_written w' = w_written w
    /\ w_log w' = w_log w
    /\ match w_node w file_path with
       | Regular f =>
           if readable f
           then let content := universal_newlines (utf8_ignore (f_data f)) in
                yara r = Some (_generate_yara_rule self filename a h
                                 (_extract_indicators_from_content content))
                /\ indicators_found m = _extract_indicators_from_content content
                /\ w_stdout w' = w_stdout w
           else yara r = Some (_generate_basic_yara_rule self filename h)
                /\ indicators_found m = []
                /\ exists msg,
                    w_stdout w'
                    = (w_stdout w
                       ++ [("Error processing text file " ++ filename ++ ": "
                            ++ msg)%string])%list
       | _ =>
           yara r = Some (_generate_basic_yara_rule self filename h)
           /\ indicators_found m = []
           /\ exists msg,
               w_stdout w'
               = (w_stdout w
                  ++ [("Error processing text file " ++ filename ++ ": "
                       ++ msg)%string])%list
       end.
Proof.
  intros Hcsv. exists (hash_value w file_path).
  unfold generate_rules, bind. rewrite calculate_file_hash_value, Hcsv.
  unfold _generate_rules_from_text, try_except, bind.
  rewrite read_text_cases. unfold readable.
  destruct (w_node w file_path) as [| |f|].
  - eexists. eexists. eexists. repeat split. eexists. reflexivity.
  - eexists. eexists. eexists. repeat split. eexists. reflexivity.
  - destruct (f_openable f); cbn [andb];
      [destruct (first_read_fails f); cbn [negb]|];
      eexists; eexists; eexists; repeat split; eexists; reflexivity.
  - eexists. eexists. eexists. repeat split. eexists. reflexivity.
Qed.

End GenericBranch.

Lemma generic_branch_outcome_witness :
  Py.endswith "locked" ".csv" = false
  /\ exists r w',
      generate_rules decode_ascii (rule_generator demo_generator) "locked"
        empty_analysis "in/locked" demo_world = (Ok r, w')
      /\ yara r = Some (_generate_basic_yara_rule (rule_generator demo_generator)
                          "locked" "hash_calculation_failed")
      /\ w_stdout w'
         = ["Error processing text file locked: [Errno 13] Permission denied: 'in/locked'"].
Proof.
  split; [reflexivity|].
  destruct (generic_branch_outcome decode_ascii (rule_generator demo_generator)
              "locked" empty_analysis "in/locked" demo_world eq_refl)
    as (h & r & m & w' & Hh & Hgen & _ & _ & _ & _ & Hcase).
  exists r, w'. split; [exact Hgen|].
  assert (Hw : (Ok r, w')
               = generate_rules decode_ascii (rule_generator demo_generator)
                   "locked" empty_analysis "in/locked" demo_world)
    by (symmetry; exact Hgen).
  vm_compute in Hw. injection Hw as -> ->. split; reflexivity.
Defined.

(* ===================================================================== *)
(** ** One file, three outputs *)
(* ===================================================================== *)

Lemma save_rules_all (self : ASRGenerator) (y s : string) (m : metadata)
      (base_name : string) (w : world) :
  truthy (Some y) = true -> truthy (Some s) = true ->
  w_write_denied w (yara_path self base_name) = false ->
  w_write_denied w (sigma_path self base_name) = false ->
  w_write_denied w (meta_path self base_name) = false ->
  exists w',
    _save_rules self {| yara := Some y; sigma := Some s; meta := Some m |}
      base_name w = (Ok tt, w')
    /\ w_written w'
       = (w_written w
          ++ [ (yara_path self base_name, y);
               (sigma_path self base_name, s);
               (meta_path self base_name, Json.dumps (Json.of_metadata m)) ])%list.
Proof.
  intros Hty Hts Hy Hs Hm. unfold _save_rules, bind. cbn [yara sigma meta].
  rewrite Hty, Hts. unfold ret, log.
  repeat (rewrite write_file_allowed by assumption; cbn [w_write_denied]).
  eexists. split; [reflexivity|]. cbn [w_written get Json.of_meta].
  rewrite <- !app_assoc. reflexivity.
Qed.

Section Triple.

Variable utf8_ignore : list byte -> string.

Lemma generate_rules_keeps_written (self : RuleGenerator) (filename : string)
      (a : analysis) (file_path : string) (w : world) :
  w_written (snd (generate_rules utf8_ignore self filename a file_path w))
  = w_written w.
Proof.
  unfold generate_rules, bind. rewrite calculate_file_hash_value.
  destruct (Py.endswith filename ".csv"); [reflexivity|].
  unfold _generate_rules_from_text, try_except, bind.
  rewrite read_text_cases.
  destruct (w_node w file_path) as [| |f|]; try reflexivity.
  destruct (f_openable f); [destruct (first_read_fails f)|]; reflexivity.
Qed.

Lemma analyze_file_regular (file_path : string) (w : world) (f : file) :
  w_node w file_path = Regular f ->
  exists a w',
    analyze_file utf8_ignore file_path w = (Ok a, w')
    /\ w_written w' = w_written w
    /\ a_file_size a = Some (Z.of_nat (List.length (f_data f)))
    /\ a_file_type a = Some (get (w_magic w file_path) "unknown").
Proof.
  intros Hnode.
  unfold analyze_file, _get_file_info, _analyze_content, _detect_file_type,
    try_except, bind, stat, open, lift, ret, log.
  rewrite Hnode. cbv beta iota. rewrite ?Hnode. cbv beta iota.
  destruct (f_openable f).
  - rewrite first_read.
    destruct (first_read_fails f); cbn [w_magic];
      destruct (w_magic w file_path);
      (eexists; eexists; split; [reflexivity|]; repeat split).
  - cbn [w_magic]. destruct (w_magic w file_path);
      (eexists; eexists; split; [reflexivity|]; repeat split).
Qed.

(** X5. For a regular file whose name can be encoded as UTF-8 (every name
    of the model) and whose three output paths can be written,
    [_process_single_file] returns normally and appends exactly three
    files, in this order: [<stem>_rules.yar], [<stem>_sigma.yml] and
    [<stem>_metadata.json].  The metadata names the file, its size in
    bytes, the type libmagic gave (or ["unknown"]) and the hash, which is
    the MD5 of the content or the failure string, and the pattern rule
    carries the same hash. *)
Theorem process_single_file_triple (self : ASRGenerator) (file_path : string)
        (w : world) (f : file) :
  w_node w file_path = Regular f ->
  w_write_denied w (yara_path self (path_stem file_path)) = false ->
  w_write_denied w (sigma_path self (path_stem file_path)) = false ->
  w_write_denied w (meta_path self (path_stem file_path)) = false ->
  exists y m w',
    _process_single_file utf8_ignore self file_path w = (Ok tt, w')
    /\ w_written w'
       = (w_written w
          ++ [ (yara_path self (path_stem file_path), y);
               (sigma_path self (path_stem file_path),
                _generate_sigma_rule (rule_generator self) (path_name file_path)
                  empty_analysis "");
               (meta_path self (path_stem file_path),
                Json.dumps (Json.of_metadata m)) ])%list
    /\ source_file m = path_name file_path
    /\ file_size m = Z.of_nat (List.length (f_data f))
    /\ file_type m = get (w_magic w file_path) "unknown"
    /\ file_hash m
       = (if f_openable f && negb (fault_hits f)
          then MD5.md5_hex (f_data f) else "hash_calculation_failed")
    /\ status m = "generated"
    /\ Py.embeds y ("        $hash = " ++ Py.dq ++ file_hash m ++ Py.dq).
Proof.
  intros Hnode Hy Hs Hm.
  unfold _process_single_file. unfold bind at 1. cbn [log].
  set (w0 := {| w_node := w_node w; w_magic := w_magic w;
                w_write_denied := w_write_denied w; w_now := w_now w;
                w_written := w_written w;
                w_log := (w_log w
                          ++ [(INFO, ("Processing file: "
                                      ++ path_name file_path)%string)])%list;
                w_stdout := w_stdout w |}).
  unfold bind at 1.
  destruct (analyze_file_regular file_path w0 f Hnode)
    as (a & w1 & Han & Hwr1 & Hsize & Htype).
  pose proof (grows_analyze_file utf8_ignore file_path w0) as Hext1.
  rewrite Han in Hext1 |- *. cbn [snd] in Hext1.
  change (w_magic w0) with (w_magic w) in Htype.
  unfold bind at 1.
  destruct (generate_rules_cases utf8_ignore (rule_generator self)
              (path_name file_path) a file_path w1)
    as (r & w2 & Hgen & Hshape).
  pose proof (grows_generate_rules utf8_ignore (rule_generator self)
                (path_name file_path) a file_path w1) as Hext2.
  pose proof (generate_rules_keeps_written (rule_generator self)
                (path_name file_path) a file_path w1) as Hwr2.
  rewrite Hgen in Hext2, Hwr2 |- *. cbn [snd] in Hext2, Hwr2.
  assert (Hhash : hash_value w1 file_path
                  = (if f_openable f && negb (fault_hits f)
                     then MD5.md5_hex (f_data f)
                     else "hash_calculation_failed")).
  { unfold hash_value. rewrite calculate_file_hash_cases. cbn [fst].
    rewrite (ext_node _ _ Hext1). change (w_node w0) with (w_node w).
    rewrite Hnode. reflexivity. }
  assert (Hden : w_write_denied w2 = w_write_denied w).
  { rewrite (ext_denied _ _ Hext2), (ext_denied _ _ Hext1). reflexivity. }
  assert (Hwr : w_written w2 = w_written w).
  { rewrite Hwr2, Hwr1. reflexivity. }
  cbv zeta in Hshape.
  assert (Hbundle :
            exists y m,
              r = {| yara := Some y;
                     sigma := Some (_generate_sigma_rule (rule_generator self)
                                      (path_name file_path) empty_analysis "");
                     meta := Some m |}
              /\ truthy (Some y) = true
              /\ source_file m = path_name file_path
              /\ file_size m = get (a_file_size a) 0%Z
              /\ file_type m = get (a_file_type a) "unknown"
              /\ file_hash m = hash_value w1 file_path
              /\ status m = "generated"
              /\ Py.embeds y ("        $hash = " ++ Py.dq
                              ++ hash_value w1 file_path ++ Py.dq)).
  { destruct Hshape as [(_ & -> & _)|[(_ & content & _ & -> & _)|(_ & ->)]];
      eexists; eexists; (split; [reflexivity|]);
      (split; [reflexivity|]); (split; [reflexivity|]);
      (split; [reflexivity|]); (split; [reflexivity|]);
      (split; [reflexivity|]); (split; [reflexivity|]);
      first [ apply yara_embeds_hash | apply csv_yara_embeds_hash
            | apply basic_yara_embeds_hash ]. }
  destruct Hbundle as (y & m & -> & Hty & Hsrc & Hsz & Hft & Hfh & Hst & Hemb).
  destruct (save_rules_all self y
              (_generate_sigma_rule (rule_generator self) (path_name file_path)
                 empty_analysis "")
              m (path_stem file_path) w2 Hty eq_refl)
    as (w3 & Hsave & Hwr3); try (rewrite Hden; assumption).
  exists y, m, w3. split; [exact Hsave|]. split; [rewrite Hwr3, Hwr; reflexivity|].
  rewrite Hsz, Hsize, Hft, Htype, Hfh, Hhash in *.
  repeat split; assumption.
Qed.

End Triple.

Lemma process_single_file_triple_witness :
  exists f,
    w_node demo_world "in/sample.txt" = Regular f
    /\ w_write_denied demo_world
         (yara_path demo_generator (path_stem "in/sample.txt")) = false
    /\ w_write_denied demo_world
         (sigma_path demo_generator (path_stem "in/sample.txt")) = false
    /\ w_write_denied demo_world
         (meta_path demo_generator (path_stem "in/sample.txt")) = false
    /\ exists w',
        _process_single_file decode_ascii demo_generator "in/sample.txt"
          demo_world = (Ok tt, w')
        /\ map fst (w_written w')
           = [ "out/sample_rules.yar"; "out/sample_sigma.yml";
               "out/sample_metadata.json" ].
Proof.
  eexists. split; [reflexivity|]. split; [reflexivity|].
  split; [reflexivity|]. split; [reflexivity|].
  destruct (process_single_file_triple decode_ascii demo_generator
              "in/sample.txt" demo_world _ eq_refl eq_refl eq_refl eq_refl)
    as (y & m & w' & Hrun & Hw & _).
  exists w'. split; [exact Hrun|]. rewrite Hw. reflexivity.
Defined.

(* ===================================================================== *)
(** ** What a run writes *)
(* ===================================================================== *)

Lemma prefix_append (a b : string) : String.prefix a (a ++ b) = true.
Proof.
  induction a as [|c a IH]; cbn.
  - destruct b; reflexivity.
  - destruct (ascii_dec c c); [exact IH|congruence].
Qed.

Lemma planned_writes_shape (self : ASRGenerator) (r : rules)
      (base_name : string) :
  (List.length (planned_writes self r base_name) <= 3)%nat
  /\ Forall (in_output_dir self) (planned_writes self r base_name).
Proof.
  unfold planned_writes, in_output_dir, yara_path, sigma_path, meta_path,
    path_join.
  destruct (truthy (yara r)); destruct (truthy (sigma r)); cbn [app List.length];
    (split; [lia|]);
    repeat (apply Forall_cons;
            [cbn [fst]; rewrite <- append_assoc; apply prefix_append|]);
    apply Forall_nil.
Qed.

Lemma allowed_prefix_shape (denied : string -> bool)
      (l : list (string * string)) (P : string * string -> Prop) :
  Forall P l ->
  (List.length (allowed_prefix denied l) <= List.length l)%nat
  /\ Forall P (allowed_prefix denied l).
Proof.
  induction 1 as [|pc l Hpc _ [IHlen IHall]]; cbn [allowed_prefix].
  - split; [lia|constructor].
  - destruct (denied (fst pc)); cbn [List.length].
    + split; [lia|constructor].
    + split; [lia|constructor; assumption].
Qed.

Lemma write_file_denied (path text : string) (w : world) :
  w_write_denied w path = true ->
  write_file path text w
  = (Raise (PermissionError ("[Errno 13] Permission denied: '" ++ path ++ "'")),
     w).
Proof. intros H. unfold write_file. rewrite H. reflexivity. Qed.

(** Decide every write of [_save_rules] one after the other. *)
Ltac settle_writes :=
  repeat match goal with
    | |- context [write_file ?p ?t ?w] =>
        let H := fresh "Hden" in
        destruct (w_write_denied w p) eqn:H;
        [ rewrite (write_file_denied p t w H)
        | rewrite (write_file_allowed p t w H) ];
        cbn [w_write_denied fst] in *; rewrite ?H
    end.

Lemma save_rules_written (self : ASRGenerator) (r : rules)
      (base_name : string) (w : world) :
  w_written (snd (_save_rules self r base_name w))
  = (w_written w
     ++ allowed_prefix (w_write_denied w) (planned_writes self r base_name))%list.
Proof.
  unfold _save_rules, planned_writes, bind, ret, log.
  destruct (truthy (yara r)); destruct (truthy (sigma r));
    cbn [app allowed_prefix fst];
    settle_writes; cbn [snd w_written allowed_prefix];
    rewrite <- ?app_assoc, ?app_nil_r; reflexivity.
Qed.

Lemma all_allowed_iff (denied : string -> bool) (l : list (string * string)) :
  (forall pc, In pc l -> denied (fst pc) = false)
  <-> forallb (fun pc => negb (denied (fst pc))) l = true.
Proof.
  rewrite forallb_forall. split; intros H pc Hin.
  - rewrite (H pc Hin). reflexivity.
  - apply negb_true_iff. apply H. assumption.
Qed.

(** X6. [_save_rules] is not atomic: it attempts the pattern-rule file (if
    present), the log-detection-rule file (if present) and the metadata
    file in this order and stops at the first path that cannot be written.
    The files written before the refusal stay, the later ones are not
    attempted, and the call raises the permission error of the refused
    path; it returns normally exactly when no attempted path is refused. *)
Theorem save_rules_stops_at_first_refusal (self : ASRGenerator) (r : rules)
        (base_name : string) (w : world) :
  let planned := planned_writes self r base_name in
  let outcome := _save_rules self r base_name w in
  w_written (snd outcome)
  = (w_written w ++ allowed_prefix (w_write_denied w) planned)%list
  /\ (fst outcome = Ok tt
      <-> forall pc, In pc planned -> w_write_denied w (fst pc) = false)
  /\ (forall e, fst outcome = Raise e ->
        exists path,
          In path (map fst planned)
          /\ w_write_denied w path = true
          /\ e = PermissionError
                   ("[Errno 13] Permission denied: '" ++ path ++ "'")).
Proof.
  cbv zeta. split; [apply save_rules_written|].
  rewrite all_allowed_iff.
  unfold _save_rules, planned_writes, bind, ret, log.
  destruct (truthy (yara r)); destruct (truthy (sigma r));
    cbn [app fst map In forallb];
    settle_writes; cbn [fst negb andb];
    (split;
     [ split; intros H; first [reflexivity | discriminate H]
     | intros e He;
       first [ discriminate He
             | injection He as <-;
               match goal with
               | Hd : w_write_denied w ?p = true |- _ => exists p
               end;
               split; [tauto|split; [assumption|reflexivity]] ] ]).
Qed.

Section RunWrites.

Variable utf8_ignore : list byte -> string.
Variable self : ASRGenerator.

Lemma analyze_file_returns (file_path : string) (w : world) :
  exists a w',
    analyze_file utf8_ignore file_path w = (Ok a, w')
    /\ w_written w' = w_written w.
Proof.
  unfold analyze_file, _get_file_info, _analyze_content, _detect_file_type,
    try_except, bind, stat, open, lift, ret, log.
  destruct (w_node w file_path) as [|size mtime names|f|] eqn:Hnode;
    cbv beta iota; rewrite ?Hnode; cbv beta iota.
  - eexists. eexists. split; reflexivity.
  - cbn [w_magic]. destruct (w_magic w file_path);
      (eexists; eexists; split; reflexivity).
  - destruct (f_openable f).
    + rewrite first_read.
      destruct (first_read_fails f); cbn [w_magic];
        destruct (w_magic w file_path);
        (eexists; eexists; split; reflexivity).
    + cbn [w_magic]. destruct (w_magic w file_path);
        (eexists; eexists; split; reflexivity).
  - eexists. eexists. split; reflexivity.
Qed.

(** One file from the log line to the writes: the inspector returns, the
    generator returns a bundle with its three artifacts, and the writes are
    the planned ones up to the first refused path. *)
Lemma single_file_trace (file_path : string) (w : world) :
  exists a w1 r w2 y s m,
    analyze_file utf8_ignore file_path
      (snd (log INFO ("Processing file: " ++ path_name file_path) w))
    = (Ok a, w1)
    /\ generate_rules utf8_ignore (rule_generator self) (path_name file_path)
         a file_path w1 = (Ok r, w2)
    /\ r = {| yara := Some y; sigma := Some s; meta := Some m |}
    /\ truthy (Some y) = true
    /\ truthy (Some s) = true
    /\ w_written (snd (_process_single_file utf8_ignore self file_path w))
       = (w_written w
          ++ allowed_prefix (w_write_denied w)
               (planned_writes self r (path_stem file_path)))%list.
Proof.
  unfold _process_single_file. unfold bind at 1. cbn [log snd].
  unfold bind at 1.
  match goal with
  | |- context [analyze_file _ _ ?w0] =>
      destruct (analyze_file_returns file_path w0) as (a & w1 & Han & Hwr1);
        pose proof (grows_analyze_file utf8_ignore file_path w0) as Hext1
  end.
  rewrite Han in Hext1 |- *. cbn [snd] in Hext1.
  destruct (generate_rules_cases utf8_ignore (rule_generator self)
              (path_name file_path) a file_path w1)
    as (r & w2 & Hgen & Hshape).
  pose proof (generate_rules_keeps_written utf8_ignore (rule_generator self)
                (path_name file_path) a file_path w1) as Hwr2.
  pose proof (grows_generate_rules utf8_ignore (rule_generator self)
                (path_name file_path) a file_path w1) as Hext2.
  unfold bind at 1. rewrite Hgen in Hwr2, Hext2 |- *. cbn [snd] in Hwr2, Hext2.
  exists a, w1, r, w2.
  assert (Hbundle : exists y s m,
             r = {| yara := Some y; sigma := Some s; meta := Some m |}
             /\ truthy (Some y) = true /\ truthy (Some s) = true).
  { cbv zeta in Hshape.
    destruct Hshape as [(_ & -> & _)|[(_ & content & _ & -> & _)|(_ & ->)]];
      eexists; eexists; eexists; repeat split. }
  destruct Hbundle as (y & s & m & Hr & Hy & Hs). exists y, s, m.
  split; [reflexivity|]. split; [exact Hgen|]. split; [exact Hr|].
  split; [exact Hy|]. split; [exact Hs|].
  rewrite save_rules_written, Hwr2, Hwr1. cbn [w_written].
  rewrite (ext_denied _ _ Hext2), (ext_denied _ _ Hext1). reflexivity.
Qed.

Lemma single_file_writes (file_path : string) (w : world) :
  exists l,
    w_written (snd (_process_single_file utf8_ignore self file_path w))
    = (w_written w ++ l)%list
    /\ (List.length l <= 3)%nat
    /\ Forall (in_output_dir self) l.
Proof.
  destruct (single_file_trace file_path w)
    as (a & w1 & r & w2 & y & s & m & _ & _ & _ & _ & _ & Hw).
  eexists. split; [exact Hw|].
  destruct (planned_writes_shape self r (path_stem file_path)) as [Hlen Hall].
  destruct (allowed_prefix_shape (w_write_denied w) _ _ Hall) as [Hlen' Hall'].
  split; [lia|assumption].
Qed.






Lemma process_entry_writes (file_path : string) (w : world) :
  exists l,
    w_written (snd (process_entry utf8_ignore self file_path w))
    = (w_written w ++ l)%list
    /\ (List.length l
        <= match w_node w file_path with Regular _ => 3 | _ => 0 end)%nat
    /\ Forall (in_output_dir self) l.
Proof.
  unfold process_entry, bind, is_file.
  destruct (w_node w file_path) as [| |f|].
  - exists []. cbn. rewrite app_nil_r. repeat split; [lia|constructor].
  - exists []. cbn. rewrite app_nil_r. repeat split; [lia|constructor].
  - unfold try_except.
    destruct (single_file_writes file_path w) as (l & Hw & Hlen & Hall).
    destruct (_process_single_file utf8_ignore self file_path w)
      as [[[]|e] w1]; cbn [snd log w_written] in *;
      exists l; repeat split; assumption.
  - exists []. cbn. rewrite app_nil_r. repeat split; [lia|constructor].
Qed.

Lemma process_loop_writes (dir : string) (names : list string) :
  forall w,
  exists l,
    w_written (snd (process_loop utf8_ignore self
                      (map (path_join dir) names) w))
    = (w_written w ++ l)%list
    /\ (List.length l <= 3 * List.length (regular_children w dir names))%nat
    /\ Forall (in_output_dir self) l.
Proof.
  induction names as [|name names IH]; intros w.
  - exists []. cbn. rewrite app_nil_r. repeat split; [lia|constructor].
  - cbn [map process_loop]. unfold bind.
    pose proof (grows_process_entry utf8_ignore self (path_join dir name) w)
      as Hext.
    destruct (process_entry_writes (path_join dir name) w)
      as (l1 & Hw1 & Hlen1 & Hall1).
    destruct (process_entry utf8_ignore self (path_join dir name) w)
      as [[[]|e] w1]; cbn [snd] in Hw1, Hext |- *.
    + destruct (IH w1) as (l2 & Hw2 & Hlen2 & Hall2).
      exists (l1 ++ l2)%list. split; [|split].
      * rewrite Hw2, Hw1, app_assoc. reflexivity.
      * assert (Hsame : regular_children w1 dir names
                        = regular_children w dir names).
        { unfold regular_children. rewrite (ext_node _ _ Hext). reflexivity. }
        rewrite Hsame in Hlen2. rewrite length_app.
        unfold regular_children in *. cbn [filter].
        destruct (w_node w (path_join dir name)); cbn [List.length]; lia.
      * apply Forall_app. split; assumption.
    + exists l1. split; [exact Hw1|]. split; [|exact Hall1].
      unfold regular_children. cbn [filter].
      destruct (w_node w (path_join dir name)); cbn [List.length]; lia.
Qed.

(** X7. Whatever the input directory holds and whatever fails,
    [process_files] only appends to the written files: at most three per
    regular file of the listing, each under the output directory.  In
    particular nothing is written for a listing without regular files
    (subdirectories are not descended into) or for a missing directory. *)
Theorem run_writes_bounded (w : world) :
  exists l,
    w_written (snd (process_files utf8_ignore self w))
    = (w_written w ++ l)%list
    /\ (List.length l
        <= 3 * List.length
                 (regular_children w (input_dir self)
                    (listing w (input_dir self))))%nat
    /\ Forall (in_output_dir self) l.
Proof.
  unfold process_files, bind, path_exists, glob_all, listing.
  destruct (w_node w (input_dir self)) as [|size mtime names|f|] eqn:Hdir;
    cbn [negb].
  - exists []. cbn. rewrite app_nil_r. repeat split; [lia|constructor].
  - unfold log at 1. cbv beta iota. cbn [w_node]. rewrite Hdir.
    match goal with
    | |- context [process_loop _ _ _ ?w0] =>
        destruct (process_loop_writes (input_dir self) names w0)
          as (l & Hw & Hlen & Hall)
    end.
    exists l. split; [exact Hw|]. split; [exact Hlen|exact Hall].
  - unfold log at 1. cbv beta iota. cbn [w_node]. rewrite Hdir.
    exists []. cbn. rewrite app_nil_r. repeat split; [lia|constructor].
  - exists []. cbn. rewrite app_nil_r. repeat split; [lia|constructor].
Qed.

End RunWrites.


(* ===================================================================== *)
(** ** Paths and output names *)
(* ===================================================================== *)

Section Split.

Variable sep : ascii.

Lemma contains_char_cons (c : ascii) (s : string) :
  Py.contains (String sep "") (String c s)
  = Ascii.eqb c sep || Py.contains (String sep "") s.
Proof.
  cbn [Py.contains String.prefix].
  destruct (ascii_dec sep c) as [<-|Hne].
  - rewrite Ascii.eqb_refl. destruct s; reflexivity.
  - destruct (Ascii.eqb c sep) eqn:Hc; [|reflexivity].
    apply Ascii.eqb_eq in Hc. congruence.
Qed.

Lemma split_nonempty (s : string) : Py.split sep s <> [].
Proof.
  destruct s as [|c s]; cbn [Py.split]; [discriminate|].
  destruct (Ascii.eqb c sep); [discriminate|].
  destruct (Py.split sep s); discriminate.
Qed.

Lemma split_without_sep (s : string) :
  Py.contains (String sep "") s = false -> Py.split sep s = [s].
Proof.
  induction s as [|c s IH]; [reflexivity|].
  rewrite contains_char_cons. intros H.
  apply orb_false_iff in H. destruct H as [Hc Hs].
  cbn [Py.split]. rewrite Hc, (IH Hs). reflexivity.
Qed.

(** [(a + sep + b).split(sep) == a.split(sep) + b.split(sep)]. *)
Lemma split_append (a b : string) :
  Py.split sep (a ++ String sep b) = (Py.split sep a ++ Py.split sep b)%list.
Proof.
  induction a as [|c a IH]; cbn [append Py.split].
  - rewrite Ascii.eqb_refl. reflexivity.
  - rewrite IH. destruct (Ascii.eqb c sep); [reflexivity|].
    pose proof (split_nonempty a) as Hne.
    destruct (Py.split sep a) as [|x xs]; [congruence|reflexivity].
Qed.

Lemma join_cons_char (c : ascii) (x : string) (l : list string) :
  Py.join (String sep "") (String c x :: l)
  = String c (Py.join (String sep "") (x :: l)).
Proof. destruct l; reflexivity. Qed.

(** [sep.join(s.split(sep)) == s]. *)
Lemma join_split (s : string) :
  Py.join (String sep "") (Py.split sep s) = s.
Proof.
  induction s as [|c s IH]; [reflexivity|].
  cbn [Py.split]. pose proof (split_nonempty s) as Hne.
  destruct (Ascii.eqb c sep) eqn:Hc.
  - apply Ascii.eqb_eq in Hc. subst c.
    destruct (Py.split sep s) as [|x xs]; [congruence|].
    rewrite join_cons. cbn [append]. rewrite IH. reflexivity.
  - destruct (Py.split sep s) as [|x xs]; [congruence|].
    rewrite join_cons_char, IH. reflexivity.
Qed.

End Split.

Lemma last_item_app (l1 l2 : list string) :
  l2 <> [] -> Py.last_item (l1 ++ l2) = Py.last_item l2.
Proof.
  intros Hne. unfold Py.last_item. induction l1 as [|x l1 IH]; [reflexivity|].
  cbn [app]. destruct (l1 ++ l2)%list eqn:Happ.
  - apply app_eq_nil in Happ. destruct Happ. congruence.
  - exact IH.
Qed.


Lemma path_name_join (dir name : string) :
  Py.contains "/" name = false -> path_name (path_join dir name) = name.
Proof.
  intros Hname. unfold path_name, path_join.
  change ("/" ++ name) with (String "/" name).
  rewrite split_append.
  rewrite last_item_app by apply split_nonempty.
  rewrite (split_without_sep "/" name Hname). reflexivity.
Qed.





(** X9. A name [base.ext] with a non-empty base and a non-empty extension
    without dots has the stem [base].  Since the three output paths are
    built from the stem alone, two input files that differ only in their
    extension, such as [a.txt] and [a.csv], are written to the same three
    output paths. *)
Theorem same_stem_same_outputs (self : ASRGenerator)
        (dir base ext1 ext2 : string) :
  base <> "" -> ext1 <> "" -> ext2 <> "" ->
  Py.contains "/" base = false ->
  Py.contains "/" ext1 = false -> Py.contains "." ext1 = false ->
  Py.contains "/" ext2 = false -> Py.contains "." ext2 = false ->
  let p1 := path_join dir (base ++ "." ++ ext1) in
  let p2 := path_join dir (base ++ "." ++ ext2) in
  path_stem p1 = base /\ path_stem p2 = base
  /\ path_suffix p1 = "." ++ ext1
  /\ (ext1 <> ext2 -> path_name p1 <> path_name p2)
  /\ yara_path self (path_stem p1) = yara_path self (path_stem p2)
  /\ sigma_path self (path_stem p1) = sigma_path self (path_stem p2)
  /\ meta_path self (path_stem p1) = meta_path self (path_stem p2).
Proof.
  intros Hbase He1 He2 Hsb Hs1 Hd1 Hs2 Hd2. cbv zeta.
  assert (Hname : forall ext,
             Py.contains "/" ext = false ->
             path_name (path_join dir (base ++ "." ++ ext)) = base ++ "." ++ ext).
  { intros ext Hs. apply path_name_join.
    clear - Hsb Hs. induction base as [|c b IH].
    - change ("" ++ "." ++ ext) with (String "." ext).
      rewrite contains_char_cons, Hs. reflexivity.
    - change (String c b ++ "." ++ ext) with (String c (b ++ "." ++ ext)).
      rewrite contains_char_cons in Hsb |- *.
      apply orb_false_iff in Hsb. destruct Hsb as [Hc Hb].
      rewrite Hc, (IH Hb). reflexivity. }
  assert (Hstem : forall ext,
             ext <> "" -> Py.contains "/" ext = false ->
             Py.contains "." ext = false ->
             path_stem (path_join dir (base ++ "." ++ ext)) = base
             /\ path_suffix (path_join dir (base ++ "." ++ ext)) = "." ++ ext).
  { intros ext He Hs Hd. unfold path_stem, path_suffix, splits_at_dot.
    rewrite (Hname ext Hs).
    change (base ++ "." ++ ext) with (base ++ String "." ext).
    rewrite split_append, (split_without_sep "." ext Hd).
    rewrite removelast_last, join_split.
    rewrite last_item_app by discriminate.
    change (Py.last_item [ext]) with ext.
    rewrite (proj2 (String.eqb_neq base "") Hbase).
    rewrite (proj2 (String.eqb_neq ext "") He). cbn [negb andb].
    rewrite length_app. cbn [List.length]. rewrite Nat.add_1_r.
    pose proof (split_nonempty "." base) as Hne.
    destruct (Py.split "." base) as [|x xs]; [congruence|].
    cbn [List.length Nat.leb]. split; reflexivity. }
  destruct (Hstem ext1 He1 Hs1 Hd1) as [Hst1 Hsu1].
  destruct (Hstem ext2 He2 Hs2 Hd2) as [Hst2 _].
  rewrite Hst1, Hst2, Hsu1, (Hname ext1 Hs1), (Hname ext2 Hs2).
  repeat split.
  intros Hne Heq. apply Hne.
  clear - Heq. induction base as [|c b IH].
  - cbn in Heq. injection Heq as ->. reflexivity.
  - cbn in Heq. injection Heq as Heq. apply IH. exact Heq.
Qed.

Lemma same_stem_same_outputs_witness :
  path_stem "in/a.txt" = "a" /\ path_stem "in/a.csv" = "a"
  /\ meta_path demo_generator (path_stem "in/a.txt")
     = meta_path demo_generator (path_stem "in/a.csv").
Proof.
  assert (Hne : forall s c t, s = String c t -> s <> "")
    by (intros s c t -> ; discriminate).
  destruct (same_stem_same_outputs demo_generator "in" "a" "txt" "csv"
              (Hne _ _ _ eq_refl) (Hne _ _ _ eq_refl) (Hne _ _ _ eq_refl)
              eq_refl eq_refl eq_refl eq_refl eq_refl)
    as (H1 & H2 & _ & _ & _ & _ & H7).
  repeat split; assumption.
Defined.

(* ===================================================================== *)
(** ** The converter script: rule texts *)
(* ===================================================================== *)

(** Both sides are the same text once the literals are pushed through the
    concatenations. *)
Ltac same_text :=
  repeat progress (cbn [append]; rewrite ?append_assoc); reflexivity.

Lemma rstrip_append (a b : string) :
  Py.rstrip b <> "" -> Py.rstrip (a ++ b) = a ++ Py.rstrip b.
Proof.
  intros Hb. induction a as [|c a IH]; [reflexivity|].
  cbn [append Py.rstrip]. rewrite IH.
  destruct (a ++ Py.rstrip b) eqn:Heq; [|reflexivity].
  destruct a; [|discriminate]. cbn in Heq. congruence.
Qed.

(** [strip] on a text made of a newline, a block that starts and ends with
    characters that are not spaces, and a newline: the block is left. *)
Lemma strip_block (c d : ascii) (body : string) :
  Py.isspace c = false -> Py.isspace d = false ->
  Py.strip (Py.nl ++ String c (body ++ String d Py.nl))
  = String c (body ++ String d "").
Proof.
  intros Hc Hd. unfold Py.strip.
  change (Py.nl ++ String c (body ++ String d Py.nl))
    with (String (Py.chr 10) (String c (body ++ String d Py.nl))).
  cbn [Py.lstrip]. change (Py.isspace (Py.chr 10)) with true. cbn iota.
  rewrite Hc.
  change (String c (body ++ String d Py.nl))
    with (String c body ++ String d Py.nl).
  assert (Hr : Py.rstrip (String d Py.nl) = String d "").
  { unfold Py.nl. cbn [Py.rstrip]. change (Py.isspace (Py.chr 10)) with true.
    cbn iota. rewrite Hd. reflexivity. }
  rewrite rstrip_append by (rewrite Hr; discriminate).
  rewrite Hr. reflexivity.
Qed.

Lemma take_length (n : nat) (s : string) :
  (String.length (Py.take n s) <= n)%nat.
Proof.
  unfold Py.take. revert s. induction n as [|n IH]; intros [|c s]; cbn;
    try lia. specialize (IH s). lia.
Qed.

Lemma replace_quote_escaped (s : string) (b : bool) :
  quotes_escaped b (Py.replace (Py.chr 34) (Py.bslash ++ Py.dq) s) = true.
Proof.
  revert b. induction s as [|c s IH]; intros b; [reflexivity|].
  cbn [Py.replace]. destruct (Ascii.eqb c (Py.chr 34)) eqn:Hc.
  - change (Py.bslash ++ Py.dq ++ ?x) with (String (Py.chr 92) (String (Py.chr 34) x)).
    change ((Py.bslash ++ Py.dq)
            ++ Py.replace (Py.chr 34) (Py.bslash ++ Py.dq) s)
      with (String (Py.chr 92)
              (String (Py.chr 34)
                 (Py.replace (Py.chr 34) (Py.bslash ++ Py.dq) s))).
    cbn [quotes_escaped].
    change (Ascii.eqb (Py.chr 92) (Py.chr 34)) with false.
    change (Ascii.eqb (Py.chr 92) (Py.chr 92)) with true.
    change (Ascii.eqb (Py.chr 34) (Py.chr 34)) with true.
    change (Ascii.eqb (Py.chr 34) (Py.chr 92)) with false.
    cbn [negb orb andb]. apply IH.
  - cbn [quotes_escaped]. rewrite Hc, IH. reflexivity.
Qed.

Lemma replace_absent (old : ascii) (new s : string) :
  Py.contains (String old "") s = false -> Py.replace old new s = s.
Proof.
  induction s as [|c s IH]; [reflexivity|].
  rewrite contains_char_cons. intros H.
  apply orb_false_iff in H. destruct H as [Hc Hs].
  cbn [Py.replace]. rewrite Hc, (IH Hs). reflexivity.
Qed.

Lemma replace_length (old : ascii) (c1 c2 : ascii) (s : string) :
  (String.length (Py.replace old (String c1 (String c2 "")) s)
   <= 2 * String.length s)%nat.
Proof.
  induction s as [|c s IH]; [cbn; lia|].
  cbn [Py.replace]. destruct (Ascii.eqb c old); cbn [append String.length]; lia.
Qed.

(** X10. [convert_to_yara] returns the rule without the two newlines that
    surround it in the template, whatever the inputs.  The snippet it
    embeds comes from the first 20 characters of the content: it has at
    most 40 characters, each of its double quotes follows a backslash, and
    it is the 20-character prefix itself when that prefix has no double
    quote. *)
Theorem convert_to_yara_shape (filename content : string) :
  let snippet :=
    Py.replace (Py.chr 34) (Py.bslash ++ Py.dq) (Py.take 20 content) in
  Converter.convert_to_yara filename content
  = "rule " ++ Py.re_sub_W_plus filename ++ Py.nl
    ++ "{" ++ Py.nl
    ++ "    strings:" ++ Py.nl
    ++ "        $a = " ++ Py.dq ++ snippet ++ Py.dq ++ Py.nl
    ++ "    condition:" ++ Py.nl
    ++ "        $a" ++ Py.nl
    ++ "}"
  /\ quotes_escaped false snippet = true
  /\ (String.length snippet <= 40)%nat
  /\ (Py.contains Py.dq (Py.take 20 content) = false ->
      snippet = Py.take 20 content).
Proof.
  cbv zeta. split; [|split; [|split]].
  - unfold Converter.convert_to_yara. cbv zeta.
    match goal with
    | |- Py.strip ?t = _ =>
        replace t with
          (Py.nl ++ String "r"
             (("ule " ++ Py.re_sub_W_plus filename ++ Py.nl
               ++ "{" ++ Py.nl
               ++ "    strings:" ++ Py.nl
               ++ "        $a = " ++ Py.dq
               ++ Py.replace (Py.chr 34) (Py.bslash ++ Py.dq) (Py.take 20 content)
               ++ Py.dq ++ Py.nl
               ++ "    condition:" ++ Py.nl
               ++ "        $a" ++ Py.nl)
              ++ String "}" Py.nl))
          by same_pieces
    end.
    rewrite strip_block by reflexivity. same_text.
  - apply replace_quote_escaped.
  - unfold Py.bslash, Py.dq. cbn [append].
    etransitivity; [apply replace_length|].
    pose proof (take_length 20 content). lia.
  - apply replace_absent.
Qed.

(** X11. [convert_to_sigma] returns the rule without the two newlines that
    surround it in the template, whatever the inputs, and it embeds the
    first 20 characters of the content as they are, between double quotes
    and without any escaping. *)
Theorem convert_to_sigma_shape (filename content : string) :
  ConverterScript.convert_to_sigma filename content
  = "title: Detect " ++ Py.re_sub_W_plus filename ++ Py.nl
    ++ "id: " ++ Py.re_sub_W_plus filename ++ "-rule" ++ Py.nl
    ++ "status: experimental" ++ Py.nl
    ++ "description: Auto-generated Sigma rule" ++ Py.nl
    ++ "logsource:" ++ Py.nl
    ++ "  category: file_event" ++ Py.nl
    ++ "detection:" ++ Py.nl
    ++ "  keywords:" ++ Py.nl
    ++ "    - " ++ Py.dq ++ Py.take 20 content ++ Py.dq ++ Py.nl
    ++ "  condition: keywords" ++ Py.nl
    ++ "level: medium"
  /\ Py.embeds (ConverterScript.convert_to_sigma filename content)
       ("title: Detect " ++ Py.re_sub_W_plus filename)
  /\ Py.embeds (ConverterScript.convert_to_sigma filename content)
       (Py.dq ++ Py.take 20 content ++ Py.dq).
Proof.
  assert (Hshape :
    ConverterScript.convert_to_sigma filename content
    = "title: Detect " ++ Py.re_sub_W_plus filename ++ Py.nl
      ++ "id: " ++ Py.re_sub_W_plus filename ++ "-rule" ++ Py.nl
      ++ "status: experimental" ++ Py.nl
      ++ "description: Auto-generated Sigma rule" ++ Py.nl
      ++ "logsource:" ++ Py.nl
      ++ "  category: file_event" ++ Py.nl
      ++ "detection:" ++ Py.nl
      ++ "  keywords:" ++ Py.nl
      ++ "    - " ++ Py.dq ++ Py.take 20 content ++ Py.dq ++ Py.nl
      ++ "  condition: keywords" ++ Py.nl
      ++ "level: medium").
  { unfold ConverterScript.convert_to_sigma. cbv zeta.
    match goal with
    | |- Py.strip ?t = _ =>
        replace t with
          (Py.nl ++ String "t"
             (("itle: Detect " ++ Py.re_sub_W_plus filename ++ Py.nl
               ++ "id: " ++ Py.re_sub_W_plus filename ++ "-rule" ++ Py.nl
               ++ "status: experimental" ++ Py.nl
               ++ "description: Auto-generated Sigma rule" ++ Py.nl
               ++ "logsource:" ++ Py.nl
               ++ "  category: file_event" ++ Py.nl
               ++ "detection:" ++ Py.nl
               ++ "  keywords:" ++ Py.nl
               ++ "    - " ++ Py.dq ++ Py.take 20 content ++ Py.dq ++ Py.nl
               ++ "  condition: keywords" ++ Py.nl
               ++ "level: mediu")
              ++ String "m" Py.nl))
          by same_text
    end.
    rewrite strip_block by reflexivity. same_text. }
  split; [exact Hshape|]. rewrite Hshape. split.
  - exists "", (Py.nl
       ++ "id: " ++ Py.re_sub_W_plus filename ++ "-rule" ++ Py.nl
       ++ "status: experimental" ++ Py.nl
       ++ "description: Auto-generated Sigma rule" ++ Py.nl
       ++ "logsource:" ++ Py.nl
       ++ "  category: file_event" ++ Py.nl
       ++ "detection:" ++ Py.nl
       ++ "  keywords:" ++ Py.nl
       ++ "    - " ++ Py.dq ++ Py.take 20 content ++ Py.dq ++ Py.nl
       ++ "  condition: keywords" ++ Py.nl
       ++ "level: medium").
    same_text.
  - exists ("title: Detect " ++ Py.re_sub_W_plus filename ++ Py.nl
       ++ "id: " ++ Py.re_sub_W_plus filename ++ "-rule" ++ Py.nl
       ++ "status: experimental" ++ Py.nl
       ++ "description: Auto-generated Sigma rule" ++ Py.nl
       ++ "logsource:" ++ Py.nl
       ++ "  category: file_event" ++ Py.nl
       ++ "detection:" ++ Py.nl
       ++ "  keywords:" ++ Py.nl
       ++ "    - "),
      (Py.nl ++ "  condition: keywords" ++ Py.nl ++ "level: medium").
    same_text.
Qed.

(* ===================================================================== *)
(** ** The sanitizers *)
(* ===================================================================== *)

Lemma sub_nonword_runs_length (b : bool) (s : string) :
  (String.length (Py.sub_nonword_runs b s) <= String.length s)%nat.
Proof.
  revert b. induction s as [|c s IH]; intros b; [reflexivity|].
  cbn [Py.sub_nonword_runs String.length].
  destruct (Py.is_word c); [specialize (IH false); cbn [String.length]; lia|].
  destruct b; specialize (IH true); cbn [String.length]; lia.
Qed.

(** X12. [re.sub(r'\W+', '_', s)] returns word characters only, never a
    longer string, and it returns [s] itself exactly when [s] holds word
    characters only; hence applying it twice is applying it once. *)
Theorem re_sub_W_plus_fixpoints (s : string) :
  Py.all_chars Py.is_word (Py.re_sub_W_plus s) = true
  /\ (String.length (Py.re_sub_W_plus s) <= String.length s)%nat
  /\ (Py.re_sub_W_plus s = s <-> Py.all_chars Py.is_word s = true)
  /\ Py.re_sub_W_plus (Py.re_sub_W_plus s) = Py.re_sub_W_plus s.
Proof.
  unfold Py.re_sub_W_plus. split; [apply sub_nonword_runs_words|].
  split; [apply sub_nonword_runs_length|]. split.
  - split.
    + intros <-. apply sub_nonword_runs_words.
    + apply sub_nonword_runs_fixes_words.
  - apply sub_nonword_runs_fixes_words, sub_nonword_runs_words.
Qed.

Lemma dots_and_spaces_append (a b : string) :
  dots_and_spaces (a ++ b) = dots_and_spaces a ++ dots_and_spaces b.
Proof.
  induction a as [|c a IH]; [reflexivity|].
  change (String c a ++ b) with (String c (a ++ b)).
  rewrite !dots_and_spaces_cons, IH. reflexivity.
Qed.

Lemma dots_and_spaces_length (s : string) :
  String.length (dots_and_spaces s) = String.length s.
Proof.
  induction s as [|c s IH]; [reflexivity|].
  rewrite dots_and_spaces_cons. cbn [String.length]. rewrite IH. reflexivity.
Qed.

Lemma dots_and_spaces_lacks (sep : ascii) (s : string) :
  (forall c, Ascii.eqb (dot_or_space_to_underscore c) sep = false) ->
  Py.contains (String sep "") (dots_and_spaces s) = false.
Proof.
  intros Hsep. induction s as [|c s IH]; [reflexivity|].
  rewrite dots_and_spaces_cons, contains_char_cons, Hsep, IH. reflexivity.
Qed.

(** X13. The identifier of the rules of [rule_generator.py] is the file
    name with every dot and every space turned into an underscore, behind
    a fixed prefix: it has no dot and no space, it has the length of the
    file name plus that of the prefix, sanitizing twice changes nothing,
    and file names that differ only by a dot, a space or an underscore at
    some place share their identifier. *)
Theorem rule_identifier_shape (filename a b : string) :
  yara_rule_name filename = "Rule_" ++ dots_and_spaces filename
  /\ csv_rule_name filename = "CSV_Rule_" ++ dots_and_spaces filename
  /\ basic_rule_name filename = "Basic_Rule_" ++ dots_and_spaces filename
  /\ Py.contains "." (dots_and_spaces filename) = false
  /\ Py.contains " " (dots_and_spaces filename) = false
  /\ String.length (dots_and_spaces filename) = String.length filename
  /\ dots_and_spaces (dots_and_spaces filename) = dots_and_spaces filename
  /\ yara_rule_name (a ++ "." ++ b) = yara_rule_name (a ++ "_" ++ b)
  /\ yara_rule_name (a ++ " " ++ b) = yara_rule_name (a ++ "_" ++ b).
Proof.
  split; [reflexivity|]. split; [reflexivity|]. split; [reflexivity|].
  split; [|split; [|split; [|split; [|split]]]].
  - apply dots_and_spaces_lacks. intros c. each_char c.
  - apply dots_and_spaces_lacks. intros c. each_char c.
  - apply dots_and_spaces_length.
  - apply dots_and_spaces_idempotent.
  - unfold yara_rule_name. rewrite !dots_and_spaces_append. reflexivity.
  - unfold yara_rule_name. rewrite !dots_and_spaces_append. reflexivity.
Qed.

(* ===================================================================== *)
(** ** The converter script: a run *)
(* ===================================================================== *)

Section ConverterRun.

Variable utf8_strict : list byte -> res string.

Lemma read_text_strict_cases (file : string) (w : world) :
  ConverterScript.read_text_strict utf8_strict file w
  = (match w_node w file with
     | Missing =>
         Raise (FileNotFoundError
                  ("[Errno 2] No such file or directory: '" ++ file ++ "'"))
     | Directory _ _ _ =>
         Raise (IsADirectoryError ("[Errno 21] Is a directory: '" ++ file ++ "'"))
     | Regular f =>
         if f_openable f
         then if first_read_fails f
              then Raise (OSError "[Errno 5] Input/output error")
              else match utf8_strict (f_data f) with
                   | Ok text => Ok (universal_newlines text)
                   | Raise e => Raise e
                   end
         else Raise (PermissionError
                       ("[Errno 13] Permission denied: '" ++ file ++ "'"))
     | Inaccessible => Raise (permission_denied file)
     end, w).
Proof.
  unfold ConverterScript.read_text_strict, bind, open, lift, ret, f_read_all.
  destruct (w_node w file) as [| |f|]; try reflexivity.
  destruct (f_openable f); [|reflexivity].
  rewrite first_read. cbn [h_rest].
  destruct (first_read_fails f); [reflexivity|].
  rewrite firstn_all. destruct (utf8_strict (f_data f)); reflexivity.
Qed.

Lemma load_loop_world (paths : list string) :
  forall files w,
    snd (ConverterScript.load_loop utf8_strict paths files w) = w.
Proof.
  induction paths as [|p paths IH]; intros files w; [reflexivity|].
  cbn [ConverterScript.load_loop]. unfold bind, is_file.
  destruct (w_node w p) as [| |f|] eqn:Hnode;
    try apply IH; [|reflexivity].
  rewrite read_text_strict_cases. rewrite Hnode.
  destruct (if f_openable f then _ else _) as [text|e];
    [apply IH|reflexivity].
Qed.

Lemma load_loop_raises (paths : list string) :
  forall files w p e,
    In p paths ->
    (exists f, w_node w p = Regular f) ->
    fst (ConverterScript.read_text_strict utf8_strict p w) = Raise e ->
    exists e', fst (ConverterScript.load_loop utf8_strict paths files w) = Raise e'.
Proof.
  induction paths as [|p0 paths IH]; intros files w p e Hin Hreg Hread;
    [contradiction|].
  cbn [ConverterScript.load_loop]. unfold bind at 1. unfold is_file.
  destruct (w_node w p0) as [| |f0|] eqn:Hnode0.
  - destruct Hin as [->|Hin]; [destruct Hreg; congruence|].
    eapply IH; eassumption.
  - destruct Hin as [->|Hin]; [destruct Hreg; congruence|].
    eapply IH; eassumption.
  - unfold bind at 1.
    pose proof (read_text_strict_cases p0 w) as Hcase.
    destruct (ConverterScript.read_text_strict utf8_strict p0 w)
      as [[text|e0] w0] eqn:Hr0.
    + injection Hcase as _ ->.
      destruct Hin as [->|Hin].
      * rewrite Hr0 in Hread. discriminate.
      * eapply IH; eassumption.
    + exists e0. reflexivity.
  - eexists. reflexivity.
Qed.

Lemma load_loop_stems (paths : list string) :
  forall files w loaded,
    fst (ConverterScript.load_loop utf8_strict paths files w) = Ok loaded ->
    map fst loaded
    = (map fst files
       ++ map path_stem
            (filter (fun p => match w_node w p with
                              | Regular _ => true
                              | _ => false
                              end) paths))%list.
Proof.
  induction paths as [|p paths IH]; intros files w loaded Hload.
  - cbn in Hload. injection Hload as <-. cbn. rewrite app_nil_r. reflexivity.
  - cbn [ConverterScript.load_loop] in Hload. unfold bind at 1 in Hload.
    unfold is_file in Hload. cbn [filter].
    destruct (w_node w p) as [| |f|] eqn:Hnode;
      try (apply IH; exact Hload); [|discriminate Hload].
    unfold bind at 1 in Hload.
    pose proof (read_text_strict_cases p w) as Hcase.
    destruct (ConverterScript.read_text_strict utf8_strict p w)
      as [[text|e0] w0] eqn:Hr0; [|discriminate].
    injection Hcase as _ ->.
    rewrite (IH _ _ _ Hload), map_app. cbn [map fst app].
    rewrite <- app_assoc. reflexivity.
Qed.

Lemma convert_loop_writes (files : list (string * string)) :
  forall w,
    (forall p, w_write_denied w p = false) ->
    exists w',
      ConverterScript.convert_loop files w = (Ok tt, w')
      /\ w_written w' = (w_written w ++ flat_map converted_pair files)%list
      /\ w_stdout w' = w_stdout w
      /\ w_log w' = w_log w.
Proof.
  induction files as [|[fname content] files IH]; intros w Hall.
  - exists w. cbn. rewrite app_nil_r. repeat split.
  - cbn [ConverterScript.convert_loop]. unfold ConverterScript.save_rule, bind, ret.
    rewrite write_file_allowed by apply Hall. cbv beta iota.
    rewrite write_file_allowed by apply Hall. cbv beta iota.
    match goal with
    | |- context [ConverterScript.convert_loop files ?w1] =>
        destruct (IH w1 Hall) as (w' & Hrun & Hw & Hso & Hlog)
    end.
    exists w'. split; [exact Hrun|]. cbn [w_written w_stdout w_log] in Hw, Hso, Hlog.
    split; [|split; assumption].
    rewrite Hw. cbn [flat_map converted_pair fst snd].
    rewrite <- !app_assoc. reflexivity.
Qed.

(** X14. The converter script loads every input file before it converts
    any: when one regular file of the listing cannot be opened, read or
    decoded, [main] raises and leaves the world exactly as it was, so no
    rule file is written for the other files either and nothing is
    printed. *)
Theorem converter_aborts_before_writing (w : world) (name : string) (f : file) :
  In name (listing w ConverterScript.INPUT_DIR) ->
  w_node w (path_join ConverterScript.INPUT_DIR name) = Regular f ->
  (f_openable f = false
   \/ first_read_fails f = true
   \/ exists e, utf8_strict (f_data f) = Raise e) ->
  exists e', ConverterScript.main utf8_strict w = (Raise e', w).
Proof.
  intros Hin Hnode Hbad.
  assert (Hread : exists e,
             fst (ConverterScript.read_text_strict utf8_strict
                    (path_join ConverterScript.INPUT_DIR name) w) = Raise e).
  { rewrite read_text_strict_cases, Hnode. cbn [fst].
    destruct (f_openable f); [|eexists; reflexivity].
    destruct (first_read_fails f); [eexists; reflexivity|].
    destruct Hbad as [Hb|[Hb|[e Hb]]]; try discriminate.
    rewrite Hb. eexists. reflexivity. }
  destruct Hread as [e Hread].
  unfold ConverterScript.main, ConverterScript.load_input_files, bind, glob_all.
  unfold listing in Hin.
  destruct (w_node w ConverterScript.INPUT_DIR) as [|size mtime names| |]
    eqn:Hdir; try contradiction.
  destruct (load_loop_raises (map (path_join ConverterScript.INPUT_DIR) names)
              [] w _ e (in_map _ _ _ Hin) (ex_intro _ f Hnode) Hread)
    as [e' He'].
  pose proof (load_loop_world (map (path_join ConverterScript.INPUT_DIR) names)
                [] w) as Hw.
  destruct (ConverterScript.load_loop utf8_strict _ [] w) as [r w0].
  cbn [fst snd] in He', Hw. subst r w0. exists e'. reflexivity.
Qed.

(** X15. When loading succeeds and nothing is write-denied, the converter
    script returns normally: it loaded one file per regular file of the
    listing, in listing order and under its stem, it appends for each of
    them [<stem>.yara] and then [<stem>.yaml] under the output directory,
    and it prints the number of files at the end.  A missing input
    directory is an empty listing, not an error. *)
Theorem converter_writes_pairs (w : world) (files : list (string * string)) :
  fst (ConverterScript.load_input_files utf8_strict w) = Ok files ->
  (forall p, w_write_denied w p = false) ->
  exists w',
    ConverterScript.main utf8_strict w = (Ok tt, w')
    /\ map fst files
       = map (fun name => path_stem (path_join ConverterScript.INPUT_DIR name))
           (regular_children w ConverterScript.INPUT_DIR
              (listing w ConverterScript.INPUT_DIR))
    /\ w_written w' = (w_written w ++ flat_map converted_pair files)%list
    /\ w_stdout w'
       = (w_stdout w
          ++ [("Converted " ++ Py.str_of_nat (List.length files)
               ++ " files into security rules.")%string])%list.
Proof.
  intros Hload Hall.
  assert (Hglob : glob_all ConverterScript.INPUT_DIR w
                  = (Ok (map (path_join ConverterScript.INPUT_DIR)
                           (listing w ConverterScript.INPUT_DIR)), w)).
  { unfold ConverterScript.load_input_files in Hload.
    unfold bind at 1 in Hload. unfold glob_all, listing in Hload |- *.
    destruct (w_node w ConverterScript.INPUT_DIR);
      first [reflexivity | discriminate Hload]. }
  unfold ConverterScript.main.
  unfold ConverterScript.load_input_files in Hload |- *.
  unfold bind at 1 in Hload. unfold bind.
  rewrite Hglob in Hload |- *.
  pose proof (load_loop_world
                (map (path_join ConverterScript.INPUT_DIR)
                   (listing w ConverterScript.INPUT_DIR)) [] w) as Hw.
  pose proof (load_loop_stems _ _ _ _ Hload) as Hstems.
  destruct (ConverterScript.load_loop utf8_strict _ [] w) as [r w0].
  cbn [fst snd] in Hload, Hw. subst r w0.
  destruct (convert_loop_writes files w Hall) as (w1 & Hrun & Hwr & Hso & _).
  rewrite Hrun. unfold print. eexists. split; [reflexivity|].
  split.
  - rewrite Hstems. cbn [map app]. unfold regular_children.
    generalize (listing w ConverterScript.INPUT_DIR) as names.
    induction names as [|n names IH]; [reflexivity|].
    cbn [map filter].
    destruct (w_node w (path_join ConverterScript.INPUT_DIR n));
      cbn [map]; rewrite ?IH; reflexivity.
  - cbn [w_written w_stdout]. rewrite Hwr, Hso. split; reflexivity.
Qed.

End ConverterRun.

Lemma converter_aborts_before_writing_witness :
  In "b.c.txt" (listing (converter_world [xff]) ConverterScript.INPUT_DIR)
  /\ (exists e, strict_ascii (encode "x" ++ [xff]) = Raise e)
  /\ exists e',
      ConverterScript.main strict_ascii (converter_world [xff])
      = (Raise e', converter_world [xff]).
Proof.
  split; [cbn; tauto|]. split; [eexists; reflexivity|].
  apply (converter_aborts_before_writing strict_ascii (converter_world [xff])
           "b.c.txt"
           {| f_data := encode "x" ++ [xff]; f_mtime := 1700000000;
              f_openable := true; f_fault := None |}).
  - cbn. tauto.
  - reflexivity.
  - right. right. eexists. reflexivity.
Defined.

Lemma converter_writes_pairs_witness :
  exists files w',
    fst (ConverterScript.load_input_files strict_ascii (converter_world []))
    = Ok files
    /\ ConverterScript.main strict_ascii (converter_world []) = (Ok tt, w')
    /\ map fst (w_written w')
       = [ "converted_rules/a.yara"; "converted_rules/a.yaml";
           "converted_rules/b.c.yara"; "converted_rules/b.c.yaml" ]
    /\ w_stdout w' = ["Converted 2 files into security rules."].
Proof.
  eexists. 
  assert (Hload : fst (ConverterScript.load_input_files strict_ascii
                         (converter_world []))
                  = Ok [("a", "malicious_example_content_here"); ("b.c", "x")])
    by (vm_compute; reflexivity).
  destruct (converter_writes_pairs strict_ascii (converter_world []) _ Hload
              (fun _ => eq_refl))
    as (w' & Hrun & _ & Hw & Hso).
  exists w'. split; [exact Hload|]. split; [exact Hrun|].
  rewrite Hw, Hso. split; reflexivity.
Defined.

(* ===================================================================== *)
(** ** The exit status *)
(* ===================================================================== *)

Section ExitStatus.

Variable utf8_ignore : list byte -> string.





End ExitStatus.


(* ===================================================================== *)
(** ** The literal of an indicator entry *)
(* ===================================================================== *)

Lemma split_pieces_lack_sep (sep : ascii) (s : string) :
  Forall (fun piece => Py.contains (String sep "") piece = false)
         (Py.split sep s).
Proof.
  induction s as [|c s IH]; [repeat constructor|].
  cbn [Py.split]. destruct (Ascii.eqb c sep) eqn:Hc.
  - constructor; [reflexivity|exact IH].
  - destruct (Py.split sep s) as [|x xs]; [repeat constructor|].
    + rewrite contains_char_cons, Hc. reflexivity.
    + inversion IH as [|? ? Hx Hxs]; subst. constructor; [|exact Hxs].
      rewrite contains_char_cons, Hc, Hx. reflexivity.
Qed.

Lemma last_item_lacks_sep (sep : ascii) (s : string) :
  Py.contains (String sep "") (Py.last_item (Py.split sep s)) = false.
Proof.
  pose proof (split_pieces_lack_sep sep s) as Hall.
  pose proof (split_nonempty sep s) as Hne.
  unfold Py.last_item.
  induction Hall as [|x l Hx Hl IH]; [congruence|].
  destruct l as [|y l]; [exact Hx|]. apply IH. discriminate.
Qed.

Lemma lstrip_lacks (sep : ascii) (s : string) :
  Py.contains (String sep "") s = false ->
  Py.contains (String sep "") (Py.lstrip s) = false.
Proof.
  induction s as [|c s IH]; [intros H; exact H|].
  intros H. cbn [Py.lstrip]. destruct (Py.isspace c); [|exact H].
  rewrite contains_char_cons in H. apply orb_false_iff in H.
  apply IH. apply H.
Qed.

Lemma rstrip_lacks (sep : ascii) (s : string) :
  Py.contains (String sep "") s = false ->
  Py.contains (String sep "") (Py.rstrip s) = false.
Proof.
  induction s as [|c s IH]; [intros H; exact H|].
  rewrite contains_char_cons. intros H.
  apply orb_false_iff in H. destruct H as [Hc Hs]. specialize (IH Hs).
  cbn [Py.rstrip]. destruct (Py.rstrip s) as [|d r] eqn:Hr.
  - destruct (Py.isspace c); [reflexivity|].
    rewrite contains_char_cons, Hc. reflexivity.
  - rewrite contains_char_cons, Hc. exact IH.
Qed.

Lemma lstrip_head (s : string) :
  match Py.lstrip s with
  | EmptyString => True
  | String c _ => Py.isspace c = false
  end.
Proof.
  induction s as [|c s IH]; [exact I|].
  cbn [Py.lstrip]. destruct (Py.isspace c) eqn:Hc; [exact IH|exact Hc].
Qed.

Lemma rstrip_head (c : ascii) (s : string) :
  Py.isspace c = false ->
  exists r, Py.rstrip (String c s) = String c r.
Proof.
  intros Hc. cbn [Py.rstrip]. destruct (Py.rstrip s) as [|d r].
  - rewrite Hc. eexists. reflexivity.
  - eexists. reflexivity.
Qed.

(** X17. Whatever the indicator, the literal that [_create_strings_section]
    embeds for it holds no colon and does not start with a white space
    character: it is cut after the last colon of the indicator, so that a
    pattern with a colon of its own never reaches the rule in full. *)
Theorem indicator_literal_has_no_colon (i : nat) (indicator : string) :
  let literal := Py.strip (Py.last_item (Py.split ":" indicator)) in
  indicator_entry i indicator
  = "        $indicator_" ++ Py.str_of_nat (i + 1) ++ " = " ++ Py.dq
    ++ literal ++ Py.dq ++ " nocase"
  /\ Py.contains ":" literal = false
  /\ match literal with
     | EmptyString => True
     | String c _ => Py.isspace c = false
     end
  /\ forall kind pattern,
       Py.contains ":" pattern = true ->
       Py.strip (Py.last_item (Py.split ":" (kind ++ ": " ++ pattern)))
       <> pattern.
Proof.
  cbv zeta. split; [reflexivity|].
  assert (Hcolon : forall s,
             Py.contains ":" (Py.strip (Py.last_item (Py.split ":" s))) = false).
  { intros s. unfold Py.strip. apply rstrip_lacks, lstrip_lacks.
    apply last_item_lacks_sep. }
  split; [apply Hcolon|]. split.
  - unfold Py.strip.
    pose proof (lstrip_head (Py.last_item (Py.split ":" indicator))) as Hhead.
    destruct (Py.lstrip (Py.last_item (Py.split ":" indicator))) as [|c s];
      [exact I|].
    destruct (rstrip_head c s Hhead) as [r ->]. exact Hhead.
  - intros kind pattern Hpat Heq.
    pose proof (Hcolon (kind ++ ": " ++ pattern)) as Hno.
    rewrite Heq, Hpat in Hno. discriminate.
Qed.
